(** * miles-client: request composition, session validation and option fetchers

    A shallow embedding of [src/services/api.ts] and of the two campaign
    fetchers of [src/services/campaignApi.ts].

    Conventions of the embedding:
    - a JavaScript value of type [any] (a decoded JSON body, a token payload)
      is a [JsVal]; numbers are the integers ([Z]), which is the fragment of
      IEEE doubles the program computes with (pages, limits, counts, epoch
      seconds);
    - a function that may raise returns a [Result]; an [async] function that
      touches the secure store, the clock, the toast layer or the network is a
      state-and-exception computation [M] over a [World];
    - what the JavaScript runtime and the backend provide ([atob],
      [JSON.parse], [String.prototype.trim], [Date.prototype.toISOString],
      the conversion of a string to a number, the base URL and the server's
      answers) is the interface [Runtime]; every general statement holds for
      every runtime, and a concrete one is given for the examples;
    - [console.log]/[console.error] have no observable effect and are left
      out. *)

From Stdlib Require Import ZArith String Ascii List Bool Lia DecimalString DecimalZ.
From stdpp Require Import base option gmap strings list.

Local Open Scope string_scope.
Local Open Scope Z_scope.

(** ** JavaScript values *)

#[local] Set Warnings "-register-all".

Inductive JsVal : Type :=
| JUndefined
| JNull
| JBool (b : bool)
| JNum (n : Z)
| JStr (s : string)
| JArr (elems : list JsVal)
| JObj (fields : list (string * JsVal)).

(** Outcome of an expression that may raise: the value, or the message of the
    exception. What is raised is taken to be an [Error] object, as it is at
    every [throw] of the sources and for the exceptions of the runtime; its
    [message] is all that the handlers of the sources read. A promise
    rejected with another kind of value is outside this model. *)
Inductive Result (A : Type) : Type :=
| Ok (a : A)
| Throw (msg : string).
Arguments Ok {A} a.
Arguments Throw {A} msg.

Definition bindR {A B} (r : Result A) (k : A -> Result B) : Result B :=
  match r with
  | Ok a => k a
  | Throw e => Throw e
  end.

Declare Scope result_scope.
Delimit Scope result_scope with result.
Notation "'let!' x ':=' r 'in' k" := (bindR r (fun x => k))
  (at level 10, x name, r at level 100, k at level 200) : result_scope.
Local Open Scope result_scope.

Definition is_ok {A} (r : Result A) : bool :=
  match r with Ok _ => true | Throw _ => false end.

(** [arr.map(f)] on a native array, with the index passed to the callback;
    the first exception raised by a callback aborts the map. *)
Fixpoint mapi_from {A B} (i : nat) (f : A -> nat -> Result B) (l : list A)
  : Result (list B) :=
  match l with
  | [] => Ok []
  | x :: rest =>
      let! y := f x i in
      let! ys := mapi_from (S i) f rest in
      Ok (y :: ys)
  end.

Definition mapi {A B} (f : A -> nat -> Result B) (l : list A) : Result (list B) :=
  mapi_from 0 f l.

(** Truthiness ([ToBoolean]); [NaN] is not a [JsVal], a JSON text cannot
    denote it. *)
Definition truthy (v : JsVal) : bool :=
  match v with
  | JUndefined | JNull => false
  | JBool b => b
  | JNum n => negb (n =? 0)
  | JStr s => negb (String.eqb s "")
  | JArr _ | JObj _ => true
  end.

(** [a || b] *)
Definition js_or (a b : JsVal) : JsVal := if truthy a then a else b.

Definition isArray (v : JsVal) : bool :=
  match v with JArr _ => true | _ => false end.

Definition isNumber (v : JsVal) : bool :=
  match v with JNum _ => true | _ => false end.

Fixpoint assoc (k : string) (fields : list (string * JsVal)) : option JsVal :=
  match fields with
  | [] => None
  | (k', v) :: rest => if String.eqb k k' then Some v else assoc k rest
  end.

(** Property read [v.k], for the property names the program reads (none of
    them is a built-in property of strings, numbers, booleans or arrays):
    a [TypeError] on [undefined] and [null], the own property of an object,
    [undefined] everywhere else. *)
Definition get (v : JsVal) (k : string) : Result JsVal :=
  match v with
  | JUndefined => Throw ("TypeError: Cannot read property '" +:+ k +:+ "' of undefined")
  | JNull => Throw ("TypeError: Cannot read property '" +:+ k +:+ "' of null")
  | JObj fields => Ok (default JUndefined (assoc k fields))
  | _ => Ok JUndefined
  end.

Fixpoint assoc_string (k : string) (l : list (string * string)) : option string :=
  match l with
  | [] => None
  | (k', v) :: rest => if String.eqb k k' then Some v else assoc_string k rest
  end.

(** [v.map(f)]: only an array has a [map] method. *)
Definition js_map {B} (v : JsVal) (f : JsVal -> nat -> Result B) : Result (list B) :=
  match v with
  | JArr elems => mapi f elems
  | JUndefined => Throw "TypeError: Cannot read property 'map' of undefined"
  | JNull => Throw "TypeError: Cannot read property 'map' of null"
  | _ => Throw "TypeError: map is not a function"
  end.

(** ** Numbers

    A number of the program is an IEEE 754 double. The model holds the
    doubles that are integers, each as the integer it equals: the counts,
    pages, limits, times and status codes the program computes with. An
    integer is such a double when it has at most 53 significant bits
    ([is_double]); every integer up to [2^53] in magnitude is one. *)

(** The double nearest to the integer [z], ties going to the even
    significand. A result of magnitude [2^1024] stands for an overflow. *)
Definition round53 (z : Z) : Z :=
  let a := Z.abs z in
  if a <? 2 ^ 53 then z
  else
    let k := Z.log2 a - 52 in
    let q := a / 2 ^ k in
    let r := a mod 2 ^ k in
    let half := 2 ^ (k - 1) in
    let q' := if r <? half then q
              else if half <? r then q + 1
              else if Z.even q then q else q + 1 in
    Z.sgn z * (q' * 2 ^ k).

Definition is_double (z : Z) : bool := (round53 z =? z) && (Z.abs z <? 2 ^ 1024).

(** The result of an arithmetic operation: a finite double, an infinity or
    [NaN]. The two zeros are not told apart (they print alike). *)
Inductive Num :=
| Finite (z : Z)
| Infinity (negative : bool)
| NaN.

(** The double for the exact result [z] of an operation on finite doubles. *)
Definition to_Num (z : Z) : Num :=
  let r := round53 z in
  if 2 ^ 1024 <=? Z.abs r then Infinity (z <? 0) else Finite r.

(** [a + b], [a - b] and [a * b] *)
Definition js_add (a b : Num) : Num :=
  match a, b with
  | NaN, _ | _, NaN => NaN
  | Finite x, Finite y => to_Num (x + y)
  | Infinity s, Infinity s' => if Bool.eqb s s' then Infinity s else NaN
  | Infinity s, Finite _ | Finite _, Infinity s => Infinity s
  end.

Definition js_neg (a : Num) : Num :=
  match a with
  | Finite x => Finite (- x)
  | Infinity s => Infinity (negb s)
  | NaN => NaN
  end.

Definition js_sub (a b : Num) : Num := js_add a (js_neg b).

Definition js_mul (a b : Num) : Num :=
  match a, b with
  | NaN, _ | _, NaN => NaN
  | Finite x, Finite y => to_Num (x * y)
  | Infinity s, Infinity s' => Infinity (xorb s s')
  | Infinity s, Finite y | Finite y, Infinity s =>
      if y =? 0 then NaN else Infinity (xorb s (y <? 0))
  end.

(** The decimal numeral of an integer. *)
Definition decimal (n : Z) : string :=
  NilZero.string_of_int (Z.to_int n).

(** The number of decimal digits of [x > 0]. *)
Definition ndigits (x : Z) : Z := Z.of_nat (String.length (decimal x)).

(** The integer with the fewest significant digits that reads as the double
    [x > 0], the nearest to [x] when there are several: for [k] significant
    digits, from [k] on, the multiples of the unit of the [k]-th digit on
    either side of [x]. Seventeen digits tell any two doubles apart. *)
Fixpoint shortest_from (fuel : nat) (k d x : Z) : Z :=
  match fuel with
  | O => x
  | S fuel' =>
      let u := 10 ^ Z.max 0 (d - k) in
      let lo := x / u * u in
      let hi := lo + u in
      let lo_reads := round53 lo =? x in
      let hi_reads := round53 hi =? x in
      if lo_reads && hi_reads then
        if x - lo <? hi - x then lo
        else if hi - x <? x - lo then hi
        else if Z.even (lo / u) then lo else hi
      else if lo_reads then lo
      else if hi_reads then hi
      else shortest_from fuel' (k + 1) d x
  end.

Definition shortest (x : Z) : Z := shortest_from 17 1 (ndigits x) x.

Fixpoint strip_zeros (l : list ascii) : list ascii :=
  match l with
  | [] => []
  | c :: rest =>
      match strip_zeros rest with
      | [] => if Ascii.eqb c "0" then [] else [c]
      | rest' => c :: rest'
      end
  end.

(** The digits of [v > 0] as the program prints them: the numeral below
    [10^21], the exponent form from there on. *)
Definition print_digits (v : Z) : string :=
  if v <? 10 ^ 21 then decimal v
  else
    match strip_zeros (list_ascii_of_string (decimal v)) with
    | [] => decimal v
    | [c] => String c ("e+" +:+ decimal (ndigits v - 1))
    | c :: rest =>
        String c ("." +:+ string_of_list_ascii rest
                  +:+ "e+" +:+ decimal (ndigits v - 1))
    end.

(** [Number.prototype.toString()] on a finite double that is an integer: the
    shortest digits that read back as it. *)
Definition Number_toString (n : Z) : string :=
  if n =? 0 then "0"
  else if n <? 0 then "-" +:+ print_digits (shortest (- n))
  else print_digits (shortest n).

(** [String(x)] for the result of an operation. *)
Definition Num_toString (x : Num) : string :=
  match x with
  | Finite z => Number_toString z
  | Infinity false => "Infinity"
  | Infinity true => "-Infinity"
  | NaN => "NaN"
  end.

Fixpoint join (sep : string) (l : list string) : string :=
  match l with
  | [] => ""
  | [s] => s
  | s :: rest => s +:+ sep +:+ join sep rest
  end.

(** [ToString], as string concatenation applies it to an operand. An array is
    joined with commas ([null] and [undefined] elements print as nothing); a
    decoded JSON object prints as [[object Object]] unless it carries an own,
    hence non-callable, [toString] property, in which case the conversion
    raises. *)
Fixpoint ToString (v : JsVal) : Result string :=
  match v with
  | JUndefined => Ok "undefined"
  | JNull => Ok "null"
  | JBool b => Ok (if b then "true" else "false")
  | JNum n => Ok (Number_toString n)
  | JStr s => Ok s
  | JArr elems =>
      let! parts :=
        (fix go (l : list JsVal) : Result (list string) :=
           match l with
           | [] => Ok []
           | e :: rest =>
               let! s := match e with
                         | JUndefined | JNull => Ok ""
                         | _ => ToString e
                         end in
               let! ss := go rest in
               Ok (s :: ss)
           end) elems in
      Ok (join "," parts)
  | JObj fields =>
      match assoc "toString" fields with
      | Some _ => Throw "TypeError: Cannot convert object to primitive value"
      | None => Ok "[object Object]"
      end
  end.

(** [ToNumber]; [None] is [NaN]. The reading of a string as a number is the
    runtime's ([StringToNumber], see [Runtime] below) and is passed in. *)
Definition ToNumber (strToNum : string -> option Z) (v : JsVal) : Result (option Z) :=
  match v with
  | JUndefined => Ok None
  | JNull => Ok (Some 0)
  | JBool b => Ok (Some (if b then 1 else 0))
  | JNum n => Ok (Some n)
  | JStr s => Ok (strToNum s)
  | JArr _ | JObj _ => let! s := ToString v in Ok (strToNum s)
  end.

(** [n > v] for a number [n]: false as soon as [v] converts to [NaN]. *)
Definition js_gt (strToNum : string -> option Z) (n : Z) (v : JsVal) : Result bool :=
  let! m := ToNumber strToNum v in
  Ok (match m with Some e => Z.ltb e n | None => false end).

(** [s.split(c)] for a one-character separator. *)
Fixpoint split (c : ascii) (s : string) : list string :=
  match s with
  | EmptyString => [""]
  | String a rest =>
      let parts := split c rest in
      if Ascii.eqb a c then "" :: parts
      else match parts with
           | p :: ps => String a p :: ps
           | [] => [String a ""]
           end
  end.

(** A string operand of [!], [&&] or [||]. *)
Definition nonempty (s : string) : bool := negb (String.eqb s "").

(** ** Data model of [api.ts] and [campaignApi.ts] *)

Record Permissions := { lead : option (list string) }.

(** [user: any], with the three properties the program reads. *)
Record User := {
  user_id : string;
  user_role : string;
  user_permissions : option Permissions;
}.

(** [FilterOptions]; a field the composer guards with [||] or [&&] may be
    missing ([None]). A [Date] is its time value in milliseconds. *)
Record FilterOptions := {
  filter_searchTerm : string;
  filter_searchBoxFilters : option (list string);
  filter_selectedAgents : option (list string);
  filter_selectedStatuses : option (list string);
  filter_selectedSources : option (list string);
  filter_selectedTags : option (list string);
  filter_dateRange : option (option Z * option Z);
  filter_dateFor : string;
}.

(** [LeadRequestOptions]: both properties are optional. *)
Record LeadRequestOptions := {
  includeNonAssigned : option bool;
  viewAllLeads : option bool;
}.

Definition no_options : LeadRequestOptions :=
  {| includeNonAssigned := None; viewAllLeads := None |}.

Record PaginationParams := { page : Z; limit : Z }.

(** The object [buildLeadsRequestBody] returns. The two scope flags are
    properties that may be absent. *)
Record LeadsRequestBody := {
  body_searchTerm : string;
  body_selectedAgents : list string;
  body_selectedStatuses : list string;
  body_selectedSources : list string;
  body_selectedTags : list string;
  body_date : list string;
  body_dateFor : string;
  body_searchBoxFilters : list string;
  body_page : Num;
  body_limit : string;
  body_userid : string;
  body_includeNonAssigned : option bool;
  body_viewAllLeads : option bool;
}.

Record LeadsResponse := { data : list JsVal; totalLeads : JsVal }.

Record FilterOption := {
  value : JsVal;
  label : JsVal;
  color : option JsVal;
}.

Record TagsResponse := {
  options : list FilterOption;
  hasMore : bool;
  totalCount : JsVal;
}.

Definition empty_tags : TagsResponse :=
  {| options := []; hasMore := false; totalCount := JNum 0 |}.

Record CampaignFilters := {
  campaignName : string;
  campaign_page : option Z;
  campaign_limit : option Z;
}.

Record CampaignLeadsResponse := {
  cl_message : JsVal;
  cl_data : list JsVal;
  cl_totalLeads : JsVal;
}.

Record CampaignsWithCountsResponse := {
  cc_data : JsVal;
  cc_pagination : JsVal;
}.

(** ** The transport *)

Inductive ReqBody :=
| NoBody
| LeadsBody (b : LeadsRequestBody)
| CampaignBody (name : string) (pg lim : Z).

(** A call of [fetch]: the URL up to the query string, the query parameters
    before encoding, the headers and the body before [JSON.stringify]. *)
Record Request := {
  req_method : string;
  req_url : string;
  req_query : list (string * string);
  req_headers : list (string * string);
  req_body : ReqBody;
}.

(** A [Response]: [resp_json] is what [response.json()] resolves to ([None]
    when the body is not JSON and the promise rejects). *)
Record Response := {
  status : Z;
  resp_json : option JsVal;
  resp_text : string;
}.

Definition ok (r : Response) : bool := (200 <=? status r) && (status r <=? 299).

(** How a call of [fetch] settles, and after how many milliseconds. *)
Record NetOutcome := {
  elapsed_ms : Z;
  settled : Result Response;
}.

(** What the program takes from its environment. [None] stands for a raised
    exception ([atob], [JSON_parse]) or for [NaN] ([StringToNumber]). The
    server sees the requests issued so far and the current one. *)
Class Runtime := {
  atob : string -> option string;
  JSON_parse : string -> option JsVal;
  StringToNumber : string -> option Z;
  String_trim : string -> string;
  Date_toISOString : Z -> string;
  BASE_URL : string;
  server : list Request -> Request -> NetOutcome;
}.

(** ** Effects *)

(** The secure store, the clock, the toasts shown (oldest first) and the
    network requests issued (oldest first). *)
Record World := {
  secureStore : gmap string string;
  now_ms : Z;
  toasts : list string;
  requests : list Request;
}.

Definition M (A : Type) : Type := World -> Result A * World.

Definition ret {A} (a : A) : M A := fun w => (Ok a, w).

Definition throw {A} (msg : string) : M A := fun w => (Throw msg, w).

Definition bind {A B} (m : M A) (k : A -> M B) : M B :=
  fun w => match m w with
           | (Ok a, w') => k a w'
           | (Throw e, w') => (Throw e, w')
           end.

(** [try { body } catch (e) { handler }] *)
Definition try_catch {A} (body : M A) (handler : string -> M A) : M A :=
  fun w => match body w with
           | (Ok a, w') => (Ok a, w')
           | (Throw e, w') => handler e w'
           end.

Definition liftR {A} (r : Result A) : M A := fun w => (r, w).

Declare Scope m_scope.
Delimit Scope m_scope with M.
Notation "'do' x '<-' m ';' k" := (bind m (fun x => k))
  (at level 10, x name, m at level 100, k at level 200) : m_scope.
Notation "m ';;' k" := (bind m (fun _ => k))
  (at level 100, k at level 200, right associativity) : m_scope.

Definition SecureStore_getItemAsync (key : string) : M (option string) :=
  fun w => (Ok (secureStore w !! key), w).

Definition SecureStore_deleteItemAsync (key : string) : M unit :=
  fun w => (Ok tt, {| secureStore := delete key (secureStore w);
                      now_ms := now_ms w;
                      toasts := toasts w;
                      requests := requests w |}).

Definition Toast_show (msg : string) : M unit :=
  fun w => (Ok tt, {| secureStore := secureStore w;
                      now_ms := now_ms w;
                      toasts := toasts w ++ [msg];
                      requests := requests w |}).

Definition Date_now : M Z := fun w => (Ok (now_ms w), w).

(** The world once [req] has gone out and [t] milliseconds have passed. *)
Definition set_net (w : World) (t : Z) (req : Request) : World :=
  {| secureStore := secureStore w;
     now_ms := now_ms w + t;
     toasts := toasts w;
     requests := requests w ++ [req] |}.

(** A stored item as the operand of [!]: [null] and the empty string are
    both falsy. *)
Definition present (item : option string) : option string :=
  match item with
  | Some s => if nonempty s then Some s else None
  | None => None
  end.

(** [l.includes(x)] *)
Definition includes (x : string) (l : list string) : bool :=
  existsb (String.eqb x) l.

(** [d !== null], also [d] as an operand of [||] for an object [d]. *)
Definition notNull {A} (d : option A) : bool :=
  match d with Some _ => true | None => false end.

(** [{...earlier, ...later}] at one optional property. *)
Definition spread {A} (earlier later : option A) : option A :=
  match later with
  | Some a => Some a
  | None => earlier
  end.

(** ** The program *)

Section Program.
Context `{RT : Runtime}.

Local Open Scope m_scope.

(** [await fetch(url, init)]: the request is issued, then the call settles. *)
Definition js_fetch (req : Request) : M Response :=
  fun w => let out := server (requests w) req in
           (settled out, set_net w (elapsed_ms out) req).

(** [await Promise.race([fetch(url, init), timeout])], the timeout rejecting
    with [msg] after [ms] milliseconds. The request is issued in both cases.
    The fetch is started before the timer is set: an answer that is there
    when the timer fires has won the race. *)
Definition js_fetch_race (ms : Z) (msg : string) (req : Request) : M Response :=
  fun w => let out := server (requests w) req in
           if elapsed_ms out <=? ms then (settled out, set_net w (elapsed_ms out) req)
           else (Throw msg, set_net w ms req).

(** [await response.json()] *)
Definition response_json (r : Response) : M JsVal :=
  match resp_json r with
  | Some v => ret v
  | None => throw "SyntaxError: JSON Parse error"
  end.

(** *** [createAuthHeaders] (api.ts, 46-60) *)
Definition createAuthHeaders : M (list (string * string)) :=
  do storedToken <- SecureStore_getItemAsync "userToken";
  match present storedToken with
  | None => throw "No authentication token available"
  | Some storedToken =>
      ret [ ("accept", "application/json, text/plain, */*");
            ("content-type", "application/json");
            ("Cookie", "token=" +:+ storedToken);
            ("referer", BASE_URL +:+ "/Leads/Marketing");
            ("origin", BASE_URL);
            ("user-agent",
             "Mozilla/5.0 (iPhone; CPU iPhone OS 17_0 like Mac OS X) AppleWebKit/605.1.15 (KHTML, like Gecko) MilesClient-Mobile/1.0.0");
            ("x-requested-with", "XMLHttpRequest") ]
  end.

(** [JSON.parse(atob(storedToken.split('.')[1]))]; a token without a dot has
    no second segment and [atob] receives [undefined], which it reads as the
    string of that name. *)
Definition decodePayload (storedToken : string) : Result JsVal :=
  let segment := match split "." storedToken with
                 | _ :: s :: _ => s
                 | _ => "undefined"
                 end in
  match atob segment with
  | None => Throw "InvalidCharacterError"
  | Some text =>
      match JSON_parse text with
      | None => Throw "SyntaxError: JSON Parse error"
      | Some v => Ok v
      end
  end.

(** *** [validateAuthToken] (api.ts, 66-96) *)
Definition validateAuthToken : M bool :=
  try_catch
    (do storedToken <- SecureStore_getItemAsync "userToken";
     match present storedToken with
     | None =>
         Toast_show "Please login again to access leads" ;;
         ret false
     | Some storedToken =>
         do tokenPayload <- liftR (decodePayload storedToken);
         do now <- Date_now;
         let currentTime := now / 1000 in
         do tokenExpiry <- liftR (get tokenPayload "exp");
         do expired <- liftR (js_gt StringToNumber currentTime tokenExpiry);
         if (expired : bool) then
           Toast_show "Your session has expired. Please login again." ;;
           SecureStore_deleteItemAsync "userToken" ;;
           ret false
         else ret true
     end)
    (fun tokenError =>
       Toast_show "Invalid session token. Please login again." ;;
       SecureStore_deleteItemAsync "userToken" ;;
       ret false).

(** [user.permissions?.lead?.includes(c)], as an operand of [||]. *)
Definition lead_includes (user : User) (c : string) : bool :=
  match user_permissions user with
  | Some p => match lead p with
              | Some l => includes c l
              | None => false
              end
  | None => false
  end.

(** *** [buildLeadsRequestBody] (api.ts, 101-156) *)
Definition buildLeadsRequestBody (user : User) (filters : FilterOptions)
    (searchText : string) (pagination : PaginationParams)
    (options : LeadRequestOptions) : LeadsRequestBody :=
  let '(selectedAgents, requestOptions) :=
    match filter_selectedAgents filters with
    | Some ((_ :: _) as selected) =>
        let hasNonAssigned := includes "non-assigned" selected in
        if hasNonAssigned then
          (selected,
           {| includeNonAssigned := Some true;
              viewAllLeads :=
                if lead_includes user "view_non_assigned"
                   || lead_includes user "view_all"
                   || String.eqb (user_role user) "superAdmin"
                then Some true else None |})
        else (selected, no_options)
    | _ =>
        if String.eqb (user_role user) "superAdmin"
        then ([], {| includeNonAssigned := None; viewAllLeads := Some true |})
        else ([user_id user], no_options)
    end in
  {| body_searchTerm := String_trim searchText;
     body_selectedAgents := selectedAgents;
     body_selectedStatuses := default [] (filter_selectedStatuses filters);
     body_selectedSources := default [] (filter_selectedSources filters);
     body_selectedTags := default [] (filter_selectedTags filters);
     body_date :=
       match filter_dateRange filters with
       | Some (d0, d1) =>
           if notNull d0 || notNull d1
           then map Date_toISOString (omap (fun d => d) [d0; d1])
           else []
       | None => []
       end;
     body_dateFor :=
       if nonempty (filter_dateFor filters) then filter_dateFor filters
       else "LeadIntroduction";
     body_searchBoxFilters := default ["LeadInfo"] (filter_searchBoxFilters filters);
     body_page := js_add (Finite (page pagination)) (Finite 1);
     body_limit := Number_toString (limit pagination);
     body_userid := user_id user;
     body_includeNonAssigned :=
       spread (includeNonAssigned requestOptions) (includeNonAssigned options);
     body_viewAllLeads :=
       spread (viewAllLeads requestOptions) (viewAllLeads options) |}.

(** *** [fetchLeads] (api.ts, 161-213). The logging of [Object.keys(data)]
    raises exactly when [data.data] does, on a [null] body. *)
Definition fetchLeads (user : option User) (filters : FilterOptions)
    (searchText : string) (pagination : PaginationParams)
    (options : LeadRequestOptions) : M LeadsResponse :=
  match user with
  | None => throw "User not available"
  | Some user =>
      if negb (nonempty (user_id user)) then throw "User not available"
      else
        do valid <- validateAuthToken;
        if negb valid then throw "Authentication failed"
        else
          do headers <- createAuthHeaders;
          let requestBody :=
            buildLeadsRequestBody user filters searchText pagination options in
          do response <- js_fetch {| req_method := "POST";
                                     req_url := BASE_URL +:+ "/api/Lead/get";
                                     req_query := [];
                                     req_headers := headers;
                                     req_body := LeadsBody requestBody |};
          if negb (ok response) then
            throw ("Failed to fetch leads: " +:+ Number_toString (status response))
          else
            do body <- response_json response;
            do rows <- liftR (get body "data");
            do total <- liftR (get body "totalLeads");
            ret {| data := match rows with JArr l => l | _ => [] end;
                   totalLeads := js_or total (JNum 0) |}
  end.

Definition GET (url : string) (query : list (string * string))
    (headers : list (string * string)) : Request :=
  {| req_method := "GET"; req_url := url; req_query := query;
     req_headers := headers; req_body := NoBody |}.

(** *** [fetchStatusOptions] (api.ts, 218-241) *)
Definition fetchStatusOptions : M (list FilterOption) :=
  try_catch
    (do headers <- createAuthHeaders;
     do response <- js_fetch (GET (BASE_URL +:+ "/api/Status/get") [] headers);
     if ok response then
       do body <- response_json response;
       liftR (let! rows := get body "data" in
              js_map rows (fun status _ =>
                let! v := get status "_id" in
                let! l := get status "Status" in
                let! c := get status "color" in
                Ok {| value := v; label := l; color := Some c |}))
     else ret [])
    (fun error => ret []).

(** *** [fetchSourceOptions] (api.ts, 246-268) *)
Definition fetchSourceOptions : M (list FilterOption) :=
  try_catch
    (do headers <- createAuthHeaders;
     do response <- js_fetch (GET (BASE_URL +:+ "/api/Source/get") [] headers);
     if ok response then
       do body <- response_json response;
       liftR (let! rows := get body "data" in
              js_map rows (fun source _ =>
                let! v := get source "_id" in
                let! l := get source "Source" in
                Ok {| value := v; label := l; color := None |}))
     else ret [])
    (fun error => ret []).

(** The 2xx branch of [fetchTagOptions] (api.ts, 295-305), from the decoded
    body. In [tag.Tag + '::' + (page - 1) * limit + index] the product binds
    first and the additions associate to the left, each with a string on its
    left: three concatenations. *)
Definition tagsOfBody (pg lim : Z) (body : JsVal) : Result TagsResponse :=
  let! rows := get body "data" in
  let! tagOpts :=
    js_map rows (fun tag index =>
      let! l := get tag "Tag" in
      let! prefix := ToString l in
      Ok {| label := l;
            value := JStr (prefix +:+ "::"
                           +:+ Num_toString (js_mul (js_sub (Finite pg) (Finite 1))
                                                    (Finite lim))
                           +:+ Number_toString (Z.of_nat index));
            color := None |}) in
  let! totalTags := get body "totalTags" in
  let! total := get body "total" in
  Ok {| options := tagOpts;
        hasMore := Z.of_nat (length tagOpts) =? lim;
        totalCount :=
          js_or (js_or totalTags total) (JNum (Z.of_nat (length tagOpts))) |}.

(** *** [fetchTagOptions] (api.ts, 273-314); the defaults of the parameters
    are [1], [50] and the empty string. *)
Definition fetchTagOptions (pg lim : Z) (searchTerm : string) : M TagsResponse :=
  try_catch
    (do headers <- createAuthHeaders;
     let queryParams :=
       ([("page", Number_toString pg); ("limit", Number_toString lim)]
        ++ (if nonempty searchTerm then [("search", searchTerm)] else []))%list in
     do response <- js_fetch (GET (BASE_URL +:+ "/api/tags/get") queryParams headers);
     if ok response then
       do body <- response_json response;
       liftR (tagsOfBody pg lim body)
     else ret empty_tags)
    (fun error => ret empty_tags).

(** *** [transformAgentsDataToTreeSelect] (api.ts, 319-340)

    The function calls itself on the singleton [[subordinate]] and keeps the
    [children] of the first node of the result. [fuel] bounds the depth of
    these calls; running out of it is the engine's stack overflow. *)
Fixpoint transformAgentsDataToTreeSelect_at (fuel : nat) (data : JsVal)
  : Result JsVal :=
  match fuel with
  | O => Throw "RangeError: Maximum call stack size exceeded"
  | S fuel' =>
      if negb (truthy data) || negb (isArray data) then Ok (JArr [])
      else
        let! nodes :=
          js_map data (fun userData _ =>
            let! id := get userData "_id" in
            let! username := get userData "username" in
            let! subordinates := get userData "subordinates" in
            let! children :=
              if truthy subordinates then
                let! subnodes :=
                  js_map subordinates (fun subordinate _ =>
                    let! sid := get subordinate "_id" in
                    let! sname := get subordinate "username" in
                    let! email := get subordinate "email" in
                    let! personalemail := get subordinate "personalemail" in
                    let! isVerified := get subordinate "isVerified" in
                    let! nested := get subordinate "subordinates" in
                    let! grandchildren :=
                      if truthy nested then
                        let! tree :=
                          transformAgentsDataToTreeSelect_at fuel' (JArr [subordinate]) in
                        let! first :=
                          match tree with
                          | JArr (node :: _) => Ok node
                          | _ => Ok JUndefined
                          end in
                        get first "children"
                      else Ok JUndefined in
                    Ok (JObj [ ("value", sid); ("title", sname); ("label", sname);
                               ("email", email); ("personalEmail", personalemail);
                               ("isVerified", isVerified);
                               ("children", grandchildren) ])) in
                Ok (JArr subnodes)
              else Ok JUndefined in
            Ok (JObj [ ("value", id); ("title", username); ("label", username);
                       ("children", children) ])) in
        Ok (JArr nodes)
  end.

(** Nesting depth of a value. *)
Fixpoint depth (v : JsVal) : nat :=
  match v with
  | JArr elems => S (list_max (map depth elems))
  | JObj fields => S (list_max (map (fun kv => depth (snd kv)) fields))
  | _ => O
  end.

(** The function itself: the call stack is as deep as the data requires. *)
Definition transformAgentsDataToTreeSelect (data : JsVal) : Result JsVal :=
  transformAgentsDataToTreeSelect_at (S (depth data)) data.

Definition nonAssignedNode : JsVal :=
  JObj [ ("value", JStr "non-assigned");
         ("title", JStr "Non-Assigned Leads");
         ("label", JStr "Non-Assigned Leads") ].

(** The elements a spread [...v] contributes for an array [v]. *)
Definition elements_of (v : JsVal) : list JsVal :=
  match v with JArr l => l | _ => [] end.

(** *** [fetchAgents] (api.ts, 345-388) *)
Definition fetchAgents (user : option User) : M (list JsVal) :=
  match user with
  | None => ret []
  | Some user =>
      if negb (nonempty (user_id user)) then ret []
      else
        try_catch
          (do headers <- createAuthHeaders;
           do response <- js_fetch (GET (BASE_URL +:+ "/api/staff/get")
                                        [("preserveHierarchy", "true")] headers);
           if ok response then
             do body <- response_json response;
             do rows <- liftR (get body "data");
             do treeData <- liftR (transformAgentsDataToTreeSelect rows);
             let hasViewAllPermission :=
               lead_includes user "view_all"
               || lead_includes user "view_non_assigned"
               || String.eqb (user_role user) "superAdmin" in
             ret (if hasViewAllPermission
                  then nonAssignedNode :: elements_of treeData
                  else elements_of treeData)
           else ret [])
          (fun error => ret [])
  end.

(** [n || d] for an optional number [n]. *)
Definition num_or (n : option Z) (d : Z) : Z :=
  match n with
  | Some v => if v =? 0 then d else v
  | None => d
  end.

(** Modelled from the spec: [campaignApi.ts] imports [createAuthHeaders] from
    ['./api/auth'], a file that is not among the sources. The spec has one
    builder of the auth headers for all fetch operations (4.2, 6); it is
    taken to be the function of that name in [api.ts]. *)
Definition auth_createAuthHeaders : M (list (string * string)) :=
  createAuthHeaders.

(** Modelled from the spec: [campaignApi.ts] imports [validateAuthToken] from
    ['./api/auth'], a file that is not among the sources. The spec has one
    session validator for all fetch operations (4.1); it is taken to be the
    function of that name in [api.ts]. *)
Definition auth_validateAuthToken : M bool := validateAuthToken.

(** *** [fetchCampaignLeads] (campaignApi.ts, 36-81) *)
Definition fetchCampaignLeads (campaignFilters : CampaignFilters)
  : M CampaignLeadsResponse :=
  if negb (nonempty (campaignName campaignFilters)) then
    throw "Campaign name is required"
  else
    do headers <- auth_createAuthHeaders;
    let requestBody :=
      CampaignBody (campaignName campaignFilters)
                   (num_or (campaign_page campaignFilters) 1)
                   (num_or (campaign_limit campaignFilters) 50) in
    do response <- js_fetch {| req_method := "POST";
                               req_url := BASE_URL +:+ "/api/Lead/campaign";
                               req_query := [];
                               req_headers := headers;
                               req_body := requestBody |};
    if negb (ok response) then
      throw ("Failed to fetch campaign leads: HTTP "
             +:+ Number_toString (status response) +:+ " - " +:+ resp_text response)
    else
      do body <- response_json response;
      do message <- liftR (get body "message");
      do rows <- liftR (get body "data");
      do total <- liftR (get body "totalLeads");
      ret {| cl_message := message;
             cl_data := match rows with JArr l => l | _ => [] end;
             cl_totalLeads := js_or total (JNum 0) |}.

(** The argument of the result log of [fetchCampaignsWithCounts]
    (campaignApi.ts, 141-150): [result.data?.slice(0, 2)?.map(...)] raises
    when [result.data] is neither nullish nor an array, or when one of its
    first two rows is nullish. *)
Definition sampleData (rows : JsVal) : Result unit :=
  match rows with
  | JUndefined | JNull => Ok tt
  | JArr l =>
      let! _ := mapi (fun item _ =>
                        let! i := get item "_id" in
                        let! t := get item "Tag" in
                        get item "leadCount") (take 2 l) in
      Ok tt
  | _ => Throw "TypeError: undefined is not a function"
  end.

(** *** [fetchCampaignsWithCounts] (campaignApi.ts, 86-164); the defaults of
    the parameters are [1] and [100]. The result of the validation is logged
    and not tested. *)
Definition fetchCampaignsWithCounts (pg lim : Z) : M CampaignsWithCountsResponse :=
  do tokenValid <- auth_validateAuthToken;
  do headers <- auth_createAuthHeaders;
  let campaignsUrl := BASE_URL +:+ "/api/campaigns/with-counts" in
  let query := [ ("page", Number_toString pg); ("limit", Number_toString lim);
                 ("sortBy", "leadCount"); ("sortOrder", "desc") ] in
  try_catch
    (do response <- js_fetch_race 30000 "Request timeout after 30s"
                                  (GET campaignsUrl query headers);
     if negb (ok response) then
       throw ("Failed to fetch campaigns: HTTP "
              +:+ Number_toString (status response) +:+ " - " +:+ resp_text response)
     else
       do result <- response_json response;
       do rows <- liftR (get result "data");
       do _ <- liftR (sampleData rows);
       do pagination <- liftR (get result "pagination");
       ret {| cc_data := js_or rows (JArr []); cc_pagination := pagination |})
    (fun error => throw error).

End Program.

(** ** A concrete runtime, for the examples

    [atob] is the forgiving Base64 decoder of the HTML standard. [JSON.parse]
    is implemented on the JSON texts built from objects, arrays, strings
    without escapes, integers and the three literals; on other texts this
    parser gives up, which the examples never meet. *)

Module Sample.

Definition is_b64_space (c : ascii) : bool :=
  let n := N_of_ascii c in
  ((n =? 9) || (n =? 10) || (n =? 12) || (n =? 13) || (n =? 32))%N.

Definition sextet (c : ascii) : option N :=
  let n := N_of_ascii c in
  (if (65 <=? n) && (n <=? 90) then Some (n - 65)
   else if (97 <=? n) && (n <=? 122) then Some (n - 71)
   else if (48 <=? n) && (n <=? 57) then Some (n + 4)
   else if n =? 43 then Some 62
   else if n =? 47 then Some 63
   else None)%N.

Fixpoint sextets (l : list ascii) : option (list N) :=
  match l with
  | [] => Some []
  | c :: rest =>
      match sextet c, sextets rest with
      | Some n, Some ns => Some (n :: ns)
      | _, _ => None
      end
  end.

Definition byte (n : N) : ascii := ascii_of_N (n mod 256).

Fixpoint octets (l : list N) : option (list ascii) :=
  match l with
  | [] => Some []
  | [a] => None
  | [a; b] => Some [byte (a * 4 + b / 16)]%N
  | [a; b; c] => Some [byte (a * 4 + b / 16); byte (b * 16 + c / 4)]%N
  | a :: b :: c :: d :: rest =>
      match octets rest with
      | Some t => Some (byte (a * 4 + b / 16) :: byte (b * 16 + c / 4)
                        :: byte (c * 64 + d) :: t)%N
      | None => None
      end
  end.

Definition strip_padding (l : list ascii) : list ascii :=
  if (length l mod 4 =? 0)%nat then
    match rev l with
    | "="%char :: "="%char :: r => rev r
    | "="%char :: r => rev r
    | _ => l
    end
  else l.

Definition base64_decode (s : string) : option string :=
  let chars := filter (fun c => negb (is_b64_space c)) (list_ascii_of_string s) in
  match sextets (strip_padding chars) with
  | Some ns => option_map string_of_list_ascii (octets ns)
  | None => None
  end.

Definition is_json_space (c : ascii) : bool :=
  let n := N_of_ascii c in
  ((n =? 9) || (n =? 10) || (n =? 13) || (n =? 32))%N.

Fixpoint skip_ws (l : list ascii) : list ascii :=
  match l with
  | c :: rest => if is_json_space c then skip_ws rest else l
  | [] => []
  end.

Definition is_digit (c : ascii) : bool :=
  let n := N_of_ascii c in ((48 <=? n) && (n <=? 57))%N.

Fixpoint digits (l : list ascii) (acc : list ascii) : list ascii * list ascii :=
  match l with
  | c :: rest => if is_digit c then digits rest (c :: acc) else (rev acc, l)
  | [] => (rev acc, [])
  end.

Definition digits_value (ds : list ascii) : Z :=
  fold_left (fun acc c => 10 * acc + (Z.of_N (N_of_ascii c) - 48)) ds 0.

(** The number a numeral reads as: the nearest double. A numeral beyond the
    doubles reads as an infinity, which is not a value of the model; this
    parser does not read it. *)
Definition number_of (neg : bool) (ds : list ascii) : option JsVal :=
  let v := round53 (if neg then - digits_value ds else digits_value ds) in
  if Z.abs v <? 2 ^ 1024 then Some (JNum v) else None.

(** An integer numeral, with no leading zero and nothing of a fraction or an
    exponent after it. *)
Definition parse_int (neg : bool) (l : list ascii) : option (JsVal * list ascii) :=
  match digits l [] with
  | ([], _) => None
  | ("0"%char :: _ :: _, _) => None
  | (ds, rest) =>
      match rest with
      | c :: _ =>
          if Ascii.eqb c "." || Ascii.eqb c "e" || Ascii.eqb c "E" then None
          else option_map (fun v => (v, rest)) (number_of neg ds)
      | [] => option_map (fun v => (v, rest)) (number_of neg ds)
      end
  end.

(** The characters of a string up to its closing quote. *)
Fixpoint parse_chars (l : list ascii) (acc : list ascii) : option (string * list ascii) :=
  match l with
  | [] => None
  | c :: rest =>
      if Ascii.eqb c "034" then Some (string_of_list_ascii (rev acc), rest)
      else if Ascii.eqb c "\" || (N_of_ascii c <? 32)%N then None
      else parse_chars rest (c :: acc)
  end.

Definition expect (lit : string) (v : JsVal) (l : list ascii)
  : option (JsVal * list ascii) :=
  let n := String.length lit in
  if String.eqb (string_of_list_ascii (take n l)) lit then Some (v, drop n l)
  else None.

(** A later member of an object replaces an earlier one of the same name:
    members are accumulated in front. *)
Fixpoint parse_value (fuel : nat) (l : list ascii) : option (JsVal * list ascii) :=
  match fuel with
  | O => None
  | S fuel' =>
      match skip_ws l with
      | "n"%char :: _ => expect "null" JNull (skip_ws l)
      | "t"%char :: _ => expect "true" (JBool true) (skip_ws l)
      | "f"%char :: _ => expect "false" (JBool false) (skip_ws l)
      | "034"%char :: rest =>
          match parse_chars rest [] with
          | Some (s, rest') => Some (JStr s, rest')
          | None => None
          end
      | "-"%char :: rest => parse_int true rest
      | "["%char :: rest =>
          match skip_ws rest with
          | "]"%char :: rest' => Some (JArr [], rest')
          | _ => parse_elements fuel' rest []
          end
      | "{"%char :: rest =>
          match skip_ws rest with
          | "}"%char :: rest' => Some (JObj [], rest')
          | _ => parse_members fuel' rest []
          end
      | _ => parse_int false (skip_ws l)
      end
  end
with parse_elements (fuel : nat) (l : list ascii) (acc : list JsVal)
  : option (JsVal * list ascii) :=
  match fuel with
  | O => None
  | S fuel' =>
      match parse_value fuel' l with
      | Some (v, rest) =>
          match skip_ws rest with
          | ","%char :: rest' => parse_elements fuel' rest' (v :: acc)
          | "]"%char :: rest' => Some (JArr (rev (v :: acc)), rest')
          | _ => None
          end
      | None => None
      end
  end
with parse_members (fuel : nat) (l : list ascii) (acc : list (string * JsVal))
  : option (JsVal * list ascii) :=
  match fuel with
  | O => None
  | S fuel' =>
      match skip_ws l with
      | "034"%char :: rest =>
          match parse_chars rest [] with
          | Some (k, rest1) =>
              match skip_ws rest1 with
              | ":"%char :: rest2 =>
                  match parse_value fuel' rest2 with
                  | Some (v, rest3) =>
                      match skip_ws rest3 with
                      | ","%char :: rest4 => parse_members fuel' rest4 ((k, v) :: acc)
                      | "}"%char :: rest4 => Some (JObj ((k, v) :: acc), rest4)
                      | _ => None
                      end
                  | None => None
                  end
              | _ => None
              end
          | None => None
          end
      | _ => None
      end
  end.

Definition json_parse (s : string) : option JsVal :=
  let l := list_ascii_of_string s in
  match parse_value (2 * length l + 2) l with
  | Some (v, rest) => match skip_ws rest with [] => Some v | _ => None end
  | None => None
  end.

End Sample.

Module SampleRuntime.

(** Decimal integer numerals, and the empty string, which reads as zero. *)
Definition string_to_number (s : string) : option Z :=
  if String.eqb s "" then Some 0
  else option_map Z.of_int (NilZero.int_of_string s).

Definition is_space (c : ascii) : bool :=
  let n := N_of_ascii c in
  ((n =? 9) || (n =? 10) || (n =? 11) || (n =? 12) || (n =? 13) || (n =? 32))%N.

Fixpoint drop_spaces (l : list ascii) : list ascii :=
  match l with
  | c :: rest => if is_space c then drop_spaces rest else l
  | [] => []
  end.

Definition trim (s : string) : string :=
  string_of_list_ascii
    (rev (drop_spaces (rev (drop_spaces (list_ascii_of_string s))))).

Definition pad (width : nat) (n : Z) : string :=
  let s := Number_toString n in
  string_of_list_ascii (replicate (width - String.length s) "0"%char) +:+ s.

(** [toISOString] for the years 0 to 9999, through the civil-from-days
    conversion of the proleptic Gregorian calendar. *)
Definition to_iso_string (t : Z) : string :=
  let days := t / 86400000 in
  let ms := t mod 86400000 in
  let z := days + 719468 in
  let era := z / 146097 in
  let doe := z - era * 146097 in
  let yoe := (doe - doe / 1460 + doe / 36524 - doe / 146096) / 365 in
  let doy := doe - (365 * yoe + yoe / 4 - yoe / 100) in
  let mp := (5 * doy + 2) / 153 in
  let d := doy - (153 * mp + 2) / 5 + 1 in
  let m := if mp <? 10 then mp + 3 else mp - 9 in
  let y := yoe + era * 400 + (if m <=? 2 then 1 else 0) in
  pad 4 y +:+ "-" +:+ pad 2 m +:+ "-" +:+ pad 2 d +:+ "T"
  +:+ pad 2 (ms / 3600000) +:+ ":" +:+ pad 2 (ms / 60000 mod 60) +:+ ":"
  +:+ pad 2 (ms / 1000 mod 60) +:+ "." +:+ pad 3 (ms mod 1000) +:+ "Z".

(** The runtime in front of a given server. *)
Definition runtime (srv : list Request -> Request -> NetOutcome) : Runtime :=
  {| atob := Sample.base64_decode;
     JSON_parse := Sample.json_parse;
     StringToNumber := string_to_number;
     String_trim := trim;
     Date_toISOString := to_iso_string;
     BASE_URL := "https://crm.example";
     server := srv |}.

(** A server that answers every request with status 200 and body [v]. *)
Definition replies (v : JsVal) : list Request -> Request -> NetOutcome :=
  fun _ _ => {| elapsed_ms := 120;
                settled := Ok {| status := 200; resp_json := Some v; resp_text := "" |} |}.

Definition tag (name : string) : JsVal := JObj [("Tag", JStr name)].

(** A tag endpoint serving the rows A, B and then A, C in pages of two. *)
Definition tag_server : list Request -> Request -> NetOutcome :=
  fun _ req =>
    let rows :=
      match assoc_string "page" (req_query req) with
      | Some "1" => [tag "A"; tag "B"]
      | Some "2" => [tag "A"; tag "C"]
      | _ => []
      end in
    {| elapsed_ms := 120;
       settled := Ok {| status := 200;
                        resp_json := Some (JObj [("data", JArr rows)]);
                        resp_text := "" |} |}.

(** A world at time [t] (milliseconds) whose store holds [token]. *)
Definition world_with (token : string) (t : Z) : World :=
  {| secureStore := {[ "userToken" := token ]};
     now_ms := t; toasts := []; requests := [] |}.

Definition world_without_token (t : Z) : World :=
  {| secureStore := ∅; now_ms := t; toasts := []; requests := [] |}.

(** Tokens whose payloads are the objects with the single member [exp], of
    value 0 and 4102444800, and a token without a payload segment. *)
Definition expired_token : string := "h.eyJleHAiOjB9.s".
Definition valid_token : string := "h.eyJleHAiOjQxMDI0NDQ4MDB9.s".
Definition garbled_token : string := "not-a-token".

End SampleRuntime.

(** ** Typed agent hierarchies

    The rows of the staff endpoint as a tree type, the nodes of the UI tree,
    and the transform the specification describes on them: structural
    recursion over the hierarchy. [rowToJs] and [nodeToJs] give the
    JavaScript objects they stand for. *)

Inductive AgentRow : Type :=
  mkAgentRow (_id username : string) (email personalemail isVerified : JsVal)
             (subordinates : option (list AgentRow)).

Definition row_id (r : AgentRow) : string :=
  match r with mkAgentRow id _ _ _ _ _ => id end.
Definition row_username (r : AgentRow) : string :=
  match r with mkAgentRow _ name _ _ _ _ => name end.
Definition row_subordinates (r : AgentRow) : option (list AgentRow) :=
  match r with mkAgentRow _ _ _ _ _ subs => subs end.

Fixpoint rowToJs (r : AgentRow) : JsVal :=
  match r with
  | mkAgentRow id name e pe iv subs =>
      JObj ([ ("_id", JStr id); ("username", JStr name); ("email", e);
              ("personalemail", pe); ("isVerified", iv) ]
            ++ match subs with
               | None => []
               | Some l => [("subordinates", JArr (map rowToJs l))]
               end)%list
  end.

(** A node: [details] holds [email], [personalEmail] and [isVerified], which
    only the nodes below the roots carry; [children = None] is the value
    [undefined]. *)
Inductive AgentNode : Type :=
  mkAgentNode (node_value node_title node_label : string)
              (details : option (JsVal * JsVal * JsVal))
              (children : option (list AgentNode)).

Definition node_value (n : AgentNode) : string :=
  match n with mkAgentNode v _ _ _ _ => v end.
Definition node_title (n : AgentNode) : string :=
  match n with mkAgentNode _ t _ _ _ => t end.
Definition node_label (n : AgentNode) : string :=
  match n with mkAgentNode _ _ l _ _ => l end.
Definition node_children (n : AgentNode) : option (list AgentNode) :=
  match n with mkAgentNode _ _ _ _ c => c end.

Fixpoint nodeToJs (n : AgentNode) : JsVal :=
  match n with
  | mkAgentNode v t l det ch =>
      JObj ([ ("value", JStr v); ("title", JStr t); ("label", JStr l) ]
            ++ match det with
               | None => []
               | Some (e, pe, iv) =>
                   [("email", e); ("personalEmail", pe); ("isVerified", iv)]
               end
            ++ [ ("children",
                  match ch with
                  | None => JUndefined
                  | Some l => JArr (map nodeToJs l)
                  end) ])%list
  end.

(** Modelled on the specification's [toTree]: every subordinate becomes a
    child node, at every level. *)
Fixpoint childNode (r : AgentRow) : AgentNode :=
  match r with
  | mkAgentRow id name e pe iv subs =>
      mkAgentNode id name name (Some (e, pe, iv)) (option_map (map childNode) subs)
  end.

Definition rootNode (r : AgentRow) : AgentNode :=
  match r with
  | mkAgentRow id name _ _ _ subs =>
      mkAgentNode id name name None (option_map (map childNode) subs)
  end.

Definition toTree (rows : list AgentRow) : list AgentNode := map rootNode rows.

(** Number of levels below a row, and below a node. *)
Fixpoint row_height (r : AgentRow) : nat :=
  match r with
  | mkAgentRow _ _ _ _ _ None => O
  | mkAgentRow _ _ _ _ _ (Some l) => S (list_max (map row_height l))
  end.

Fixpoint node_height (n : AgentNode) : nat :=
  match n with
  | mkAgentNode _ _ _ _ None => O
  | mkAgentNode _ _ _ _ (Some l) => S (list_max (map node_height l))
  end.

(** ** The fetch operations, as one type *)

Inductive FetchOp : Type :=
| OpFetchLeads (user : option User) (filters : FilterOptions) (searchText : string)
               (pagination : PaginationParams) (options : LeadRequestOptions)
| OpFetchStatusOptions
| OpFetchSourceOptions
| OpFetchTagOptions (pg lim : Z) (searchTerm : string)
| OpFetchAgents (user : option User)
| OpFetchCampaignLeads (campaignFilters : CampaignFilters)
| OpFetchCampaignsWithCounts (pg lim : Z).

(** Run a computation for its effects and for whether it raised. *)
Definition outcome {A} (m : M A) (w : World) : bool * World :=
  (is_ok (fst (m w)), snd (m w)).

Definition run `{RT : Runtime} (op : FetchOp) (w : World) : bool * World :=
  match op with
  | OpFetchLeads u f s p o => outcome (fetchLeads u f s p o) w
  | OpFetchStatusOptions => outcome fetchStatusOptions w
  | OpFetchSourceOptions => outcome fetchSourceOptions w
  | OpFetchTagOptions p l s => outcome (fetchTagOptions p l s) w
  | OpFetchAgents u => outcome (fetchAgents u) w
  | OpFetchCampaignLeads c => outcome (fetchCampaignLeads c) w
  | OpFetchCampaignsWithCounts p l => outcome (fetchCampaignsWithCounts p l) w
  end.

(** The session of a world is valid when [validateAuthToken] answers [true]. *)
Definition session_valid `{RT : Runtime} (w : World) : bool :=
  match fst (validateAuthToken w) with
  | Ok true => true
  | _ => false
  end.

(** ** Predicates of the statements *)

Section Predicates.
Context `{RT : Runtime}.

(** A user holds capability [c] when [user.permissions.lead] exists and
    lists it. *)
Definition holds (user : User) (c : string) : Prop :=
  exists p l, user_permissions user = Some p /\ lead p = Some l /\ In c l.

(** The user may see all leads: capability [view_non_assigned] or [view_all],
    or role [superAdmin]. *)
Definition privileged (user : User) : Prop :=
  holds user "view_non_assigned" \/ holds user "view_all"
  \/ user_role user = "superAdmin".

(** The agent selection of the filters; a missing list counts as empty. *)
Definition selection (filters : FilterOptions) : list string :=
  default [] (filter_selectedAgents filters).

(** The world after a toast, and after the deletion of the stored token. *)
Definition toast (msg : string) (w : World) : World := snd (Toast_show msg w).

Definition drop_token (w : World) : World :=
  snd (SecureStore_deleteItemAsync "userToken" w).

(** The token the store holds, if any. *)
Definition stored_token (w : World) : option string :=
  present (secureStore w !! "userToken").

(** The test [currentTime > tokenPayload.exp] of [validateAuthToken], from
    the token and the clock. *)
Definition exp_check (w : World) (storedToken : string) : Result bool :=
  let! tokenPayload := decodePayload storedToken in
  let! tokenExpiry := get tokenPayload "exp" in
  js_gt StringToNumber (now_ms w / 1000) tokenExpiry.

(** The payload of a token as the environment reads it: the text between
    the first dot and the second, decoded by [atob] and parsed by
    [JSON_parse]; [None] when one of the two raises. A token without a dot
    has no such text: [atob] receives [undefined], which it reads as the
    string of that name. This is a reading of the token, not of the program:
    nothing of [validateAuthToken] enters it. *)
Definition payload_text (storedToken : string) : string :=
  default "undefined" (split "." storedToken !! 1%nat).

Definition read_payload (storedToken : string) : option JsVal :=
  atob (payload_text storedToken) ≫= JSON_parse.

(** The token is expired: its payload reads, the payload's [exp] reads as a
    number, and the current time floored to seconds exceeds it. *)
Definition expired (w : World) (storedToken : string) : Prop :=
  exists payload v e,
    read_payload storedToken = Some payload
    /\ get payload "exp" = Ok v
    /\ ToNumber StringToNumber v = Ok (Some e)
    /\ e < now_ms w / 1000.

(** The token is malformed: its payload does not read, or the payload has no
    properties to read [exp] from, or its [exp] cannot be converted to a
    number for the comparison. *)
Definition malformed (storedToken : string) : Prop :=
  read_payload storedToken = None
  \/ (exists payload msg,
        read_payload storedToken = Some payload
        /\ get payload "exp" = Throw msg)
  \/ (exists payload v msg,
        read_payload storedToken = Some payload
        /\ get payload "exp" = Ok v
        /\ ToNumber StringToNumber v = Throw msg).

(** The session is invalid: no token is stored, or the stored token is
    expired or malformed. *)
Definition invalid_session (w : World) : Prop :=
  stored_token w = None
  \/ exists t, stored_token w = Some t /\ (expired w t \/ malformed t).

(** The headers [createAuthHeaders] builds around a token. *)
Definition auth_headers (storedToken : string) : list (string * string) :=
  [ ("accept", "application/json, text/plain, */*");
    ("content-type", "application/json");
    ("Cookie", "token=" +:+ storedToken);
    ("referer", BASE_URL +:+ "/Leads/Marketing");
    ("origin", BASE_URL);
    ("user-agent",
     "Mozilla/5.0 (iPhone; CPU iPhone OS 17_0 like Mac OS X) AppleWebKit/605.1.15 (KHTML, like Gecko) MilesClient-Mobile/1.0.0");
    ("x-requested-with", "XMLHttpRequest") ].

(** The shape the option fetchers share: headers, one [GET], the decoded body
    handed to [k] on a 2xx answer, and [dflt] on every other path. *)
Definition best_effort {A} (dflt : A) (url : string) (query : list (string * string))
    (k : JsVal -> Result A) : M A :=
  try_catch
    (bind createAuthHeaders (fun headers =>
     bind (js_fetch (GET url query headers)) (fun response =>
     if ok response then bind (response_json response) (fun body => liftR (k body))
     else ret dflt)))
    (fun _ => ret dflt).

(** The request failed: the transport raised, or the answer is not 2xx. *)
Definition failed (out : NetOutcome) : Prop :=
  match settled out with
  | Throw _ => True
  | Ok r => ok r = false
  end.

(** [m] issued exactly the request [req] from [w], and the server's answer
    to it was [out]. *)
Definition issued {A} (m : M A) (w : World) (req : Request) (out : NetOutcome) : Prop :=
  requests (snd (m w)) = (requests w ++ [req])%list
  /\ out = server (requests w) req.

(** [m] is a best-effort fetch with empty result [dflt]: it never raises, and
    it returns [dflt] when no token is stored (without a request) and when
    its request failed. *)
Definition degrades_to {A} (m : M A) (dflt : A) : Prop :=
  forall w,
    (exists a, fst (m w) = Ok a)
    /\ (stored_token w = None -> fst (m w) = Ok dflt /\ requests (snd (m w)) = requests w)
    /\ (forall req out, issued m w req out -> failed out -> fst (m w) = Ok dflt).

(** A tag fetch succeeded: its request was answered 2xx with the JSON body
    [body], from which the 2xx branch computed [res] without raising. *)
Definition tag_fetch_succeeds (w : World) (pg lim : Z) (searchTerm : string)
    (body : JsVal) (res : TagsResponse) : Prop :=
  exists req out r,
    issued (fetchTagOptions pg lim searchTerm) w req out
    /\ settled out = Ok r /\ ok r = true /\ resp_json r = Some body
    /\ tagsOfBody pg lim body = Ok res.

(** The property [k] of a response body, [undefined] when it has none. *)
Definition field (body : JsVal) (k : string) : JsVal :=
  match get body k with
  | Ok v => v
  | Throw _ => JUndefined
  end.

(** The 2xx branch of [fetchAgents], from the decoded body. *)
Definition agentsOfBody (user : User) (body : JsVal) : Result (list JsVal) :=
  let! rows := get body "data" in
  let! treeData := transformAgentsDataToTreeSelect rows in
  Ok (if lead_includes user "view_all" || lead_includes user "view_non_assigned"
         || String.eqb (user_role user) "superAdmin"
      then nonAssignedNode :: elements_of treeData
      else elements_of treeData).

(** The best-effort option fetchers, on arguments that let them reach their
    request: statuses, sources, tags, and the agents for a user with an id. *)
Definition option_fetcher (op : FetchOp) : bool :=
  match op with
  | OpFetchStatusOptions | OpFetchSourceOptions | OpFetchTagOptions _ _ _ => true
  | OpFetchAgents (Some user) => nonempty (user_id user)
  | _ => false
  end.

(** [null] and [undefined]: the values without properties. *)
Definition nullish (v : JsVal) : bool :=
  match v with JUndefined | JNull => true | _ => false end.

(** The leads fetch was answered: its request got a 2xx answer with the JSON
    body [body]. *)
Definition leads_fetch_answered (w : World) (user : option User)
    (filters : FilterOptions) (searchText : string) (pagination : PaginationParams)
    (options : LeadRequestOptions) (body : JsVal) : Prop :=
  exists req out r,
    issued (fetchLeads user filters searchText pagination options) w req out
    /\ settled out = Ok r /\ ok r = true /\ resp_json r = Some body.

(** The value the tag fetch gives to the option of the row [index] of page
    [pg], for a label that prints as [prefix]. *)
Definition tag_value (prefix : string) (pg lim : Z) (index : nat) : JsVal :=
  JStr (prefix +:+ "::"
        +:+ Num_toString (js_mul (js_sub (Finite pg) (Finite 1)) (Finite lim))
        +:+ Number_toString (Z.of_nat index)).

(** The value the specification states for the same option: the label, the
    separator and the number [(pg - 1) * lim + index]. *)
Definition stated_tag_value (prefix : string) (pg lim : Z) (index : nat) : JsVal :=
  JStr (prefix +:+ "::" +:+ Number_toString ((pg - 1) * lim + Z.of_nat index)).

End Predicates.

(** ** Inputs of the examples *)

Module Examples.
Import SampleRuntime.

(** The runtime in front of the tag endpoint. *)
Definition tags_runtime : Runtime := runtime tag_server.

(** A tag endpoint that declares [totalTags: 0] next to one row. *)
Definition zero_total_body : JsVal :=
  JObj [("data", JArr [tag "A"]); ("totalTags", JNum 0)].
Definition zero_total_runtime : Runtime := runtime (replies zero_total_body).

(** A leads endpoint that sends [totalLeads] as the string "15". *)
Definition string_total_body : JsVal :=
  JObj [("data", JArr []); ("totalLeads", JStr "15")].
Definition string_total_runtime : Runtime := runtime (replies string_total_body).

(** A leads endpoint with two rows and a numeric total. *)
Definition leads_body : JsVal :=
  JObj [("data", JArr [JObj [("_id", JStr "l1")]; JObj [("_id", JStr "l2")]]);
        ("totalLeads", JNum 2)].
Definition leads_runtime : Runtime := runtime (replies leads_body).

(** A server that is down, and one that answers 500 to everything. *)
Definition down : list Request -> Request -> NetOutcome :=
  fun _ _ => {| elapsed_ms := 3; settled := Throw "TypeError: Network request failed" |}.
Definition broken : list Request -> Request -> NetOutcome :=
  fun _ _ => {| elapsed_ms := 40;
                settled := Ok {| status := 500; resp_json := None;
                                 resp_text := "Internal Server Error" |} |}.

Definition agent : User :=
  {| user_id := "u1"; user_role := "agent"; user_permissions := None |}.
Definition manager : User :=
  {| user_id := "u2"; user_role := "manager";
     user_permissions := Some {| lead := Some ["view_all"] |} |}.
Definition admin : User :=
  {| user_id := "u3"; user_role := "superAdmin"; user_permissions := None |}.

Definition filters_with (agents : option (list string)) : FilterOptions :=
  {| filter_searchTerm := "";
     filter_searchBoxFilters := None;
     filter_selectedAgents := agents;
     filter_selectedStatuses := None;
     filter_selectedSources := None;
     filter_selectedTags := None;
     filter_dateRange := None;
     filter_dateFor := "" |}.

Definition first_page : PaginationParams := {| page := 0; limit := 25 |}.

Definition some_campaign : CampaignFilters :=
  {| campaignName := "spring"; campaign_page := None; campaign_limit := None |}.

(** The first page of the tag endpoint and what the fetch makes of it. *)
Definition page1_body : JsVal := JObj [("data", JArr [tag "A"; tag "B"])].
Definition page1_result : TagsResponse :=
  {| options := [ {| value := JStr "A::00"; label := JStr "A"; color := None |};
                  {| value := JStr "B::01"; label := JStr "B"; color := None |} ];
     hasMore := true;
     totalCount := JNum 2 |}.

(** The payload of a session token as the specification describes it (3):
    three parts, the middle one the base64url text of a JSON value. Base64url
    writes [-] and [_] where base64 writes [+] and [/], and needs no
    padding. *)
Definition from_base64url (s : string) : string :=
  string_of_list_ascii
    (map (fun c => if Ascii.eqb c "-" then "+"%char
                   else if Ascii.eqb c "_" then "/"%char else c)
         (list_ascii_of_string s)).

Definition token_payload (token : string) : option JsVal :=
  match split "." token with
  | [_; middle; _] =>
      Sample.base64_decode (from_base64url middle) ≫= Sample.json_parse
  | _ => None
  end.

(** A token whose payload has the members [exp], 4102444800, and [sub],
    the text user?1; its base64url text has an underscore. *)
Definition urlsafe_token : string :=
  "h.eyJleHAiOjQxMDI0NDQ4MDAsInN1YiI6InVzZXI_MSJ9.s".

(** A page at the edge of the doubles' precision, and a limit of 21 zeros. *)
Definition far_page : PaginationParams :=
  {| page := 9007199254740992; limit := 1000000000000000000000 |}.

(** A limit that is a double and is not printed as its decimal numeral. *)
Definition long_page : PaginationParams :=
  {| page := 0; limit := 18014398509481992 |}.

(** A world with a valid session, at one second past the epoch. *)
Definition logged_in : World := world_with valid_token 1000.
(** A world whose stored token expired at the epoch. *)
Definition stale : World := world_with expired_token 1000.

(** root -> subordinate -> subordinate *)
Definition leaf : AgentRow :=
  mkAgentRow "a3" "Cy" (JStr "cy@crm.example") JUndefined (JBool true) None.
Definition middle : AgentRow :=
  mkAgentRow "a2" "Bo" (JStr "bo@crm.example") JUndefined (JBool false) (Some [leaf]).
Definition root : AgentRow :=
  mkAgentRow "a1" "Ann" JUndefined JUndefined JUndefined (Some [middle]).

(** A row whose list of subordinates is empty. *)
Definition childless : AgentRow :=
  mkAgentRow "a4" "Di" JUndefined JUndefined JUndefined (Some []).

End Examples.

(** * The rest of the two service files *)

Section Diagnostics.
Context `{RT : Runtime}.

Local Open Scope m_scope.

(** *** [diagnoseStagingIssues] (campaignApi.ts, 169-229). The connectivity
    test is a [fetch] with a method and nothing else: no header goes out. *)
Definition diagnoseStagingIssues : M unit :=
  do userToken <- SecureStore_getItemAsync "userToken";
  do refreshToken <- SecureStore_getItemAsync "refreshToken";
  do _ <- try_catch
            (do basicResponse <- js_fetch (GET (BASE_URL +:+ "/api/healthcheck") [] []);
             ret tt)
            (fun error => ret tt);
  match present userToken with
  | Some _ =>
      try_catch
        (do headers <- auth_createAuthHeaders;
         do authResponse <- js_fetch (GET (BASE_URL +:+ "/api/campaigns/with-counts")
                                          [("page", "1"); ("limit", "1")] headers);
         let responseText := resp_text authResponse in
         ret tt)
        (fun error => ret tt)
  | None => ret tt
  end.

(** ** Predicates of the further statements *)

(** [m] got its request answered 2xx with the JSON body [body]. *)
Definition answered {A} (m : M A) (w : World) (body : JsVal) : Prop :=
  exists req out r,
    issued m w req out
    /\ settled out = Ok r /\ ok r = true /\ resp_json r = Some body.

(** The filters with another [searchTerm]. *)
Definition with_searchTerm (s : string) (f : FilterOptions) : FilterOptions :=
  {| filter_searchTerm := s;
     filter_searchBoxFilters := filter_searchBoxFilters f;
     filter_selectedAgents := filter_selectedAgents f;
     filter_selectedStatuses := filter_selectedStatuses f;
     filter_selectedSources := filter_selectedSources f;
     filter_selectedTags := filter_selectedTags f;
     filter_dateRange := filter_dateRange f;
     filter_dateFor := filter_dateFor f |}.

(** The option a status row, a source row stands for. *)
Definition status_option (row : JsVal) : FilterOption :=
  {| value := field row "_id"; label := field row "Status";
     color := Some (field row "color") |}.

Definition source_option (row : JsVal) : FilterOption :=
  {| value := field row "_id"; label := field row "Source"; color := None |}.

(** The request [fetchLeads] composes for the stored token [t]. *)
Definition leads_request (t : string) (user : User) (filters : FilterOptions)
    (searchText : string) (pagination : PaginationParams)
    (options : LeadRequestOptions) : Request :=
  {| req_method := "POST";
     req_url := BASE_URL +:+ "/api/Lead/get";
     req_query := [];
     req_headers := auth_headers t;
     req_body := LeadsBody (buildLeadsRequestBody user filters searchText pagination
                                                  options) |}.

(** The request [fetchCampaignsWithCounts] composes. *)
Definition campaigns_request (t : string) (pg lim : Z) : Request :=
  GET (BASE_URL +:+ "/api/campaigns/with-counts")
      [ ("page", Number_toString pg); ("limit", Number_toString lim);
        ("sortBy", "leadCount"); ("sortOrder", "desc") ]
      (auth_headers t).

(** The request [fetchCampaignLeads] composes. *)
Definition campaign_leads_request (t : string) (campaignFilters : CampaignFilters)
  : Request :=
  {| req_method := "POST";
     req_url := BASE_URL +:+ "/api/Lead/campaign";
     req_query := [];
     req_headers := auth_headers t;
     req_body := CampaignBody (campaignName campaignFilters)
                              (num_or (campaign_page campaignFilters) 1)
                              (num_or (campaign_limit campaignFilters) 50) |}.

(** The two requests of the diagnostic. *)
Definition healthcheck_request : Request :=
  GET (BASE_URL +:+ "/api/healthcheck") [] [].

Definition probe_request (t : string) : Request :=
  GET (BASE_URL +:+ "/api/campaigns/with-counts") [("page", "1"); ("limit", "1")]
      (auth_headers t).

End Diagnostics.

(** The character of a decimal digit. *)
Definition digit_char (d : DecimalFacts.digits) : ascii :=
  match d with
  | DecimalFacts.d0 => "0" | DecimalFacts.d1 => "1" | DecimalFacts.d2 => "2"
  | DecimalFacts.d3 => "3" | DecimalFacts.d4 => "4" | DecimalFacts.d5 => "5"
  | DecimalFacts.d6 => "6" | DecimalFacts.d7 => "7" | DecimalFacts.d8 => "8"
  | DecimalFacts.d9 => "9"
  end%char.

(** The digits of the decimal numeral of a natural number. *)
Definition numeral (n : N) : list DecimalFacts.digits :=
  DecimalFacts.to_list (N.to_uint n).

(** * The meeting form and the meetings tab *)

(** ** String methods; a string is its sequence of code units *)

(** [c.toLowerCase()] for one code unit, on the letters A to Z. The two
    characters outside them whose lower case falls among the ASCII letters (the
    Kelvin sign, the dotted capital I) do not lower to a letter of the words
    the program compares with. *)
Definition lower_char (c : ascii) : ascii :=
  let n := nat_of_ascii c in
  if ((65 <=? n) && (n <=? 90))%nat then ascii_of_nat (n + 32) else c.

Fixpoint toLowerCase (s : string) : string :=
  match s with
  | EmptyString => EmptyString
  | String c rest => String (lower_char c) (toLowerCase rest)
  end.

(** [s] from the position [n] on. *)
Fixpoint skip (n : nat) (s : string) : string :=
  match n, s with
  | O, _ => s
  | S n', String _ rest => skip n' rest
  | S _, EmptyString => EmptyString
  end.

Fixpoint includes_from (search s : string) : bool :=
  String.prefix search s
  || match s with
     | EmptyString => false
     | String _ rest => includes_from search rest
     end.

(** [s.includes(search, position)] *)
Definition String_includes (s search : string) (position : nat) : bool :=
  includes_from search (skip position s).

Fixpoint repeat_string (n : nat) (s : string) : string :=
  match n with
  | O => EmptyString
  | S n' => s +:+ repeat_string n' s
  end.

(** [s.padStart(targetLength, padString)] *)
Definition padStart (s : string) (targetLength : nat) (padString : string) : string :=
  let fillLen := (targetLength - String.length s)%nat in
  if (fillLen =? 0)%nat || negb (nonempty padString) then s
  else String.substring 0 fillLen (repeat_string fillLen padString) +:+ s.

(** [v.length] *)
Definition js_length (v : JsVal) : Result JsVal :=
  match v with
  | JArr elems => Ok (JNum (Z.of_nat (length elems)))
  | JStr s => Ok (JNum (Z.of_nat (String.length s)))
  | _ => get v "length"
  end.

(** [v?.k] *)
Definition optional_get (v : JsVal) (k : string) : JsVal :=
  match v with
  | JUndefined | JNull => JUndefined
  | JObj fields => default JUndefined (assoc k fields)
  | _ => JUndefined
  end.

(** ** [MeetingModal.tsx] *)

Module MeetingModal.

Record User := {
  _id : string;
  username : string;
  Role : option string;
  isParent : option bool;
}.

Record NotifyBefore := {
  notify_time : Z;
  notify_unit : string;
}.

Record MeetingData := {
  Subject : string;
  Date : string;
  Priority : string;
  Lead : string;
  Assignees : string;
  Status : string;
  Comment : string;
  MeetingType : string;
  directoragnet : string;
  agentName : string;
  agentPhone : string;
  agentCompany : string;
  Developer : string;
  Location : string;
  Followers : list string;
  notifyBefore : NotifyBefore;
}.

(** [{ ...meetingData, Date: d }] *)
Definition with_Date (d : string) (m : MeetingData) : MeetingData :=
  {| Subject := Subject m; Date := d; Priority := Priority m; Lead := Lead m;
     Assignees := Assignees m; Status := Status m; Comment := Comment m;
     MeetingType := MeetingType m; directoragnet := directoragnet m;
     agentName := agentName m; agentPhone := agentPhone m;
     agentCompany := agentCompany m; Developer := Developer m;
     Location := Location m; Followers := Followers m;
     notifyBefore := notifyBefore m |}.

(** The form of a new meeting (the initial state, and the reset of the
    effect when there is no meeting to edit). *)
Definition newMeeting (leadId : string) : MeetingData :=
  {| Subject := ""; Date := ""; Priority := ""; Lead := leadId; Assignees := "";
     Status := ""; Comment := ""; MeetingType := ""; directoragnet := "";
     agentName := ""; agentPhone := ""; agentCompany := ""; Developer := "";
     Location := ""; Followers := [];
     notifyBefore := {| notify_time := 2; notify_unit := "hours" |} |}.

(** What a handler of the form does to the outside, in order: the state
    setters and callbacks it calls, the dialogs and toasts it shows, the API
    calls it makes. *)
Inductive Event :=
| Alert_alert (title message : string)
| Toast_show (message : string)
| console_error (label error : string)
| setLoading (b : bool)
| setDeveloperSearchLoading (b : bool)
| setDevelopers (results : JsVal)
| call_addMeeting (meetingData : MeetingData)
| call_updateMeeting (id : JsVal) (meetingData : MeetingData)
| call_searchDevelopers (query : string)
| call_onSuccess
| call_onClose.

(** A handler: the events so far, and the value or the exception. *)
Definition T (A : Type) : Type := list Event * Result A.

Definition ret {A} (a : A) : T A := ([], Ok a).

Definition bind {A B} (m : T A) (k : A -> T B) : T B :=
  match m with
  | (t, Ok a) => let (t', r) := k a in ((t ++ t')%list, r)
  | (t, Throw e) => (t, Throw e)
  end.

Definition emit (e : Event) : T unit := ([e], Ok tt).

(** [await p], for a promise that settles as [r]. *)
Definition await {A} (r : Result A) : T A := ([], r).

(** [try { body } catch (error) { handler } finally { fin }] *)
Definition try_catch_finally {A} (body : T A) (handler : string -> T A)
    (fin : T unit) : T A :=
  let (t, r) := match body with
                | (t, Ok a) => (t, Ok a)
                | (t, Throw e) => let (t', r) := handler e in ((t ++ t')%list, r)
                end in
  match fin with
  | (tf, Ok _) => ((t ++ tf)%list, r)
  | (tf, Throw e) => ((t ++ tf)%list, Throw e)
  end.

Declare Scope t_scope.
Delimit Scope t_scope with T.
Notation "'do' x '<-' m ';' k" := (bind m (fun x => k))
  (at level 10, x name, m at level 100, k at level 200) : t_scope.
Notation "m ';;' k" := (bind m (fun _ => k))
  (at level 100, k at level 200, right associativity) : t_scope.

(** *** [getTimezoneOffsetString] (66-74), from the value of
    [new Date().getTimezoneOffset()], a whole number of minutes. *)
Definition getTimezoneOffsetString (getTimezoneOffset : Z) : string :=
  let offset := - getTimezoneOffset in
  let sign := if 0 <=? offset then "+" else "-" in
  let absOffset := Z.abs offset in
  let hours := padStart (Number_toString (absOffset / 60)) 2 "0" in
  let minutes := padStart (Number_toString (Z.rem absOffset 60)) 2 "0" in
  sign +:+ hours +:+ ":" +:+ minutes.

(** The option lists of the form. *)
Definition priorityOptions : list (string * string) :=
  [("Low", "Low"); ("Medium", "Medium"); ("High", "High"); ("Urgent", "Urgent")].

Definition meetingStatusOptions : list (string * string) :=
  [("Meeting Scheduled", "Scheduled"); ("Meeting Completed", "Completed");
   ("Meeting Cancelled", "Cancelled")].

Section Component.

(** The imports from [../services/api], which are not part of the sources:
    how each call settles. *)
Variable addMeeting : MeetingData -> Result JsVal.
Variable updateMeeting : JsVal -> MeetingData -> Result JsVal.
Variable searchDevelopers : string -> Result JsVal.

(** The clock's time zone. *)
Variable getTimezoneOffset : Z.

(** The props the handlers read; a callback returns or raises. *)
Variable assigneeOptions : list User.
Variable onSuccess : option (Result unit).
Variable onClose : Result unit.
Variable meetingToEdit : JsVal.

Local Open Scope t_scope.

Definition isEditMode : bool := truthy meetingToEdit.

(** *** [handleDeveloperSearch] (132-143) *)
Definition handleDeveloperSearch (query : string) : T unit :=
  emit (setDeveloperSearchLoading true);;
  try_catch_finally
    (do results <- (emit (call_searchDevelopers query);;
                    await (searchDevelopers query));
     emit (setDevelopers results))
    (fun error =>
       emit (console_error "Error searching developers:" error);;
       emit (setDevelopers (JArr [])))
    (emit (setDeveloperSearchLoading false)).

(** *** [getSelectedUser], [getSelectedUsers] (253-261). A user is an object:
    [filter(Boolean)] drops the [undefined] of the ids that are not found and
    nothing else. *)
Definition getSelectedUser (userId : string) : option User :=
  find (fun user => String.eqb (_id user) userId) assigneeOptions.

Definition filter_Boolean {A} (l : list (option A)) : list A := omap id l.

Definition getSelectedUsers (userIds : list string) : list User :=
  filter_Boolean
    (map (fun id => find (fun user => String.eqb (_id user) id) assigneeOptions)
         userIds).

(** *** [onSubmit] (263-321), on the form [meeting]. [meeting.Date] is a
    string, as [MeetingData] declares. *)
Definition onSubmit (meeting : MeetingData) : T unit :=
  if negb (nonempty (Subject meeting))
     || negb (nonempty (Date meeting))
     || negb (nonempty (Priority meeting))
     || negb (nonempty (MeetingType meeting))
     || negb (nonempty (Status meeting))
  then emit (Alert_alert "Error" "Please fill in all required fields.")
  else
    emit (setLoading true);;
    try_catch_finally
      (let meetingData := meeting in
       let meetingData :=
         if nonempty (Date meetingData)
         then if negb (String_includes (Date meetingData) "+" 0)
                 && negb (String_includes (Date meetingData) "-" 10)
              then with_Date (Date meetingData
                              +:+ getTimezoneOffsetString getTimezoneOffset)
                             meetingData
              else meetingData
         else meetingData in
       do result <-
         (if isEditMode && truthy (optional_get meetingToEdit "_id")
          then do id <- await (get meetingToEdit "_id");
               emit (call_updateMeeting id meetingData);;
               await (updateMeeting id meetingData)
          else emit (call_addMeeting meetingData);;
               await (addMeeting meetingData));
       emit (Toast_show (if isEditMode then "Meeting updated successfully"
                         else "Meeting added successfully"));;
       match onSuccess with
       | Some returned => emit call_onSuccess;; await returned
       | None => ret tt
       end;;
       emit call_onClose;;
       await onClose)
      (fun error =>
         emit (console_error (if isEditMode then "Error updating meeting:"
                              else "Error adding meeting:") error);;
         let errorMessage :=
           if nonempty error then error
           else "Failed to " +:+ (if isEditMode then "update" else "add")
                +:+ " meeting" in
         emit (Alert_alert "Error" errorMessage))
      (emit (setLoading false)).

End Component.

End MeetingModal.

(** ** [MeetingsTab] (campaignApi.ts, 231-503) *)

Module MeetingsTab.

Record Lead := {
  _id : string;
  Name : string;
}.

(** The state of the component, and the toasts shown so far. *)
Record State := {
  meetings : JsVal;
  loading : bool;
  refreshing : bool;
  error : option string;
  toasts : list string;
}.

Definition initialState : State :=
  {| meetings := JArr []; loading := true; refreshing := false; error := None;
     toasts := [] |}.

Definition setMeetings (v : JsVal) (st : State) : State :=
  {| meetings := v; loading := loading st; refreshing := refreshing st;
     error := error st; toasts := toasts st |}.

Definition setLoading (b : bool) (st : State) : State :=
  {| meetings := meetings st; loading := b; refreshing := refreshing st;
     error := error st; toasts := toasts st |}.

Definition setRefreshing (b : bool) (st : State) : State :=
  {| meetings := meetings st; loading := loading st; refreshing := b;
     error := error st; toasts := toasts st |}.

Definition setError (e : option string) (st : State) : State :=
  {| meetings := meetings st; loading := loading st; refreshing := refreshing st;
     error := e; toasts := toasts st |}.

Definition Toast_show (message : string) (st : State) : State :=
  {| meetings := meetings st; loading := loading st; refreshing := refreshing st;
     error := error st; toasts := (toasts st ++ [message])%list |}.

(** *** [getPriorityColor], [getStatusColor] (311-337) *)
Definition getPriorityColor (priority : string) : string :=
  let p := toLowerCase priority in
  if String.eqb p "high" then "text-red-600 bg-red-50 border-red-200"
  else if String.eqb p "medium" then "text-orange-600 bg-orange-50 border-orange-200"
  else if String.eqb p "low" then "text-green-600 bg-green-50 border-green-200"
  else "text-gray-600 bg-gray-50 border-gray-200".

Definition getStatusColor (status : string) : string :=
  let s := toLowerCase status in
  if String.eqb s "scheduled" then "text-blue-600 bg-blue-50 border-blue-200"
  else if String.eqb s "completed" then "text-green-600 bg-green-50 border-green-200"
  else if String.eqb s "cancelled" then "text-red-600 bg-red-50 border-red-200"
  else if String.eqb s "postponed" then "text-yellow-600 bg-yellow-50 border-yellow-200"
  else "text-gray-600 bg-gray-50 border-gray-200".

(** [v.toLowerCase()] and what [f] makes of it: only a string has the
    method. *)
Definition on_lower_case {A} (v : JsVal) (f : string -> A) : Result A :=
  match v with
  | JStr s => Ok (f s)
  | JUndefined => Throw "TypeError: Cannot read property 'toLowerCase' of undefined"
  | JNull => Throw "TypeError: Cannot read property 'toLowerCase' of null"
  | _ => Throw "TypeError: toLowerCase is not a function"
  end.

(** [classes.split(" ")[0]] *)
Definition first_class (classes : string) : string :=
  match split " " classes with
  | c :: _ => c
  | [] => ""
  end.

(** [a !== b] on two values read from a decoded answer: numbers, strings
    and booleans by value; two lists or objects are never the same one. *)
Definition strict_neq (a b : JsVal) : bool :=
  match a, b with
  | JUndefined, JUndefined | JNull, JNull => false
  | JBool x, JBool y => negb (Bool.eqb x y)
  | JNum x, JNum y => negb (x =? y)
  | JStr x, JStr y => negb (String.eqb x y)
  | _, _ => true
  end.

(** A child written [v && (...)]: the element when [v] is truthy, the falsy
    value itself otherwise. *)
Inductive Child (A : Type) :=
| Element (a : A)
| Falsy (v : JsVal).
Arguments Element {A} a.
Arguments Falsy {A} v.

(** The card of a meeting: what the tab reads from the row and works out
    for it, in the order of the source. *)
Record Card := {
  card_key : JsVal;
  card_subject : JsVal;
  card_priority_classes : string;
  card_priority_text_class : string;
  card_priority : JsVal;
  card_status_classes : string;
  card_status_text_class : string;
  card_status : JsVal;
  card_date : JsVal;
  card_time : JsVal;
  card_duration : Child JsVal;
  card_type : JsVal;
  card_assignee : Child JsVal;
  card_description : Child JsVal;
  card_created : JsVal;
  card_updated : option JsVal;
}.

(** What the tab draws: the spinner, or the scroll view with its refresh
    control, the error banner when there is one, and either the empty state
    or the count and one card for each meeting. *)
Inductive Body :=
| NoMeetings
| Meetings (count : JsVal) (cards : list Card).

Inductive View :=
| Spinner
| Scroll (refreshControl : bool) (errorBanner : option string) (body : Body).

Section Drawing.

(** The import from [@/utils/dateFormatter], which is not part of the
    sources: what the call returns, or that it raises. *)
Variable formatTimestamp : JsVal -> Result JsVal.

(** The callback of [meetings.map] (394-495). *)
Definition card (meeting : JsVal) (index : nat) : Result Card :=
  let! id := get meeting "_id" in
  let key := js_or id (JNum (Z.of_nat index)) in
  let! subject := get meeting "Subject" in
  let! priority := get meeting "Priority" in
  let! priorityClasses := on_lower_case priority getPriorityColor in
  let! priorityTextClass :=
    on_lower_case priority (fun p => first_class (getPriorityColor p)) in
  let! status := get meeting "Status" in
  let! statusClasses := on_lower_case status getStatusColor in
  let! statusTextClass :=
    on_lower_case status (fun s => first_class (getStatusColor s)) in
  let! meetingDate := get meeting "MeetingDate" in
  let! date := formatTimestamp meetingDate in
  let! time := get meeting "MeetingTime" in
  let! duration := get meeting "Duration" in
  let! meetingType := get meeting "MeetingType" in
  let! assignee := get meeting "Assignee" in
  let! assigned :=
    if truthy assignee then
      let! username := get assignee "username" in Ok (Element username)
    else Ok (Falsy assignee) in
  let! description := get meeting "Description" in
  let! createdAt := get meeting "createdAt" in
  let! created := formatTimestamp createdAt in
  let! updatedAt := get meeting "updatedAt" in
  let! updated :=
    if strict_neq updatedAt createdAt then
      let! u := formatTimestamp updatedAt in Ok (Some u)
    else Ok None in
  Ok {| card_key := key;
        card_subject := subject;
        card_priority_classes := priorityClasses;
        card_priority_text_class := priorityTextClass;
        card_priority := priority;
        card_status_classes := statusClasses;
        card_status_text_class := statusTextClass;
        card_status := status;
        card_date := date;
        card_time := time;
        card_duration := if truthy duration then Element duration else Falsy duration;
        card_type := meetingType;
        card_assignee := assigned;
        card_description :=
          if truthy description then Element description else Falsy description;
        card_created := created;
        card_updated := updated |}.

(** The component's return (339-499). An error text that is empty is falsy:
    no banner. *)
Definition render (st : State) : Result View :=
  if loading st then Ok Spinner
  else
    let errorBanner := match error st with
                       | Some e => if nonempty e then Some e else None
                       | None => None
                       end in
    let! count := js_length (meetings st) in
    if (match count with JNum 0 => true | _ => false end)
       && negb (notNull errorBanner)
    then Ok (Scroll (refreshing st) errorBanner NoMeetings)
    else
      let! cards := js_map (meetings st) card in
      Ok (Scroll (refreshing st) errorBanner (Meetings count cards)).

End Drawing.

Section Component.

(** The import from [@/services/api], which is not part of the sources: how
    the call settles. *)
Variable getLeadMeetings : string -> Result JsVal.

Variable lead : Lead.

(** *** [fetchMeetings] (277-300): the state once the call has settled. *)
Definition fetchMeetings (st : State) : State :=
  let st :=
    match getLeadMeetings (_id lead) with
    | Ok meetingsData =>
        let finalMeetings := js_or meetingsData (JArr []) in
        setError None (setMeetings finalMeetings st)
    | Throw message =>
        Toast_show ("Error fetching meetings: " +:+ message)
          (setError (Some (if nonempty message then message
                           else "Failed to fetch meetings")) st)
    end in
  setRefreshing false (setLoading false st).

(** *** [onRefresh] (306-309) *)
Definition onRefresh (st : State) : State :=
  fetchMeetings (setRefreshing true st).

(** The handler of the Try Again button (367-371). *)
Definition onPress_TryAgain (st : State) : State :=
  fetchMeetings (setLoading true (setError None st)).

End Component.

End MeetingsTab.

(** ** Predicates of the statements on the meeting form *)

Section MeetingPredicates.
Import MeetingModal.

(** The five required fields of the form are filled. *)
Definition filled (m : MeetingData) : bool :=
  nonempty (Subject m) && nonempty (Date m) && nonempty (Priority m)
  && nonempty (MeetingType m) && nonempty (Status m).

(** The test of [onSubmit] for a date that carries a time zone. *)
Definition has_timezone (d : string) : bool :=
  String_includes d "+" 0 || String_includes d "-" 10.

Definition is_api_call (e : Event) : bool :=
  match e with
  | call_addMeeting _ | call_updateMeeting _ _ | call_searchDevelopers _ => true
  | _ => false
  end.

Definition is_setLoading (e : Event) : bool :=
  match e with
  | setLoading _ => true
  | _ => false
  end.

Definition is_toast (e : Event) : bool :=
  match e with
  | MeetingModal.Toast_show _ => true
  | _ => false
  end.

(** The copy of the form that [onSubmit] hands to the API. *)
Definition meetingData_of (getTimezoneOffset : Z) (meeting : MeetingData)
  : MeetingData :=
  if has_timezone (Date meeting) then meeting
  else with_Date (Date meeting +:+ getTimezoneOffsetString getTimezoneOffset)
                 meeting.

(** The data of the first call of [addMeeting] or [updateMeeting] among the
    events [t]. *)
Fixpoint sent (t : list Event) : option MeetingData :=
  match t with
  | [] => None
  | call_addMeeting meetingData :: _ => Some meetingData
  | call_updateMeeting _ meetingData :: _ => Some meetingData
  | _ :: rest => sent rest
  end.

(** What the [catch] of [onSubmit] does with the message [e]. *)
Definition reported (meetingToEdit : JsVal) (e : string) : list Event :=
  [console_error (if truthy meetingToEdit then "Error updating meeting:"
                  else "Error adding meeting:") e;
   Alert_alert "Error"
     (if nonempty e then e
      else "Failed to " +:+ (if truthy meetingToEdit then "update" else "add")
           +:+ " meeting")].

(** [String(n).padStart(2, "0")] *)
Definition pad2 (n : Z) : string := padStart (Number_toString n) 2 "0".

(** The two decimal digits of a number below 100: the tens, then the units. *)
Definition digit (d : Z) : ascii := ascii_of_nat (48 + Z.to_nat d).

Definition two_digits (n : Z) : string :=
  String (digit (n / 10)) (String (digit (n mod 10)) "").

End MeetingPredicates.

(** The calls of [setDevelopers] among the events [t]. *)
Definition developers_set (t : list MeetingModal.Event) : list JsVal :=
  omap (fun e => match e with
                 | MeetingModal.setDevelopers results => Some results
                 | _ => None
                 end) t.

(** A row the tab cannot draw a card for: [null] or [undefined], or a row
    whose [Priority] or [Status] is not a string. *)
Definition is_string (v : JsVal) : bool :=
  match v with JStr _ => true | _ => false end.

Definition unreadable (row : JsVal) : bool :=
  nullish row || negb (is_string (field row "Priority"))
  || negb (is_string (field row "Status")).

(** The classes of a priority or a status that the tab does not know. *)
Definition default_colour : string := "text-gray-600 bg-gray-50 border-gray-200".

(** ** Inputs of the further examples *)

Module MoreExamples.
Import SampleRuntime Examples.

(** Filters with a start date and no end date. *)
Definition filters_from (t : Z) : FilterOptions :=
  {| filter_searchTerm := "";
     filter_searchBoxFilters := None;
     filter_selectedAgents := None;
     filter_selectedStatuses := None;
     filter_selectedSources := None;
     filter_selectedTags := None;
     filter_dateRange := Some (Some t, None);
     filter_dateFor := "" |}.

(** The caller switches [viewAllLeads] off. *)
Definition own_leads_only : LeadRequestOptions :=
  {| includeNonAssigned := None; viewAllLeads := Some false |}.

(** A user object without an id. *)
Definition nobody : User :=
  {| user_id := ""; user_role := "agent"; user_permissions := None |}.

(** The status endpoint, the staff endpoint and the campaign endpoints. *)
Definition status_row : JsVal :=
  JObj [("_id", JStr "s1"); ("Status", JStr "New"); ("color", JStr "#00ff00")].
Definition statuses_body : JsVal := JObj [("data", JArr [status_row])].
Definition statuses_runtime : Runtime := runtime (replies statuses_body).

Definition staff_body : JsVal :=
  JObj [("data", JArr [JObj [("_id", JStr "a1"); ("username", JStr "Ann")]])].
Definition staff_runtime : Runtime := runtime (replies staff_body).
Definition staff_tree : list JsVal :=
  [JObj [("value", JStr "a1"); ("title", JStr "Ann"); ("label", JStr "Ann");
         ("children", JUndefined)]].

Definition campaigns_body : JsVal :=
  JObj [("data", JArr [JObj [("_id", JStr "spring"); ("leadCount", JNum 4)]]);
        ("pagination", JObj [("page", JNum 1)])].
Definition campaigns_runtime : Runtime := runtime (replies campaigns_body).
Definition campaigns_result : CampaignsWithCountsResponse :=
  {| cc_data := JArr [JObj [("_id", JStr "spring"); ("leadCount", JNum 4)]];
     cc_pagination := JObj [("page", JNum 1)] |}.

(** A server that answers after 45 seconds. *)
Definition slow : list Request -> Request -> NetOutcome :=
  fun _ _ => {| elapsed_ms := 45000;
                settled := Ok {| status := 200; resp_json := Some campaigns_body;
                                 resp_text := "" |} |}.

(** The first option of the first page of tags. *)
Definition option_A : FilterOption :=
  {| value := JStr "A::00"; label := JStr "A"; color := None |}.

(** A filled form, with a local date; a meeting to edit that has lost its
    [_id]; an API that accepts everything, and one that fails without a
    message. *)
Definition review : MeetingModal.MeetingData :=
  {| MeetingModal.Subject := "Review";
     MeetingModal.Date := "2024-05-06T10:30:00";
     MeetingModal.Priority := "High";
     MeetingModal.Lead := "l1";
     MeetingModal.Assignees := "u1";
     MeetingModal.Status := "Meeting Scheduled";
     MeetingModal.Comment := "";
     MeetingModal.MeetingType := "Primary";
     MeetingModal.directoragnet := "";
     MeetingModal.agentName := "";
     MeetingModal.agentPhone := "";
     MeetingModal.agentCompany := "";
     MeetingModal.Developer := "";
     MeetingModal.Location := "";
     MeetingModal.Followers := [];
     MeetingModal.notifyBefore :=
       {| MeetingModal.notify_time := 2; MeetingModal.notify_unit := "hours" |} |}.

Definition review_sent : MeetingModal.MeetingData :=
  MeetingModal.with_Date "2024-05-06T10:30:00-05:00" review.

Definition without_id : JsVal := JObj [("Subject", JStr "Review")].
Definition with_id : JsVal := JObj [("_id", JStr "m1"); ("Subject", JStr "Review")].

Definition accepting : MeetingModal.MeetingData -> Result JsVal :=
  fun _ => Ok (JObj [("success", JBool true)]).
Definition accepting_update : JsVal -> MeetingModal.MeetingData -> Result JsVal :=
  fun _ _ => Ok (JObj [("success", JBool true)]).
Definition failing_update : JsVal -> MeetingModal.MeetingData -> Result JsVal :=
  fun _ _ => Throw "".

(** Two assignees. *)
Definition ann : MeetingModal.User :=
  {| MeetingModal._id := "u1"; MeetingModal.username := "Ann";
     MeetingModal.Role := None; MeetingModal.isParent := None |}.
Definition bo : MeetingModal.User :=
  {| MeetingModal._id := "u2"; MeetingModal.username := "Bo";
     MeetingModal.Role := None; MeetingModal.isParent := None |}.

(** A lead, and a meetings endpoint that fails without a message. *)
Definition some_lead : MeetingsTab.Lead :=
  {| MeetingsTab._id := "l1"; MeetingsTab.Name := "Lee" |}.

(** A [formatTimestamp] that shows a time as it is stored. *)
Definition as_given (v : JsVal) : Result JsVal := Ok v.

Definition meetings_down : string -> Result JsVal := fun _ => Throw "".

End MoreExamples.

(** * Properties *)

(** ** Doubles *)

Lemma round53_exact (z : Z) : Z.abs z < 2 ^ 53 -> round53 z = z.
Proof.
  intros H. unfold round53.
  destruct (Z.ltb_spec (Z.abs z) (2 ^ 53)); [reflexivity|lia].
Qed.

(** From [2^53] on, the nearest double is at least [2^53]. *)
Lemma round53_large (v : Z) : 2 ^ 53 <= v -> 2 ^ 53 <= round53 v.
Proof.
  intros H. unfold round53. rewrite Z.abs_eq by lia.
  destruct (Z.ltb_spec v (2 ^ 53)) as [Hlt|_]; [lia|].
  assert (Hv : 0 < v) by lia.
  pose proof (Z.log2_spec v Hv) as [Hlo _].
  assert (Hl : 53 <= Z.log2 v).
  { rewrite <- (Z.log2_pow2 53) by lia. now apply Z.log2_le_mono. }
  set (k := Z.log2 v - 52) in *.
  assert (Hk : 1 <= k) by lia.
  assert (Hpk : 2 <= 2 ^ k).
  { change 2 with (2 ^ 1) at 1. apply Z.pow_le_mono_r; lia. }
  assert (Hq : 2 ^ 52 <= v / 2 ^ k).
  { apply Z.div_le_lower_bound; [lia|].
    rewrite <- Z.pow_add_r by lia. replace (k + 52) with (Z.log2 v) by lia. exact Hlo. }
  rewrite (Z.sgn_pos v Hv).
  set (q := v / 2 ^ k) in *.
  assert (Hq' : q <= (if v mod 2 ^ k <? 2 ^ (k - 1) then q
                      else if 2 ^ (k - 1) <? v mod 2 ^ k then q + 1
                           else if Z.even q then q else q + 1)).
  { destruct (_ <? _); [lia|]. destruct (_ <? _); [lia|]. destruct (Z.even q); lia. }
  change (2 ^ 53) with (2 ^ 52 * 2). change (2 ^ 52) with 4503599627370496 in *.
  nia.
Qed.

(** Up to [2^53] in magnitude the exact result of an operation is its
    result. *)
Lemma to_Num_exact (z : Z) : Z.abs z <= 2 ^ 53 -> to_Num z = Finite z.
Proof.
  intros H. destruct (Z.eq_dec (Z.abs z) (2 ^ 53)) as [E|E].
  - destruct z as [|p|p]; try discriminate E;
      injection E as ->; vm_compute; reflexivity.
  - unfold to_Num. rewrite round53_exact by lia.
    destruct (Z.leb_spec (2 ^ 1024) (Z.abs z)) as [Hbig|_]; [|reflexivity].
    exfalso. assert (2 ^ 53 < 2 ^ 1024) by (apply Z.pow_lt_mono_r; lia). lia.
Qed.

Lemma shortest_from_exact (fuel : nat) (k d x : Z) :
  0 < x < 2 ^ 53 -> shortest_from fuel k d x = x.
Proof.
  intros Hx. revert k. induction fuel as [|fuel IH]; intros k; [reflexivity|].
  cbn [shortest_from].
  set (u := 10 ^ Z.max 0 (d - k)).
  assert (Hu : 0 < u) by (apply Z.pow_pos_nonneg; lia).
  pose proof (Z.mul_div_le x u Hu) as Hlo.
  pose proof (Z.mod_pos_bound x u Hu) as Hmod.
  pose proof (Z.div_mod x u ltac:(lia)) as Hdiv.
  assert (Hnn : 0 <= x / u) by (apply Z.div_pos; lia).
  assert (Hlo' : 0 <= x / u * u <= x) by nia.
  assert (Hhi : x < x / u * u + u) by nia.
  assert (Hhr : (round53 (x / u * u + u) =? x) = false).
  { apply Z.eqb_neq. intros E.
    destruct (Z_lt_le_dec (x / u * u + u) (2 ^ 53)) as [Hs|Hl].
    - rewrite round53_exact in E by lia. lia.
    - apply round53_large in Hl. lia. }
  rewrite Hhr, andb_false_r.
  destruct (Z.eqb_spec (round53 (x / u * u)) x) as [E|_]; [|apply IH].
  rewrite round53_exact in E by lia. exact E.
Qed.

Lemma decimal_negative (p : positive) :
  decimal (Z.neg p) = "-" +:+ decimal (Z.pos p).
Proof. reflexivity. Qed.

(** Below [2^53] in magnitude a number prints as its decimal numeral. *)
Lemma Number_toString_exact (n : Z) :
  Z.abs n < 2 ^ 53 -> Number_toString n = decimal n.
Proof.
  intros H. unfold Number_toString, shortest.
  assert (Hsmall : forall v, 0 < v < 2 ^ 53 -> print_digits v = decimal v).
  { intros v Hv. unfold print_digits.
    destruct (Z.ltb_spec v (10 ^ 21)) as [_|Hbig]; [reflexivity|].
    exfalso. change (2 ^ 53) with 9007199254740992 in Hv.
    change (10 ^ 21) with 1000000000000000000000 in Hbig. lia. }
  destruct n as [|p|p].
  - reflexivity.
  - cbn [Z.eqb Z.ltb Z.compare]. rewrite shortest_from_exact by lia.
    apply Hsmall. lia.
  - cbn [Z.eqb Z.ltb Z.compare Z.opp]. rewrite shortest_from_exact by lia.
    rewrite Hsmall by lia. now rewrite decimal_negative.
Qed.

(** ** Decimal numerals *)

Lemma decimal_reads_back (n : Z) :
  option_map Z.of_int (NilZero.int_of_string (decimal n)) = Some n.
Proof.
  unfold decimal.
  rewrite NilZero.isi.
  - simpl. now rewrite DecimalZ.of_to.
  - destruct n; simpl; try discriminate.
    intros E. injection E as E. now apply DecimalPos.Unsigned.to_uint_nonnil in E.
  - destruct n; simpl; try discriminate.
    intros E. injection E as E. now apply DecimalPos.Unsigned.to_uint_nonnil in E.
Qed.

Lemma decimal_inj (m n : Z) : decimal m = decimal n -> m = n.
Proof.
  intros E.
  pose proof (decimal_reads_back m) as Hm.
  rewrite E, decimal_reads_back in Hm. congruence.
Qed.

(** ** Membership tests *)

Lemma includes_In (x : string) (l : list string) :
  includes x l = true <-> In x l.
Proof.
  unfold includes. rewrite existsb_exists. split.
  - intros (y & Hy & E). apply String.eqb_eq in E. now subst.
  - intros H. exists x. split; [assumption | apply String.eqb_refl].
Qed.

Section Composer.
Context `{RT : Runtime}.

Lemma lead_includes_holds (user : User) (c : string) :
  lead_includes user c = true <-> holds user c.
Proof.
  unfold lead_includes, holds. split.
  - destruct (user_permissions user) as [p|]; [|discriminate].
    destruct (lead p) as [l|] eqn:El; [|discriminate].
    intros H. exists p, l. repeat split; trivial. now apply includes_In.
  - intros (p & l & -> & -> & H). now apply includes_In.
Qed.

Lemma privileged_test (user : User) :
  lead_includes user "view_non_assigned" || lead_includes user "view_all"
  || String.eqb (user_role user) "superAdmin" = true <-> privileged user.
Proof.
  unfold privileged.
  rewrite !orb_true_iff, !lead_includes_holds, String.eqb_eq. tauto.
Qed.

(** C3, as the code has it. Scope resolution of the composed leads request,
    in priority order. With a non-empty agent selection the body carries the
    selection verbatim; [includeNonAssigned] is true when "non-assigned" is
    selected and is absent otherwise; [viewAllLeads] is true when, in
    addition, the user is privileged (capability view_non_assigned or
    view_all, or role superAdmin) and is absent otherwise: the composer never
    writes false. With an empty selection a superAdmin gets no agents and
    [viewAllLeads] true, and any other user gets [user.id] alone and no flag.
    The flags are those of the body when the caller's extra options do not
    set them. *)
Theorem C3_scope_resolution_priority
    (user : User) (filters : FilterOptions) (searchText : string)
    (pagination : PaginationParams) (options : LeadRequestOptions) :
  let body := buildLeadsRequestBody user filters searchText pagination options in
  let selected := selection filters in
  (selected <> [] ->
     body_selectedAgents body = selected
     /\ (includeNonAssigned options = None ->
           (body_includeNonAssigned body = Some true <-> In "non-assigned" selected)
           /\ (~ In "non-assigned" selected -> body_includeNonAssigned body = None))
     /\ (viewAllLeads options = None ->
           (body_viewAllLeads body = Some true
            <-> In "non-assigned" selected /\ privileged user)
           /\ (~ (In "non-assigned" selected /\ privileged user) ->
                 body_viewAllLeads body = None)))
  /\ (selected = [] -> user_role user = "superAdmin" ->
        body_selectedAgents body = []
        /\ (viewAllLeads options = None -> body_viewAllLeads body = Some true)
        /\ (includeNonAssigned options = None -> body_includeNonAssigned body = None))
  /\ (selected = [] -> user_role user <> "superAdmin" ->
        body_selectedAgents body = [user_id user]
        /\ (includeNonAssigned options = None -> body_includeNonAssigned body = None)
        /\ (viewAllLeads options = None -> body_viewAllLeads body = None)).
Proof.
  unfold selection, buildLeadsRequestBody.
  pose proof (privileged_test user) as Hpriv.
  destruct (filter_selectedAgents filters) as [[|a rest]|]; simpl default.
  - (* an empty list *)
    split; [congruence|].
    destruct (String.eqb_spec (user_role user) "superAdmin") as [E|E];
      (split; intros _ H; [try congruence | try congruence]);
      cbn; repeat split; intros ->; reflexivity.
  - (* a non-empty list *)
    split; [intros _ | split; intros H; discriminate H].
    pose proof (includes_In "non-assigned" (a :: rest)) as Hin.
    destruct (includes "non-assigned" (a :: rest)).
    + assert (Hsel : In "non-assigned" (a :: rest)) by now apply Hin.
      destruct (lead_includes user "view_non_assigned"
                || lead_includes user "view_all"
                || String.eqb (user_role user) "superAdmin") eqn:Ep;
        cbn; (split; [reflexivity|]); split; intros ->; cbn.
      * split; [tauto|]. intros Hn. now contradiction Hn.
      * split; [split; [intros _; split; [exact Hsel|now apply Hpriv]|reflexivity]|].
        intros Hn. contradiction Hn. split; [exact Hsel|now apply Hpriv].
      * split; [tauto|]. intros Hn. now contradiction Hn.
      * split; [|reflexivity].
        split; [discriminate|]. intros [_ Hp]. apply Hpriv in Hp. discriminate.
    + cbn. split; [reflexivity|]. split; intros ->; cbn.
      * split; [|reflexivity].
        split; [discriminate|]. intros Hn. apply Hin in Hn. discriminate.
      * split; [|reflexivity].
        split; [discriminate|]. intros [Hn _]. apply Hin in Hn. discriminate.
  - (* no list *)
    split; [congruence|].
    destruct (String.eqb_spec (user_role user) "superAdmin") as [E|E];
      (split; intros _ H; [try congruence | try congruence]);
      cbn; repeat split; intros ->; reflexivity.
Qed.

(** C4, as the code has it. For every pagination input whose page is at
    least 0 and below [2^53], the wire [page] is [pagination.page + 1]. The
    wire [limit] is a string, not a number: the rendering of
    [pagination.limit] by the conversion of numbers to strings; for a limit
    below [2^53] in magnitude it is the decimal numeral, which reads back as
    that number. *)
Theorem C4_page_one_based_limit_string
    (user : User) (filters : FilterOptions) (searchText : string)
    (pagination : PaginationParams) (options : LeadRequestOptions) :
  let body := buildLeadsRequestBody user filters searchText pagination options in
  (0 <= page pagination < 2 ^ 53 -> body_page body = Finite (page pagination + 1))
  /\ (is_double (limit pagination) = true ->
        body_limit body = Number_toString (limit pagination))
  /\ (Z.abs (limit pagination) < 2 ^ 53 ->
        body_limit body = decimal (limit pagination)
        /\ option_map Z.of_int (NilZero.int_of_string (body_limit body))
           = Some (limit pagination)).
Proof.
  unfold buildLeadsRequestBody.
  destruct (match filter_selectedAgents filters with
            | Some ((_ :: _) as selected) => _
            | _ => _
            end) as [selectedAgents requestOptions].
  cbn [body_page body_limit js_add].
  split; [|split; [reflexivity|]].
  - intros Hpage. apply to_Num_exact. lia.
  - intros Hlim. rewrite Number_toString_exact by exact Hlim.
    split; [reflexivity|apply decimal_reads_back].
Qed.

End Composer.

(** ** Session validation *)

Section Session.
Context `{RT : Runtime}.

(** The program decodes what the environment reads. *)
Lemma decodePayload_read (t : string) :
  match decodePayload t with
  | Ok payload => read_payload t = Some payload
  | Throw _ => read_payload t = None
  end.
Proof.
  unfold decodePayload, read_payload, payload_text.
  assert (E : match split "." t with _ :: s :: _ => s | _ => "undefined" end
              = default "undefined" (split "." t !! 1%nat)).
  { destruct (split "." t) as [|a [|b l]]; reflexivity. }
  rewrite E. destruct (atob _) as [text|]; [|reflexivity]. cbn.
  now destruct (JSON_parse text).
Qed.

Lemma exp_check_expired (w : World) (t : string) :
  exp_check w t = Ok true <-> expired w t.
Proof.
  unfold exp_check, expired, js_gt. pose proof (decodePayload_read t) as Hr. split.
  - destruct (decodePayload t) as [payload|]; [|discriminate]. cbn.
    destruct (get payload "exp") as [v|] eqn:Ev; [|discriminate]. cbn.
    destruct (ToNumber StringToNumber v) as [[e|]|] eqn:En; cbn; try discriminate.
    intros E. injection E as E. apply Z.ltb_lt in E.
    exists payload, v, e. repeat (split; [reflexivity || assumption|]). exact E.
  - intros (payload & v & e & Hp & Hv & He & Hlt).
    destruct (decodePayload t) as [payload'|]; [|congruence].
    assert (payload' = payload) as -> by congruence. cbn.
    rewrite Hv. cbn. rewrite He. cbn. apply Z.ltb_lt in Hlt. now rewrite Hlt.
Qed.

Lemma exp_check_malformed (w : World) (t : string) :
  (exists msg, exp_check w t = Throw msg) <-> malformed t.
Proof.
  unfold exp_check, malformed, js_gt. pose proof (decodePayload_read t) as Hr. split.
  - intros [msg E].
    destruct (decodePayload t) as [payload|m]; [|now left]. cbn in E.
    destruct (get payload "exp") as [v|m] eqn:Ev; [|right; left; eauto]. cbn in E.
    destruct (ToNumber StringToNumber v) as [n|m] eqn:En; [discriminate|].
    right; right. eauto 6.
  - intros [Hn | [(payload & msg & Hp & E) | (payload & v & msg & Hp & Ev & En)]].
    + destruct (decodePayload t) as [payload'|m]; [congruence|]. cbn. eauto.
    + destruct (decodePayload t) as [payload'|m]; [|congruence].
      assert (payload' = payload) as -> by congruence. cbn. rewrite E. cbn. eauto.
    + destruct (decodePayload t) as [payload'|m]; [|congruence].
      assert (payload' = payload) as -> by congruence. cbn.
      rewrite Ev. cbn. rewrite En. cbn. eauto.
Qed.

(** [validateAuthToken] by cases on the stored token and on the test. *)
Lemma validateAuthToken_cases (w : World) :
  validateAuthToken w =
  match stored_token w with
  | None => (Ok false, toast "Please login again to access leads" w)
  | Some t =>
      match exp_check w t with
      | Ok false => (Ok true, w)
      | Ok true =>
          (Ok false,
           drop_token (toast "Your session has expired. Please login again." w))
      | Throw _ =>
          (Ok false, drop_token (toast "Invalid session token. Please login again." w))
      end
  end.
Proof.
  unfold validateAuthToken, stored_token, exp_check, try_catch, bind,
    SecureStore_getItemAsync, liftR, Date_now, ret, toast, drop_token.
  destruct (present (secureStore w !! "userToken")) as [t|]; [|reflexivity].
  destruct (decodePayload t) as [payload|]; [|reflexivity]. cbn.
  destruct (get payload "exp") as [v|]; [|reflexivity]. cbn.
  destruct (js_gt StringToNumber (now_ms w / 1000) v) as [[|]|]; reflexivity.
Qed.

Lemma validateAuthToken_never_throws (w : World) :
  exists b, fst (validateAuthToken w) = Ok b.
Proof.
  rewrite validateAuthToken_cases.
  destruct (stored_token w) as [t|]; [|eauto].
  destruct (exp_check w t) as [[|]|]; eauto.
Qed.

Lemma validateAuthToken_requests (w : World) :
  requests (snd (validateAuthToken w)) = requests w.
Proof.
  rewrite validateAuthToken_cases.
  destruct (stored_token w) as [t|]; [|reflexivity].
  destruct (exp_check w t) as [[|]|]; reflexivity.
Qed.

(** After a failed validation no token is left for [createAuthHeaders]. *)
Lemma validateAuthToken_false_no_token (w : World) :
  fst (validateAuthToken w) = Ok false ->
  stored_token (snd (validateAuthToken w)) = None.
Proof.
  rewrite validateAuthToken_cases.
  destruct (stored_token w) as [t|] eqn:Et.
  - destruct (exp_check w t) as [[|]|]; cbn; intros E; try discriminate;
      unfold stored_token; cbn; now rewrite lookup_delete_eq.
  - intros _. exact Et.
Qed.

Lemma validateAuthToken_true (w : World) :
  fst (validateAuthToken w) = Ok true ->
  snd (validateAuthToken w) = w /\ exists t, stored_token w = Some t.
Proof.
  rewrite validateAuthToken_cases.
  destruct (stored_token w) as [t|] eqn:Et; [|discriminate].
  destruct (exp_check w t) as [[|]|]; cbn; intros E; try discriminate. eauto.
Qed.

(** X30. Session validation never raises and sends nothing. With no token
    stored it answers false, asks to log in again and deletes nothing. With
    a token that is expired (the current time, floored to seconds, exceeds
    the [exp] of the payload that [atob] and [JSON.parse] read from the
    token's second segment) or malformed (that payload does not read, or its
    [exp] cannot be read or compared) it answers false, deletes the stored
    token and shows one notice. Otherwise it answers true and changes
    nothing, also when the payload has no [exp]. The store changes only in
    the expired and malformed cases. *)
Theorem X30_session_validation_outcomes (w : World) :
  let r := fst (validateAuthToken w) in
  let w' := snd (validateAuthToken w) in
  (exists b, r = Ok b)
  /\ (stored_token w = None ->
        r = Ok false /\ secureStore w' = secureStore w
        /\ toasts w' = (toasts w ++ ["Please login again to access leads"])%list)
  /\ (forall t, stored_token w = Some t -> expired w t \/ malformed t ->
        r = Ok false
        /\ secureStore w' = delete "userToken" (secureStore w)
        /\ secureStore w' !! "userToken" = None
        /\ (expired w t ->
              toasts w'
              = (toasts w ++ ["Your session has expired. Please login again."])%list)
        /\ (malformed t ->
              toasts w'
              = (toasts w ++ ["Invalid session token. Please login again."])%list))
  /\ (forall t, stored_token w = Some t -> ~ expired w t -> ~ malformed t ->
        r = Ok true /\ w' = w)
  /\ (forall t payload, stored_token w = Some t -> read_payload t = Some payload ->
        get payload "exp" = Ok JUndefined -> r = Ok true /\ w' = w)
  /\ (secureStore w' <> secureStore w ->
        exists t, stored_token w = Some t /\ (expired w t \/ malformed t))
  /\ requests w' = requests w.
Proof.
  cbv zeta. split; [apply validateAuthToken_never_throws|].
  pose proof (validateAuthToken_requests w) as Hreq.
  rewrite validateAuthToken_cases in *.
  destruct (stored_token w) as [t|] eqn:Et.
  - pose proof (exp_check_expired w t) as Hexp.
    pose proof (exp_check_malformed w t) as Hmal.
    pose proof (decodePayload_read t) as Hread.
    assert (Hundef : forall payload, read_payload t = Some payload ->
                       get payload "exp" = Ok JUndefined -> exp_check w t = Ok false).
    { intros payload Hp Hg. unfold exp_check.
      destruct (decodePayload t) as [payload'|]; [|congruence].
      assert (payload' = payload) as -> by congruence. cbn. rewrite Hg. reflexivity. }
    destruct (exp_check w t) as [[|]|msg] eqn:Ec; cbn.
    + (* expired *)
      split; [discriminate|]. split; [|split; [|split; [|split]]].
      * intros t' E _. injection E as <-. rewrite lookup_delete_eq.
        do 3 (split; [reflexivity|]). split; [reflexivity|].
        intros Hm. apply Hmal in Hm as [m Hm]. discriminate Hm.
      * intros t' E Hn _. injection E as <-. exfalso. apply Hn, Hexp. reflexivity.
      * intros t' payload E Hp Hg. injection E as <-.
        specialize (Hundef payload Hp Hg). discriminate Hundef.
      * intros _. exists t. split; [reflexivity|]. left. now apply Hexp.
      * exact Hreq.
    + (* valid *)
      split; [discriminate|]. split; [|split; [|split; [|split]]].
      * intros t' E [H|H]; injection E as <-.
        -- apply Hexp in H. discriminate.
        -- apply Hmal in H. destruct H as [m H]. discriminate.
      * auto.
      * auto.
      * intros H. now contradiction H.
      * reflexivity.
    + (* malformed *)
      split; [discriminate|]. split; [|split; [|split; [|split]]].
      * intros t' E _. injection E as <-. rewrite lookup_delete_eq.
        do 3 (split; [reflexivity|]). split; [|reflexivity].
        intros He. apply Hexp in He. discriminate He.
      * intros t' E _ Hn. injection E as <-. exfalso. apply Hn, Hmal. eauto.
      * intros t' payload E Hp Hg. injection E as <-.
        specialize (Hundef payload Hp Hg). discriminate Hundef.
      * intros _. exists t. split; [reflexivity|]. right. apply Hmal. eauto.
      * exact Hreq.
  - cbn. split; [auto|]. split; [discriminate|]. split; [discriminate|].
    split; [discriminate|]. split; [|reflexivity].
    intros H. now contradiction H.
Qed.

End Session.

(** ** The option fetchers *)

Section BestEffort.
Context `{RT : Runtime}.

Lemma createAuthHeaders_cases (w : World) :
  createAuthHeaders w =
  match stored_token w with
  | None => (Throw "No authentication token available", w)
  | Some t => (Ok (auth_headers t), w)
  end.
Proof.
  unfold createAuthHeaders, stored_token, bind, SecureStore_getItemAsync.
  destruct (present (secureStore w !! "userToken")); reflexivity.
Qed.

Lemma requests_set_net (w : World) (t : Z) (req : Request) :
  requests (set_net w t req) = (requests w ++ [req])%list.
Proof. reflexivity. Qed.

Lemma not_issued (l : list Request) (req : Request) : l <> (l ++ [req])%list.
Proof.
  intros E. apply (f_equal (@length Request)) in E.
  rewrite length_app in E. cbn in E. lia.
Qed.

Lemma best_effort_cases {A} (dflt : A) url query (k : JsVal -> Result A) (w : World) :
  best_effort dflt url query k w =
  match stored_token w with
  | None => (Ok dflt, w)
  | Some t =>
      let req := GET url query (auth_headers t) in
      let out := server (requests w) req in
      (match settled out with
       | Ok r =>
           if ok r then
             match resp_json r with
             | Some body => match k body with Ok a => Ok a | Throw _ => Ok dflt end
             | None => Ok dflt
             end
           else Ok dflt
       | Throw _ => Ok dflt
       end, set_net w (elapsed_ms out) req)
  end.
Proof.
  unfold best_effort, try_catch, bind. rewrite createAuthHeaders_cases.
  destruct (stored_token w) as [t|]; [|reflexivity].
  cbv zeta. unfold js_fetch.
  destruct (settled (server (requests w) (GET url query (auth_headers t)))) as [r|];
    [|reflexivity].
  destruct (ok r); [|reflexivity].
  unfold response_json, liftR, ret, throw.
  destruct (resp_json r) as [body|]; [|reflexivity].
  destruct (k body); reflexivity.
Qed.

Lemma best_effort_degrades {A} (dflt : A) url query (k : JsVal -> Result A) :
  degrades_to (best_effort dflt url query k) dflt.
Proof.
  intros w. unfold issued. rewrite best_effort_cases.
  destruct (stored_token w) as [t|].
  - cbv zeta.
    set (req0 := GET url query (auth_headers t)).
    split; [|split].
    + destruct (settled (server (requests w) req0)) as [r|]; [|eauto].
      destruct (ok r); [|eauto]. destruct (resp_json r) as [b|]; [|eauto].
      destruct (k b); eauto.
    + discriminate.
    + intros req out [Hreq ->] Hfail. cbn in Hreq.
      apply app_inj_tail in Hreq as [_ <-]. cbn [fst].
      unfold failed in Hfail.
      destruct (settled (server (requests w) req0)) as [r|]; [|reflexivity].
      now rewrite Hfail.
  - split; [eauto|]. split; [auto|].
    intros req out [Hreq _] _. cbn in Hreq. now apply not_issued in Hreq.
Qed.

Lemma degrades_to_ext {A} (m m' : M A) (dflt : A) :
  (forall w, m w = m' w) -> degrades_to m' dflt -> degrades_to m dflt.
Proof.
  intros E H w. unfold issued. rewrite E. apply H.
Qed.

Lemma fetchAgents_best_effort (user : User) (w : World) :
  nonempty (user_id user) = true ->
  fetchAgents (Some user) w =
  best_effort [] (BASE_URL +:+ "/api/staff/get") [("preserveHierarchy", "true")]
              (agentsOfBody user) w.
Proof.
  intros Hid. unfold fetchAgents. rewrite Hid. cbn [negb].
  rewrite best_effort_cases.
  unfold try_catch, bind. rewrite createAuthHeaders_cases.
  destruct (stored_token w) as [t|]; [|reflexivity].
  cbv zeta. unfold js_fetch.
  destruct (settled (server (requests w) _)) as [r|]; [|reflexivity].
  destruct (ok r); [|reflexivity].
  unfold response_json, liftR, agentsOfBody, ret, throw, bindR.
  destruct (resp_json r) as [body|]; [|reflexivity].
  destruct (get body "data") as [rows|]; [|reflexivity].
  destruct (transformAgentsDataToTreeSelect rows); reflexivity.
Qed.

Lemma fetchAgents_degrades (user : option User) : degrades_to (fetchAgents user) [].
Proof.
  destruct user as [user|].
  - destruct (nonempty (user_id user)) eqn:Hid.
    + eapply degrades_to_ext; [|apply best_effort_degrades].
      intros w. now apply fetchAgents_best_effort.
    + intros w. unfold issued, fetchAgents. rewrite Hid. cbn.
      split; [eauto|]. split; [auto|].
      intros req out [Hreq _] _. now apply not_issued in Hreq.
  - intros w. unfold issued. cbn. split; [eauto|]. split; [auto|].
    intros req out [Hreq _] _. now apply not_issued in Hreq.
Qed.

(** C8. The best-effort option fetchers (statuses, sources, tags, agents)
    never raise, and they return their empty result (the empty list, or the
    tags response with no option, [hasMore] false and [totalCount] 0) when no
    token is stored, when the transport fails and when the answer is not
    2xx. *)
Theorem C8_option_fetchers_never_throw :
  degrades_to fetchStatusOptions []
  /\ degrades_to fetchSourceOptions []
  /\ (forall pg lim searchTerm,
        degrades_to (fetchTagOptions pg lim searchTerm)
                    {| options := []; hasMore := false; totalCount := JNum 0 |})
  /\ (forall user, degrades_to (fetchAgents user) []).
Proof.
  split; [|split; [|split]].
  - apply (best_effort_degrades (A := list FilterOption) []).
  - apply (best_effort_degrades (A := list FilterOption) []).
  - intros pg lim searchTerm. apply (best_effort_degrades empty_tags).
  - apply fetchAgents_degrades.
Qed.

End BestEffort.

(** ** Which fetch reaches the network *)

Section Gate.
Context `{RT : Runtime}.

Lemma stored_token_toast (msg : string) (w : World) :
  stored_token (toast msg w) = stored_token w.
Proof. reflexivity. Qed.

Lemma session_invalid (w : World) :
  session_valid w = false -> fst (validateAuthToken w) = Ok false.
Proof.
  unfold session_valid.
  destruct (validateAuthToken_never_throws w) as [b ->].
  now destruct b.
Qed.

(** The validation answers false exactly on the invalid sessions. *)
Lemma invalid_session_false (w : World) :
  invalid_session w <-> fst (validateAuthToken w) = Ok false.
Proof.
  unfold invalid_session. rewrite validateAuthToken_cases.
  destruct (stored_token w) as [t|]; [|cbn; tauto].
  pose proof (exp_check_expired w t) as Hexp.
  pose proof (exp_check_malformed w t) as Hmal.
  destruct (exp_check w t) as [[|]|msg]; cbn.
  - split; [reflexivity|]. intros _. right. exists t. split; [reflexivity|].
    left. now apply Hexp.
  - split; [|discriminate].
    intros [H|(t' & E & [H|H])]; [discriminate H| |]; injection E as <-.
    + apply Hexp in H. discriminate H.
    + apply Hmal in H as [m H]. discriminate H.
  - split; [reflexivity|]. intros _. right. exists t. split; [reflexivity|].
    right. apply Hmal. eauto.
Qed.

Lemma best_effort_no_token {A} (dflt : A) url query k (w : World) :
  stored_token w = None ->
  requests (snd (best_effort dflt url query k w)) = requests w.
Proof. intros E. now rewrite best_effort_cases, E. Qed.

Lemma fetchLeads_invalid_session user filters searchText pagination options (w : World) :
  fst (validateAuthToken w) = Ok false ->
  (exists msg, fst (fetchLeads user filters searchText pagination options w) = Throw msg)
  /\ requests (snd (fetchLeads user filters searchText pagination options w))
     = requests w
  /\ (forall u, user = Some u -> user_id u <> "" ->
        snd (fetchLeads user filters searchText pagination options w)
        = snd (validateAuthToken w)).
Proof.
  intros Hv. unfold fetchLeads.
  destruct user as [user|]; [|cbn; split; [eauto|split; [reflexivity|discriminate]]].
  destruct (nonempty (user_id user)) eqn:En; cbn [negb].
  - unfold bind. pose proof (validateAuthToken_requests w) as Hreq.
    destruct (validateAuthToken w) as [[[|]|] w1]; cbn in Hv, Hreq; try discriminate.
    cbn. eauto.
  - cbn. split; [eauto|]. split; [reflexivity|].
    intros u [= <-] Hu. exfalso. apply Hu.
    unfold nonempty in En. apply negb_false_iff, String.eqb_eq in En. exact En.
Qed.

Lemma fetchCampaignsWithCounts_invalid_session pg lim (w : World) :
  fst (validateAuthToken w) = Ok false ->
  (exists msg, fst (fetchCampaignsWithCounts pg lim w) = Throw msg)
  /\ requests (snd (fetchCampaignsWithCounts pg lim w)) = requests w
  /\ snd (fetchCampaignsWithCounts pg lim w) = snd (validateAuthToken w).
Proof.
  intros Hv. unfold fetchCampaignsWithCounts, auth_createAuthHeaders, auth_validateAuthToken, bind.
  pose proof (validateAuthToken_requests w) as Hreq.
  pose proof (validateAuthToken_false_no_token w Hv) as Htok.
  destruct (validateAuthToken w) as [[b|] w1]; cbn in Hv, Hreq, Htok; [|discriminate].
  rewrite createAuthHeaders_cases, Htok. cbn. eauto.
Qed.

Lemma validateAuthToken_no_token (w : World) :
  stored_token w = None -> fst (validateAuthToken w) = Ok false.
Proof. intros E. now rewrite validateAuthToken_cases, E. Qed.

Lemma run_no_token (op : FetchOp) (w : World) :
  stored_token w = None -> requests (snd (run op w)) = requests w.
Proof.
  intros E. destruct op; cbn [run outcome snd].
  - now apply fetchLeads_invalid_session, validateAuthToken_no_token.
  - now apply (best_effort_no_token (A := list FilterOption)).
  - now apply (best_effort_no_token (A := list FilterOption)).
  - now apply (best_effort_no_token (A := TagsResponse)).
  - now apply fetchAgents_degrades.
  - unfold fetchCampaignLeads, auth_createAuthHeaders.
    destruct (nonempty (campaignName campaignFilters)); [|reflexivity].
    cbn [negb]. unfold bind. now rewrite createAuthHeaders_cases, E.
  - now apply fetchCampaignsWithCounts_invalid_session, validateAuthToken_no_token.
Qed.

Lemma best_effort_sends {A} (dflt : A) url query k (w : World) (t : string) :
  stored_token w = Some t ->
  requests (snd (best_effort dflt url query k w))
  = (requests w ++ [GET url query (auth_headers t)])%list.
Proof. intros E. now rewrite best_effort_cases, E. Qed.

Lemma fetchCampaignLeads_sends campaignFilters (w : World) (t : string) :
  stored_token w = Some t ->
  nonempty (campaignName campaignFilters) = true ->
  exists req,
    requests (snd (fetchCampaignLeads campaignFilters w)) = (requests w ++ [req])%list
    /\ req_headers req = auth_headers t.
Proof.
  intros Et En. unfold fetchCampaignLeads, auth_createAuthHeaders. rewrite En. cbn [negb].
  unfold bind. rewrite createAuthHeaders_cases, Et. unfold js_fetch.
  exists {| req_method := "POST"; req_url := BASE_URL +:+ "/api/Lead/campaign";
            req_query := []; req_headers := auth_headers t;
            req_body := CampaignBody (campaignName campaignFilters)
                                     (num_or (campaign_page campaignFilters) 1)
                                     (num_or (campaign_limit campaignFilters) 50) |}.
  split; [|reflexivity].
  destruct (settled (server (requests w) _)) as [r|]; [|reflexivity].
  destruct (ok r); cbn [negb]; [|reflexivity].
  unfold response_json, liftR, ret, throw.
  destruct (resp_json r) as [body|]; [|reflexivity].
  destruct (get body "message"); [|reflexivity].
  destruct (get body "data"); [|reflexivity].
  destruct (get body "totalLeads"); reflexivity.
Qed.

Lemma run_option_fetcher (op : FetchOp) (w : World) (t : string) :
  stored_token w = Some t -> option_fetcher op = true ->
  exists req,
    requests (snd (run op w)) = (requests w ++ [req])%list
    /\ req_headers req = auth_headers t.
Proof.
  intros Et Hop. destruct op; cbn [run outcome snd]; try discriminate Hop.
  - eexists. split; [eapply (best_effort_sends (A := list FilterOption)), Et|reflexivity].
  - eexists. split; [eapply (best_effort_sends (A := list FilterOption)), Et|reflexivity].
  - eexists. split; [eapply (best_effort_sends (A := TagsResponse)), Et|reflexivity].
  - destruct user as [user|]; [|discriminate Hop]. cbn in Hop.
    rewrite (fetchAgents_best_effort user w Hop).
    eexists. split; [eapply best_effort_sends, Et|reflexivity].
Qed.

(** C2, as the code has it. None of the seven fetch operations issues a
    request when no token is stored. [fetchLeads], once its user has passed
    the user test, and [fetchCampaignsWithCounts] run the session validation
    before they build a header or send anything: with an invalid session (no
    token, an expired one or a malformed one) they raise without issuing a
    request, and leave the world as the validation alone leaves it. The four
    option fetchers (statuses, sources, tags, and the agents for a user with
    an id) do not validate: with a token stored, valid or not, each of them
    sends its request with it. *)
Theorem C2_token_gate_before_network :
  (forall op w, stored_token w = None -> requests (snd (run op w)) = requests w)
  /\ (forall w, invalid_session w ->
        (forall user filters searchText pagination options,
           let op := OpFetchLeads user filters searchText pagination options in
           fst (run op w) = false /\ requests (snd (run op w)) = requests w
           /\ (forall u, user = Some u -> user_id u <> "" ->
                 snd (run op w) = snd (validateAuthToken w)))
        /\ (forall pg lim,
              let op := OpFetchCampaignsWithCounts pg lim in
              fst (run op w) = false /\ requests (snd (run op w)) = requests w
              /\ snd (run op w) = snd (validateAuthToken w)))
  /\ (forall op w t, stored_token w = Some t -> option_fetcher op = true ->
        exists req,
          requests (snd (run op w)) = (requests w ++ [req])%list
          /\ assoc_string "Cookie" (req_headers req) = Some ("token=" +:+ t)).
Proof.
  split; [exact run_no_token|]. split.
  - intros w Hs. apply invalid_session_false in Hs. split.
    + intros user filters searchText pagination options. cbn.
      destruct (fetchLeads_invalid_session user filters searchText pagination options
                                           w Hs) as ([msg ->] & Hr & Hw). auto.
    + intros pg lim. cbn.
      destruct (fetchCampaignsWithCounts_invalid_session pg lim w Hs)
        as ([msg ->] & Hr & Hw).
      auto.
  - intros op w t Et Hop.
    destruct (run_option_fetcher op w t Et Hop) as (req & Hreq & Hh).
    exists req. split; [exact Hreq|]. now rewrite Hh.
Qed.

End Gate.

(** ** Tag pages *)

Section Tags.
Context `{RT : Runtime}.

Lemma mapi_from_length {A B} (f : A -> nat -> Result B) (l : list A) :
  forall i l', mapi_from i f l = Ok l' -> length l' = length l.
Proof.
  induction l as [|x rest IH]; intros i l' E; cbn in E.
  - now injection E as <-.
  - destruct (f x i) as [y|]; [|discriminate]. cbn in E.
    destruct (mapi_from (S i) f rest) as [ys|] eqn:Er; [|discriminate].
    injection E as <-. cbn. f_equal. eauto.
Qed.

Lemma mapi_from_lookup {A B} (f : A -> nat -> Result B) (l : list A) :
  forall i l', mapi_from i f l = Ok l' ->
  forall (j : nat) x, l !! j = Some x ->
  exists y, f x (i + j)%nat = Ok y /\ l' !! j = Some y.
Proof.
  induction l as [|x rest IH]; intros i l' E j a Hj; [discriminate|].
  cbn in E. destruct (f x i) as [y|] eqn:Ey; [|discriminate]. cbn in E.
  destruct (mapi_from (S i) f rest) as [ys|] eqn:Er; [|discriminate].
  injection E as <-. destruct j as [|j]; cbn in Hj.
  - injection Hj as <-. exists y. rewrite Nat.add_0_r. auto.
  - destruct (IH _ _ Er j a Hj) as (z & Hz & Hl).
    exists z. split; [|exact Hl]. now rewrite <- Nat.add_succ_comm.
Qed.

Lemma get_field (body : JsVal) (k : string) (v : JsVal) :
  get body k = Ok v -> field body k = v.
Proof. unfold field. now intros ->. Qed.

Lemma get_ok_twice (body : JsVal) (k k' : string) (v : JsVal) :
  get body k = Ok v -> get body k' = Ok (field body k').
Proof.
  unfold field. destruct body; cbn; intros E; try discriminate; reflexivity.
Qed.

(** What the 2xx branch computes, when it does not raise. *)
Lemma tagsOfBody_spec (pg lim : Z) (body : JsVal) (res : TagsResponse) :
  tagsOfBody pg lim body = Ok res ->
  exists rows,
    get body "data" = Ok (JArr rows)
    /\ length (options res) = length rows
    /\ hasMore res = (Z.of_nat (length rows) =? lim)
    /\ totalCount res
       = js_or (js_or (field body "totalTags") (field body "total"))
               (JNum (Z.of_nat (length rows)))
    /\ forall (i : nat) row, rows !! i = Some row ->
       exists lab prefix,
         get row "Tag" = Ok lab /\ ToString lab = Ok prefix
         /\ options res !! i
            = Some {| value := tag_value prefix pg lim i; label := lab; color := None |}.
Proof.
  unfold tagsOfBody. intros E.
  destruct (get body "data") as [rowsv|] eqn:Ed; [|discriminate]. cbn in E.
  destruct rowsv as [ | | | | |rows| ]; try discriminate.
  cbn [js_map] in E. unfold mapi in E.
  destruct (mapi_from 0 _ rows) as [tagOpts|] eqn:Em; [|discriminate]. cbn in E.
  rewrite (get_ok_twice body "data" "totalTags" _ Ed) in E. cbn in E.
  rewrite (get_ok_twice body "data" "total" _ Ed) in E. cbn in E.
  injection E as <-. cbn.
  pose proof (mapi_from_length _ _ _ _ Em) as Hlen.
  exists rows. rewrite Hlen. repeat (split; [reflexivity|]).
  intros i row Hi.
  destruct (mapi_from_lookup _ _ _ _ Em i row Hi) as (y & Hy & Hl).
  cbn in Hy.
  destruct (get row "Tag") as [lab|] eqn:El; [|discriminate]. cbn in Hy.
  destruct (ToString lab) as [prefix|] eqn:Ep; [|discriminate]. cbn in Hy.
  injection Hy as <-. exists lab, prefix. auto.
Qed.

Lemma tag_fetch_result (w : World) pg lim searchTerm body res :
  tag_fetch_succeeds w pg lim searchTerm body res ->
  fst (fetchTagOptions pg lim searchTerm w) = Ok res.
Proof.
  intros (req & out & r & [Hreq ->] & Hs & Hok & Hj & Hres).
  change (fetchTagOptions pg lim searchTerm)
    with (best_effort empty_tags (BASE_URL +:+ "/api/tags/get")
            ([("page", Number_toString pg); ("limit", Number_toString lim)]
             ++ (if nonempty searchTerm then [("search", searchTerm)] else []))%list
            (tagsOfBody pg lim)) in *.
  rewrite best_effort_cases in *.
  destruct (stored_token w) as [t|].
  - cbn in Hreq. apply app_inj_tail in Hreq as [_ <-].
    cbn. cbn in Hs. rewrite Hs, Hok, Hj, Hres. reflexivity.
  - cbn in Hreq. now apply not_issued in Hreq.
Qed.

(** C6. For every successful tag fetch, [hasMore] is true if and only if the
    number of rows returned equals the requested limit: a page with fewer
    rows gives false, a full page gives true whatever lies behind it. *)
Theorem C6_hasMore_iff_full_page (w : World) pg lim searchTerm body res :
  tag_fetch_succeeds w pg lim searchTerm body res ->
  fst (fetchTagOptions pg lim searchTerm w) = Ok res
  /\ exists rows,
       get body "data" = Ok (JArr rows)
       /\ length (options res) = length rows
       /\ (hasMore res = true <-> Z.of_nat (length rows) = lim)
       /\ (Z.of_nat (length rows) < lim -> hasMore res = false).
Proof.
  intros H. split; [now apply tag_fetch_result in H|].
  destruct H as (req & out & r & _ & _ & _ & _ & Hres).
  apply tagsOfBody_spec in Hres as (rows & Hd & Hlen & Hmore & _).
  exists rows. rewrite Hmore. repeat (split; [assumption|]). split.
  - apply Z.eqb_eq.
  - intros Hlt. apply Z.eqb_neq. lia.
Qed.

(** C7, as the code has it. For every successful tag fetch, [totalCount] is
    the response's [totalTags] when that value is truthy, else its [total]
    when that value is truthy, else the number of rows of the page; it is the
    number of rows in particular when neither property is present. *)
Theorem C7_totalCount_first_truthy (w : World) pg lim searchTerm body res :
  tag_fetch_succeeds w pg lim searchTerm body res ->
  fst (fetchTagOptions pg lim searchTerm w) = Ok res
  /\ exists rows,
       get body "data" = Ok (JArr rows)
       /\ (truthy (field body "totalTags") = true ->
             totalCount res = field body "totalTags")
       /\ (truthy (field body "totalTags") = false ->
           truthy (field body "total") = true ->
             totalCount res = field body "total")
       /\ (truthy (field body "totalTags") = false ->
           truthy (field body "total") = false ->
             totalCount res = JNum (Z.of_nat (length rows)))
       /\ (field body "totalTags" = JUndefined ->
           field body "total" = JUndefined ->
             totalCount res = JNum (Z.of_nat (length rows))).
Proof.
  intros H. split; [now apply tag_fetch_result in H|].
  destruct H as (req & out & r & _ & _ & _ & _ & Hres).
  apply tagsOfBody_spec in Hres as (rows & Hd & _ & _ & Htot & _).
  exists rows. split; [assumption|]. rewrite Htot. unfold js_or.
  split; [|split; [|split]].
  - intros E. now rewrite !E.
  - intros E1 E2. now rewrite E1, E2.
  - intros E1 E2. now rewrite E1, E2.
  - intros E1 E2. now rewrite E1, E2.
Qed.

End Tags.

(** ** The leads response *)

Section Leads.
Context `{RT : Runtime}.

Lemma get_not_nullish (body : JsVal) (k : string) :
  nullish body = false -> get body k = Ok (field body k).
Proof.
  unfold field. destruct body; cbn; intros E; try discriminate; reflexivity.
Qed.

Lemma fetchLeads_answered (w : World) user filters searchText pagination options body :
  leads_fetch_answered w user filters searchText pagination options body ->
  nullish body = false ->
  fst (fetchLeads user filters searchText pagination options w)
  = Ok {| data := elements_of (field body "data");
          totalLeads := js_or (field body "totalLeads") (JNum 0) |}.
Proof.
  intros (req & out & r & [Hreq ->] & Hs & Hok & Hj) Hn.
  unfold fetchLeads in *.
  destruct user as [user|]; [|now apply not_issued in Hreq].
  destruct (nonempty (user_id user)); cbn [negb] in *;
    [|now apply not_issued in Hreq].
  unfold bind in *.
  pose proof (validateAuthToken_requests w) as Hvr.
  pose proof (validateAuthToken_true w) as Hvt.
  destruct (validateAuthToken w) as [[[|]|] w1]; cbn [fst snd negb] in *.
  2, 3: unfold throw in Hreq; cbn in Hreq; rewrite Hvr in Hreq;
        now apply not_issued in Hreq.
  destruct (Hvt eq_refl) as [-> [t Ht]].
  rewrite createAuthHeaders_cases, Ht in *.
  unfold js_fetch in *.
  set (req0 := {| req_method := "POST"; req_url := BASE_URL +:+ "/api/Lead/get";
                  req_query := []; req_headers := auth_headers t;
                  req_body := LeadsBody (buildLeadsRequestBody user filters searchText
                                                               pagination options) |}) in *.
  assert (req = req0) as ->.
  { destruct (settled (server (requests w) req0)) as [r0|].
    - destruct (ok r0); cbn in Hreq.
      + unfold response_json, liftR, ret, throw in Hreq.
        destruct (resp_json r0) as [b0|]; cbn in Hreq.
        * destruct (get b0 "data"); cbn in Hreq;
            [destruct (get b0 "totalLeads"); cbn in Hreq|];
            now apply app_inj_tail in Hreq as [_ <-].
        * now apply app_inj_tail in Hreq as [_ <-].
      + now apply app_inj_tail in Hreq as [_ <-].
    - cbn in Hreq. now apply app_inj_tail in Hreq as [_ <-]. }
  rewrite Hs, Hok. cbn [negb].
  unfold response_json, liftR, ret. rewrite Hj.
  rewrite !(get_not_nullish body _ Hn). cbn.
  destruct (field body "data"); reflexivity.
Qed.

(** C10, as the code has it. For every 2xx leads response whose body is a
    JSON value other than [null], [fetchLeads] returns [data] as a list, the
    response's [data] when that is an array and the empty list otherwise, and
    [totalLeads] as the response's [totalLeads] when that value is truthy and
    [0] otherwise: a number whenever the response's value is a number, absent
    or falsy. *)
Theorem C10_leads_response_normalised
    (w : World) user filters searchText pagination options body :
  leads_fetch_answered w user filters searchText pagination options body ->
  nullish body = false ->
  exists res,
    fst (fetchLeads user filters searchText pagination options w) = Ok res
    /\ (forall rows, field body "data" = JArr rows -> data res = rows)
    /\ (isArray (field body "data") = false -> data res = [])
    /\ (truthy (field body "totalLeads") = true ->
          totalLeads res = field body "totalLeads")
    /\ (truthy (field body "totalLeads") = false -> totalLeads res = JNum 0)
    /\ (isNumber (field body "totalLeads") = true \/ truthy (field body "totalLeads") = false ->
          isNumber (totalLeads res) = true).
Proof.
  intros Ha Hn.
  exists {| data := elements_of (field body "data");
            totalLeads := js_or (field body "totalLeads") (JNum 0) |}.
  split; [apply fetchLeads_answered; assumption|].
  cbn [data totalLeads]. unfold js_or.
  split; [|split; [|split; [|split]]].
  - now intros rows ->.
  - destruct (field body "data"); cbn; try reflexivity. discriminate.
  - now intros ->.
  - now intros ->.
  - intros [E|E].
    + destruct (truthy (field body "totalLeads")); [exact E|reflexivity].
    + now rewrite E.
Qed.

End Leads.

(** ** The agent tree *)

Section AgentTree.

Lemma mapi_from_map {A B C} (f : B -> nat -> Result C) (h : A -> B) (g : A -> C)
    (l : list A) :
  (forall x, In x l -> forall j, f (h x) j = Ok (g x)) ->
  forall i, mapi_from i f (map h l) = Ok (map g l).
Proof.
  induction l as [|x rest IH]; intros H i; [reflexivity|].
  cbn. rewrite (H x (or_introl eq_refl)). cbn.
  rewrite IH; [reflexivity|]. intros y Hy. apply H. now right.
Qed.

Lemma list_max_In {A} (f : A -> nat) (l : list A) (x : A) :
  In x l -> (f x <= list_max (map f l))%nat.
Proof.
  induction l as [|y rest IH]; intros H; [contradiction|].
  change (list_max (map f (y :: rest)))
    with (Nat.max (f y) (list_max (map f rest))).
  destruct H as [->|H]; [lia|]. specialize (IH H). lia.
Qed.

Lemma row_height_subordinate id name e pe iv l (s : AgentRow) :
  In s l -> (S (row_height s) <= row_height (mkAgentRow id name e pe iv (Some l)))%nat.
Proof.
  intros H. cbn. apply le_n_S. now apply (list_max_In row_height).
Qed.

(** The children of the node the transform builds for a subordinate are the
    nodes of the subordinate's own subordinates. *)
Lemma children_of_rootNode (s : AgentRow) :
  get (nodeToJs (rootNode s)) "children"
  = Ok match option_map (map childNode) (row_subordinates s) with
       | None => JUndefined
       | Some l => JArr (map nodeToJs l)
       end.
Proof. destruct s as [id name e pe iv subs]. reflexivity. Qed.

Lemma transform_rows (fuel : nat) :
  forall rows : list AgentRow,
    (forall r, In r rows -> (row_height r <= fuel)%nat) ->
    transformAgentsDataToTreeSelect_at (S fuel) (JArr (map rowToJs rows))
    = Ok (JArr (map nodeToJs (toTree rows))).
Proof.
  induction fuel as [|fuel IH]; intros rows Hh.
  - (* no row has a list of subordinates *)
    cbn [transformAgentsDataToTreeSelect_at truthy isArray negb orb js_map].
    unfold mapi, toTree. rewrite map_map.
    erewrite (mapi_from_map _ rowToJs (fun r => nodeToJs (rootNode r)));
      [reflexivity|].
    intros [id name e pe iv subs] Hr j. apply Hh in Hr.
    destruct subs as [l|]; [cbn in Hr; lia|]. reflexivity.
  - remember (S fuel) as n eqn:En.
    cbn [transformAgentsDataToTreeSelect_at truthy isArray negb orb js_map].
    unfold mapi, toTree. rewrite map_map.
    erewrite (mapi_from_map _ rowToJs (fun r => nodeToJs (rootNode r)));
      [reflexivity|].
    intros [id name e pe iv subs] Hr j. apply Hh in Hr.
    destruct subs as [l|]; [|reflexivity].
    cbn -[transformAgentsDataToTreeSelect_at].
    unfold mapi.
    erewrite (mapi_from_map _ rowToJs (fun s => nodeToJs (childNode s)));
      [rewrite map_map; reflexivity|].
    intros s Hs k.
    pose proof (row_height_subordinate id name e pe iv l s Hs) as Hsub.
    assert (Hfuel : (row_height s <= fuel)%nat) by lia.
    subst n.
    destruct s as [sid sname se spe siv ssubs].
    destruct ssubs as [l'|]; [|reflexivity].
    assert (IHs := IH [mkAgentRow sid sname se spe siv (Some l')]).
    cbn -[transformAgentsDataToTreeSelect_at] in IHs.
    cbn -[transformAgentsDataToTreeSelect_at].
    rewrite IHs; [reflexivity|].
    intros r [<-|[]]. exact Hfuel.
Qed.

Lemma row_height_depth (n : nat) :
  forall r, (row_height r <= n)%nat -> (row_height r <= depth (rowToJs r))%nat.
Proof.
  induction n as [|n IH]; intros [id name e pe iv subs] H.
  - lia.
  - destruct subs as [l|]; [|cbn; lia].
    cbn in H. cbn [row_height].
    assert (list_max (map row_height l) <= list_max (map depth (map rowToJs l)))%nat
      as Hl.
    { apply list_max_le. apply Stdlib.Lists.List.Forall_forall. intros h Hin.
      apply in_map_iff in Hin as (s & <- & Hs).
      pose proof (list_max_In row_height l s Hs) as Hs'.
      etransitivity; [apply IH; lia|].
      rewrite map_map. apply (list_max_In (fun r => depth (rowToJs r)) l s Hs). }
    cbn. lia.
Qed.

Lemma rows_height_depth (rows : list AgentRow) (r : AgentRow) :
  In r rows -> (row_height r <= depth (JArr (map rowToJs rows)))%nat.
Proof.
  intros H. cbn. rewrite map_map.
  pose proof (list_max_In (fun r => depth (rowToJs r)) rows r H) as Hd.
  pose proof (row_height_depth (row_height r) r (le_n _)). cbn in Hd. lia.
Qed.

(** On typed rows the function computes the structural transform. *)
Lemma transform_is_toTree (rows : list AgentRow) :
  transformAgentsDataToTreeSelect (JArr (map rowToJs rows))
  = Ok (JArr (map nodeToJs (toTree rows))).
Proof.
  unfold transformAgentsDataToTreeSelect. apply transform_rows.
  intros r. apply rows_height_depth.
Qed.

Lemma childNode_height (n : nat) :
  forall r, (row_height r <= n)%nat -> node_height (childNode r) = row_height r.
Proof.
  induction n as [|n IH]; intros [id name e pe iv subs] H.
  - destruct subs as [l|]; [cbn in H; lia|reflexivity].
  - destruct subs as [l|]; [|reflexivity].
    cbn in H. cbn. f_equal. rewrite map_map. f_equal.
    apply map_ext_in. intros s Hs. apply IH.
    pose proof (list_max_In row_height l s Hs). lia.
Qed.

Lemma rootNode_height (r : AgentRow) : node_height (rootNode r) = row_height r.
Proof.
  destruct r as [id name e pe iv subs]. destruct subs as [l|]; [|reflexivity].
  cbn. f_equal. rewrite map_map. f_equal. apply map_ext_in.
  intros s _. now apply (childNode_height (row_height s)).
Qed.

End AgentTree.

(** *** The call stack never runs out *)

Section Fuel.

Lemma mapi_from_ext_in {A B} (f g : A -> nat -> Result B) (l : list A) :
  (forall x, In x l -> forall j, f x j = g x j) ->
  forall i, mapi_from i f l = mapi_from i g l.
Proof.
  induction l as [|x rest IH]; intros H i; [reflexivity|].
  cbn. rewrite (H x (or_introl eq_refl)).
  rewrite IH; [reflexivity|]. intros y Hy. apply H. now right.
Qed.

Lemma assoc_depth (k : string) (fields : list (string * JsVal)) (u : JsVal) :
  assoc k fields = Some u ->
  (depth u <= list_max (map (fun kv => depth (snd kv)) fields))%nat.
Proof.
  induction fields as [|[k' v] rest IH]; intros E; [discriminate|].
  change (list_max (map (fun kv => depth (snd kv)) ((k', v) :: rest)))
    with (Nat.max (depth v) (list_max (map (fun kv => depth (snd kv)) rest))).
  cbn in E. destruct (String.eqb k k').
  - injection E as ->. lia.
  - specialize (IH E). lia.
Qed.

(** A property read yields a strictly shallower value. *)
Lemma get_depth (v : JsVal) (k : string) (u : JsVal) :
  get v k = Ok u -> nullish u = false -> (depth u < depth v)%nat.
Proof.
  destruct v; cbn; intros E Hu; try discriminate;
    try (injection E as <-; discriminate).
  destruct (assoc k fields) as [u'|] eqn:Ea; cbn in E; injection E as <-;
    [|discriminate].
  apply assoc_depth in Ea.
  change (depth (JObj fields))
    with (S (list_max (map (fun kv => depth (snd kv)) fields))). lia.
Qed.

Lemma truthy_not_nullish (v : JsVal) : truthy v = true -> nullish v = false.
Proof. destruct v; cbn; intros E; try discriminate; reflexivity. Qed.

Lemma depth_element (l : list JsVal) (x : JsVal) :
  In x l -> (depth x < depth (JArr l))%nat.
Proof.
  intros H. pose proof (list_max_In depth l x H).
  change (depth (JArr l)) with (S (list_max (map depth l))). lia.
Qed.

Lemma transform_fuel_irrelevant (fuel1 : nat) :
  forall fuel2 data,
    (depth data < fuel1)%nat -> (depth data < fuel2)%nat ->
    transformAgentsDataToTreeSelect_at fuel1 data
    = transformAgentsDataToTreeSelect_at fuel2 data.
Proof.
  induction fuel1 as [|fuel1 IH]; intros fuel2 data H1 H2; [lia|].
  destruct fuel2 as [|fuel2]; [lia|].
  cbn [transformAgentsDataToTreeSelect_at].
  destruct (negb (truthy data) || negb (isArray data)); [reflexivity|].
  destruct data as [ | | | | |elems| ]; try reflexivity.
  cbn [js_map]. unfold mapi. f_equal.
  apply mapi_from_ext_in. intros x Hx j.
  apply depth_element in Hx.
  destruct (get x "_id") as [id|]; [|reflexivity]. cbn [bindR].
  destruct (get x "username") as [name|]; [|reflexivity]. cbn [bindR].
  destruct (get x "subordinates") as [subs|] eqn:Es; [|reflexivity]. cbn [bindR].
  destruct (truthy subs) eqn:Ht; [|reflexivity].
  apply truthy_not_nullish in Ht. pose proof (get_depth _ _ _ Es Ht) as Hd.
  destruct subs as [ | | | | |l| ]; try reflexivity.
  cbn [js_map]. unfold mapi. f_equal. f_equal.
  apply mapi_from_ext_in. intros s Hs k.
  apply depth_element in Hs.
  destruct (get s "_id") as [sid|]; [|reflexivity]. cbn [bindR].
  destruct (get s "username") as [sname|]; [|reflexivity]. cbn [bindR].
  destruct (get s "email") as [e|]; [|reflexivity]. cbn [bindR].
  destruct (get s "personalemail") as [pe|]; [|reflexivity]. cbn [bindR].
  destruct (get s "isVerified") as [iv|]; [|reflexivity]. cbn [bindR].
  destruct (get s "subordinates") as [nested|]; [|reflexivity]. cbn [bindR].
  destruct (truthy nested); [|reflexivity].
  rewrite (IH fuel2 (JArr [s])); [reflexivity| |].
  - change (depth (JArr [s])) with (S (Nat.max (depth s) 0)). lia.
  - change (depth (JArr [s])) with (S (Nat.max (depth s) 0)). lia.
Qed.

(** Every stack deeper than the data gives the result of the function. *)
Lemma transform_enough_fuel (fuel : nat) (data : JsVal) :
  (depth data < fuel)%nat ->
  transformAgentsDataToTreeSelect_at fuel data = transformAgentsDataToTreeSelect data.
Proof.
  intros H. apply transform_fuel_irrelevant; [exact H|lia].
Qed.

End Fuel.

(** ** The claims on the agent tree and on the tag values *)

Section Claims.

(** C9, as the code has it. For every agent-row list the transform succeeds
    and yields, row by row, a node whose [value] is the row's id and whose
    [title] and [label] are its display name; the nodes of the subordinates
    are built the same way at every level, so that the tree is as deep as the
    hierarchy. A row that carries no [subordinates] gets the [children] value
    [undefined]; a row with an empty [subordinates] list gets an empty list
    of children. *)
Theorem C9_tree_transform (rows : list AgentRow) :
  transformAgentsDataToTreeSelect (JArr (map rowToJs rows))
  = Ok (JArr (map nodeToJs (toTree rows)))
  /\ length (toTree rows) = length rows
  /\ forall (i : nat) r, rows !! i = Some r ->
     exists n,
       toTree rows !! i = Some n
       /\ node_value n = row_id r
       /\ node_title n = row_username r
       /\ node_label n = row_username r
       /\ node_children n = option_map (map childNode) (row_subordinates r)
       /\ node_height n = row_height r
       /\ (row_subordinates r = None -> node_children n = None)
       /\ (row_subordinates r = Some [] -> node_children n = Some []).
Proof.
  split; [apply transform_is_toTree|]. unfold toTree.
  split; [apply length_map|].
  intros i r Hr. exists (rootNode r).
  split; [now rewrite list_lookup_fmap, Hr|].
  pose proof (rootNode_height r) as Hh.
  destruct r as [id name e pe iv subs]. cbn in *.
  repeat (split; [reflexivity || assumption|]).
  split; now intros ->.
Qed.

End Claims.

(** * Examples *)

Module Checks.
Import SampleRuntime Examples.

Lemma NoDup_four {A} (a b c d : A) :
  a <> b -> a <> c -> a <> d -> b <> c -> b <> d -> c <> d ->
  List.NoDup [a; b; c; d].
Proof.
  intros. repeat constructor; cbn; intuition congruence.
Qed.

(** C1. The value of a tag option is not the label followed by [::] and the
    number [(page - 1) * limit + index]: the offset and the index are
    appended one after the other. With limit 2 and the rows A, B then A, C,
    two consecutive fetches give [A::00], [B::01], [A::20] and [C::21], four
    distinct values, where the stated rule gives [A::0], [B::1], [A::2] and
    [C::3]. *)
Theorem C1_tag_value_appends_offset_then_index :
  exists page1 page2,
    fst (@fetchTagOptions tags_runtime 1 2 "" logged_in) = Ok page1
    /\ fst (@fetchTagOptions tags_runtime 2 2 ""
              (snd (@fetchTagOptions tags_runtime 1 2 "" logged_in))) = Ok page2
    /\ map label (options page1 ++ options page2)
       = [JStr "A"; JStr "B"; JStr "A"; JStr "C"]
    /\ map value (options page1 ++ options page2)
       = [JStr "A::00"; JStr "B::01"; JStr "A::20"; JStr "C::21"]
    /\ map value (options page1 ++ options page2)
       = [tag_value "A" 1 2 0; tag_value "B" 1 2 1;
          tag_value "A" 2 2 0; tag_value "C" 2 2 1]
    /\ List.NoDup (map value (options page1 ++ options page2))
    /\ [stated_tag_value "A" 1 2 0; stated_tag_value "B" 1 2 1;
        stated_tag_value "A" 2 2 0; stated_tag_value "C" 2 2 1]
       = [JStr "A::0"; JStr "B::1"; JStr "A::2"; JStr "C::3"]
    /\ nth_error (map value (options page1)) 1
       <> Some (stated_tag_value "B" 1 2 1).
Proof.
  eexists _, _.
  split; [vm_compute; reflexivity|].
  split; [vm_compute; reflexivity|].
  split; [reflexivity|]. split; [reflexivity|]. split; [reflexivity|].
  split; [apply NoDup_four; discriminate|].
  split; [reflexivity|]. discriminate.
Qed.

(** C2 fails as stated: with an expired token in the store the session is
    invalid, and [fetchCampaignLeads] still sends its request, carrying that
    token; so does [fetchStatusOptions]. *)
Lemma C2_counterexample_expired_token_reaches_network :
  @invalid_session tags_runtime stale
  /\ @session_valid tags_runtime stale = false
  /\ fst (@run tags_runtime (OpFetchCampaignLeads some_campaign) stale) = true
  /\ map req_url (requests (snd (@run tags_runtime (OpFetchCampaignLeads some_campaign) stale)))
     = ["https://crm.example/api/Lead/campaign"]
  /\ map (fun r => assoc_string "Cookie" (req_headers r))
         (requests (snd (@run tags_runtime (OpFetchCampaignLeads some_campaign) stale)))
     = [Some "token=h.eyJleHAiOjB9.s"]
  /\ map req_url (requests (snd (@run tags_runtime OpFetchStatusOptions stale)))
     = ["https://crm.example/api/Status/get"].
Proof.
  split.
  - right. exists expired_token. split; [reflexivity|]. left.
    exists (JObj [("exp", JNum 0)]), (JNum 0), 0.
    repeat split; vm_compute; reflexivity.
  - repeat split; vm_compute; reflexivity.
Qed.

(** C3 fails as stated: an agent without any capability selects
    "non-assigned"; the body carries [includeNonAssigned] true and no
    [viewAllLeads] property at all, where the claim has it false. *)
Lemma C3_counterexample_view_all_absent_not_false :
  let body := @buildLeadsRequestBody tags_runtime agent
                (filters_with (Some ["non-assigned"])) "" first_page no_options in
  selection (filters_with (Some ["non-assigned"])) = ["non-assigned"]
  /\ ~ privileged agent
  /\ body_includeNonAssigned body = Some true
  /\ body_viewAllLeads body = None
  /\ body_viewAllLeads body <> Some false.
Proof.
  cbv zeta. split; [reflexivity|]. split.
  - intros [(p & l & H & _) | [(p & l & H & _) | H]]; discriminate H.
  - split; [reflexivity|]. split; [reflexivity|discriminate].
Qed.

(** C4 fails as stated: the page [2^53] is a double and at least 0, and the
    wire page is that same number, not the next one, which no double is. The
    limit [10^21] goes out in the exponent form, and the limit
    [18014398509481992] with another last digit. *)
Lemma C4_counterexample_page_beyond_double_precision :
  let body := @buildLeadsRequestBody tags_runtime agent (filters_with None) ""
                far_page no_options in
  let body' := @buildLeadsRequestBody tags_runtime agent (filters_with None) ""
                 long_page no_options in
  is_double (limit long_page) = true
  /\ body_limit body' = "18014398509481990"
  /\ body_limit body' <> decimal (limit long_page)
  /\
  0 <= page far_page
  /\ page far_page = 2 ^ 53
  /\ is_double (page far_page) = true
  /\ is_double (page far_page + 1) = false
  /\ body_page body = Finite (page far_page)
  /\ body_page body <> Finite (page far_page + 1)
  /\ is_double (limit far_page) = true
  /\ body_limit body = "1e+21"
  /\ body_limit body <> decimal (limit far_page).
Proof.
  cbv zeta.
  repeat split; try (vm_compute; reflexivity); vm_compute; discriminate.
Qed.

(** C5. A token whose payload is written in base64url, as the specification
    has it, with an underscore in its text: the payload is a JSON object
    whose [exp] lies far after the clock's time, so the token is neither
    expired nor malformed; [atob] does not read the underscore, and the
    validation answers false, announces an invalid token and deletes it. *)
Theorem C5_base64url_token_is_deleted :
  let w := world_with urlsafe_token 1000 in
  token_payload urlsafe_token
  = Some (JObj [("sub", JStr "user?1"); ("exp", JNum 4102444800)])
  /\ now_ms w / 1000 < 4102444800
  /\ @atob tags_runtime (payload_text urlsafe_token) = None
  /\ fst (@validateAuthToken tags_runtime w) = Ok false
  /\ toasts (snd (@validateAuthToken tags_runtime w))
     = ["Invalid session token. Please login again."]
  /\ secureStore (snd (@validateAuthToken tags_runtime w)) !! "userToken" = None.
Proof. cbv zeta. repeat split; vm_compute; reflexivity. Qed.

(** C7 fails as stated: the response declares [totalTags] with value 0 and
    one row, and [totalCount] is the row count 1, not the declared 0. *)
Lemma C7_counterexample_declared_total_zero :
  field zero_total_body "totalTags" = JNum 0
  /\ assoc "totalTags" [("data", JArr [tag "A"]); ("totalTags", JNum 0)] = Some (JNum 0)
  /\ exists res,
       fst (@fetchTagOptions zero_total_runtime 1 50 "" logged_in) = Ok res
       /\ length (options res) = 1%nat
       /\ totalCount res = JNum 1
       /\ totalCount res <> field zero_total_body "totalTags".
Proof.
  split; [reflexivity|]. split; [reflexivity|].
  eexists. split; [vm_compute; reflexivity|].
  split; [reflexivity|]. split; [reflexivity|]. discriminate.
Qed.

(** C9 fails as stated: a row whose list of subordinates is empty has no
    subordinates, and its node carries the empty list as [children], not
    [undefined]. *)
Lemma C9_counterexample_empty_subordinates_list :
  row_subordinates childless = Some []
  /\ exists node,
       transformAgentsDataToTreeSelect (JArr [rowToJs childless]) = Ok (JArr [node])
       /\ get node "children" = Ok (JArr [])
       /\ get node "children" <> Ok JUndefined.
Proof.
  split; [reflexivity|]. eexists. split; [vm_compute; reflexivity|].
  split; [reflexivity|]. discriminate.
Qed.

(** C10 fails as stated: a 2xx response whose [totalLeads] is the string
    "15" comes back with that string, which is not a number. *)
Lemma C10_counterexample_total_sent_as_string :
  exists res,
    fst (@fetchLeads string_total_runtime (Some agent) (filters_with None) ""
           first_page no_options logged_in) = Ok res
    /\ totalLeads res = JStr "15"
    /\ isNumber (totalLeads res) = false.
Proof.
  eexists. split; [vm_compute; reflexivity|]. split; reflexivity.
Qed.

End Checks.

(** ** The theorems at work *)

Module Witnesses.
Import SampleRuntime Examples.

(** An ordinary agent selects "non-assigned" and a colleague: the selection
    goes out verbatim, with [includeNonAssigned] true and no [viewAllLeads]. *)
Lemma C3_witness_agent_selects_non_assigned :
  selection (filters_with (Some ["non-assigned"; "u9"])) <> []
  /\ (let body := @buildLeadsRequestBody tags_runtime agent
                    (filters_with (Some ["non-assigned"; "u9"])) "" first_page no_options in
      body_selectedAgents body = ["non-assigned"; "u9"]
      /\ body_includeNonAssigned body = Some true
      /\ body_viewAllLeads body = None).
Proof.
  assert (Hsel : selection (filters_with (Some ["non-assigned"; "u9"])) <> [])
    by discriminate.
  split; [exact Hsel|].
  destruct (@C3_scope_resolution_priority tags_runtime agent
              (filters_with (Some ["non-assigned"; "u9"])) "" first_page no_options)
    as [H _].
  destruct (H Hsel) as (Ha & Hi & Hv).
  split; [exact Ha|]. split.
  - apply (proj1 (Hi eq_refl)). left. reflexivity.
  - apply (proj2 (Hv eq_refl)).
    intros [_ [(p & l & Hp & _) | [(p & l & Hp & _) | Hr]]]; discriminate.
Defined.

Lemma C4_witness_first_page :
  0 <= page first_page < 2 ^ 53
  /\ is_double (limit first_page) = true
  /\ Z.abs (limit first_page) < 2 ^ 53
  /\ (let body := @buildLeadsRequestBody tags_runtime agent (filters_with None) ""
                    first_page no_options in
      body_page body = Finite 1
      /\ body_limit body = Number_toString 25
      /\ body_limit body = "25").
Proof.
  assert (Hp : 0 <= page first_page < 2 ^ 53) by (cbn; lia).
  assert (Hd : is_double (limit first_page) = true) by reflexivity.
  assert (Hl : Z.abs (limit first_page) < 2 ^ 53) by (cbn; lia).
  split; [exact Hp|]. split; [exact Hd|]. split; [exact Hl|].
  destruct (@C4_page_one_based_limit_string tags_runtime agent (filters_with None) ""
              first_page no_options) as (H1 & H2 & H3).
  split; [exact (H1 Hp)|]. split; [exact (H2 Hd) | exact (proj1 (H3 Hl))].
Defined.

(** The payload of the expired token and its reading. *)
Lemma stale_is_expired : @expired tags_runtime stale expired_token.
Proof.
  exists (JObj [("exp", JNum 0)]), (JNum 0), 0.
  repeat split; vm_compute; reflexivity.
Defined.

Lemma X30_witness_expired_token_is_deleted :
  @stored_token stale = Some expired_token
  /\ @expired tags_runtime stale expired_token
  /\ fst (@validateAuthToken tags_runtime stale) = Ok false
  /\ secureStore (snd (@validateAuthToken tags_runtime stale)) !! "userToken" = None.
Proof.
  assert (Ht : stored_token stale = Some expired_token) by reflexivity.
  split; [exact Ht|]. split; [exact stale_is_expired|].
  destruct (@X30_session_validation_outcomes tags_runtime stale) as (_ & _ & H & _).
  destruct (H expired_token Ht (or_introl stale_is_expired)) as (Hr & _ & Hs & _).
  split; [exact Hr | exact Hs].
Defined.

Lemma page1_succeeds :
  @tag_fetch_succeeds tags_runtime logged_in 1 2 "" page1_body page1_result.
Proof.
  eexists _, _, _.
  split; [split; [vm_compute; reflexivity | reflexivity]|].
  split; [vm_compute; reflexivity|].
  split; [reflexivity|]. split; reflexivity.
Defined.

Lemma C6_witness_full_page :
  @tag_fetch_succeeds tags_runtime logged_in 1 2 "" page1_body page1_result
  /\ fst (@fetchTagOptions tags_runtime 1 2 "" logged_in) = Ok page1_result
  /\ hasMore page1_result = true.
Proof.
  split; [exact page1_succeeds|].
  destruct (@C6_hasMore_iff_full_page tags_runtime logged_in 1 2 "" page1_body
              page1_result page1_succeeds) as (Hr & rows & Hd & Hl & Hm & _).
  split; [exact Hr|]. apply Hm.
  injection Hd as <-. reflexivity.
Defined.

Lemma C7_witness_no_declared_total :
  @tag_fetch_succeeds tags_runtime logged_in 1 2 "" page1_body page1_result
  /\ field page1_body "totalTags" = JUndefined
  /\ field page1_body "total" = JUndefined
  /\ totalCount page1_result = JNum 2.
Proof.
  split; [exact page1_succeeds|]. split; [reflexivity|]. split; [reflexivity|].
  destruct (@C7_totalCount_first_truthy tags_runtime logged_in 1 2 "" page1_body
              page1_result page1_succeeds) as (_ & rows & Hd & _ & _ & _ & Hn).
  rewrite (Hn eq_refl eq_refl). injection Hd as <-. reflexivity.
Defined.

(** Without a token, and in front of a server that is down, the status
    options are the empty list. *)
Lemma C8_witness_statuses_degrade :
  @stored_token (world_without_token 0) = None
  /\ fst (@fetchStatusOptions (runtime down) (world_without_token 0)) = Ok []
  /\ (exists req,
        @issued (runtime down) _ (@fetchStatusOptions (runtime down)) logged_in req
                (down [] req)
        /\ @failed (down [] req))
  /\ fst (@fetchStatusOptions (runtime down) logged_in) = Ok [].
Proof.
  destruct (@C8_option_fetchers_never_throw (runtime down)) as (Hs & _).
  assert (Ht : stored_token (world_without_token 0) = None) by reflexivity.
  split; [exact Ht|].
  split; [exact (proj1 (proj1 (proj2 (Hs (world_without_token 0))) Ht))|].
  assert (Hi : exists req,
             @issued (runtime down) _ (@fetchStatusOptions (runtime down)) logged_in req
                     (down [] req)
             /\ @failed (down [] req)).
  { eexists. split; [split; [vm_compute; reflexivity | reflexivity]|exact I]. }
  split; [exact Hi|].
  destruct Hi as (req & Hreq & Hf).
  exact (proj2 (proj2 (Hs logged_in)) req _ Hreq Hf).
Defined.

Lemma stale_is_invalid : @invalid_session tags_runtime stale.
Proof.
  right. exists expired_token. split; [reflexivity|]. left. exact stale_is_expired.
Defined.

Lemma C2_witness_expired_session_stops_leads :
  @invalid_session tags_runtime stale
  /\ fst (@run tags_runtime
            (OpFetchLeads (Some agent) (filters_with None) "" first_page no_options) stale)
     = false
  /\ requests (snd (@run tags_runtime
                      (OpFetchLeads (Some agent) (filters_with None) "" first_page
                                    no_options) stale))
     = [].
Proof.
  split; [exact stale_is_invalid|].
  destruct (proj1 (proj1 (proj2 (@C2_token_gate_before_network tags_runtime)) stale
                         stale_is_invalid)
                  (Some agent) (filters_with None) "" first_page no_options)
    as (H1 & H2 & _).
  split; [exact H1 | exact H2].
Defined.

(** root -> subordinate -> subordinate keeps its two levels. *)
Lemma C9_witness_two_levels :
  [root] !! 0%nat = Some root
  /\ transformAgentsDataToTreeSelect (JArr [rowToJs root])
     = Ok (JArr (map nodeToJs (toTree [root])))
  /\ exists n,
       toTree [root] !! 0%nat = Some n
       /\ node_value n = "a1" /\ node_title n = "Ann" /\ node_label n = "Ann"
       /\ node_height n = 2%nat.
Proof.
  assert (Hr : [root] !! 0%nat = Some root) by reflexivity.
  split; [exact Hr|].
  destruct (C9_tree_transform [root]) as (Ht & _ & Hn).
  split; [exact Ht|].
  destruct (Hn 0%nat root Hr) as (n & H0 & Hv & Htl & Hl & _ & Hh & _).
  exists n. repeat (split; [assumption|]). exact Hh.
Defined.

Lemma leads_answered :
  @leads_fetch_answered leads_runtime logged_in (Some agent) (filters_with None) ""
    first_page no_options leads_body.
Proof.
  eexists _, _, _.
  split; [split; [vm_compute; reflexivity | reflexivity]|].
  split; [vm_compute; reflexivity|]. split; reflexivity.
Defined.

Lemma C10_witness_two_leads :
  @leads_fetch_answered leads_runtime logged_in (Some agent) (filters_with None) ""
    first_page no_options leads_body
  /\ nullish leads_body = false
  /\ exists res,
       fst (@fetchLeads leads_runtime (Some agent) (filters_with None) "" first_page
              no_options logged_in) = Ok res
       /\ length (data res) = 2%nat
       /\ totalLeads res = JNum 2.
Proof.
  split; [exact leads_answered|]. split; [reflexivity|].
  destruct (@C10_leads_response_normalised leads_runtime logged_in (Some agent)
              (filters_with None) "" first_page no_options leads_body
              leads_answered eq_refl) as (res & Hr & Hd & _ & Ht & _).
  exists res. split; [exact Hr|]. split.
  - rewrite (Hd _ eq_refl). reflexivity.
  - exact (Ht eq_refl).
Defined.

End Witnesses.

(** * Further properties of the services *)

Section AuthHeaders.
Context `{RT : Runtime}.

(** X1. [createAuthHeaders] reads the store and changes nothing. It raises
    "No authentication token available" when no token is stored, and for
    every stored token, expired or not, it returns the seven headers, with
    the token as the cookie and the base URL as origin and referer. *)
Theorem X1_auth_headers_need_only_a_token (w : World) :
  snd (createAuthHeaders w) = w
  /\ (stored_token w = None ->
        fst (createAuthHeaders w) = Throw "No authentication token available")
  /\ (forall t, stored_token w = Some t ->
        exists headers,
          fst (createAuthHeaders w) = Ok headers
          /\ map fst headers
             = ["accept"; "content-type"; "Cookie"; "referer"; "origin";
                "user-agent"; "x-requested-with"]
          /\ assoc_string "Cookie" headers = Some ("token=" +:+ t)
          /\ assoc_string "origin" headers = Some BASE_URL
          /\ assoc_string "referer" headers = Some (BASE_URL +:+ "/Leads/Marketing")).
Proof.
  rewrite createAuthHeaders_cases.
  destruct (stored_token w) as [t|].
  - split; [reflexivity|]. split; [discriminate|].
    intros t' E. injection E as <-. exists (auth_headers t).
    repeat split; reflexivity.
  - split; [reflexivity|]. split; [reflexivity|]. discriminate.
Qed.

End AuthHeaders.

Section ComposerFields.
Context `{RT : Runtime}.

(** X2. The [date] of the composed request is empty when the filters have no
    date range or both ends are null; otherwise it lists the non-null ends
    as ISO strings, the start before the end. *)
Theorem X2_date_lists_the_non_null_ends
    (user : User) (filters : FilterOptions) (searchText : string)
    (pagination : PaginationParams) (options : LeadRequestOptions) :
  let body := buildLeadsRequestBody user filters searchText pagination options in
  (filter_dateRange filters = None -> body_date body = [])
  /\ (filter_dateRange filters = Some (None, None) -> body_date body = [])
  /\ (forall a, filter_dateRange filters = Some (Some a, None) ->
        body_date body = [Date_toISOString a])
  /\ (forall b, filter_dateRange filters = Some (None, Some b) ->
        body_date body = [Date_toISOString b])
  /\ (forall a b, filter_dateRange filters = Some (Some a, Some b) ->
        body_date body = [Date_toISOString a; Date_toISOString b]).
Proof.
  unfold buildLeadsRequestBody.
  destruct (match filter_selectedAgents filters with
            | Some ((_ :: _) as selected) => _
            | _ => _
            end) as [selectedAgents requestOptions].
  cbn [body_date].
  repeat split; intros; match goal with H : filter_dateRange _ = _ |- _ => rewrite H end;
    reflexivity.
Qed.

(** X3. The caller's extra options are spread last: a flag they set is the
    flag of the body, whatever the scope resolution computed, and they never
    change the agents of the body. *)
Theorem X3_extra_options_override_the_scope
    (user : User) (filters : FilterOptions) (searchText : string)
    (pagination : PaginationParams) (options : LeadRequestOptions) :
  let body := buildLeadsRequestBody user filters searchText pagination options in
  (forall b, viewAllLeads options = Some b -> body_viewAllLeads body = Some b)
  /\ (forall b, includeNonAssigned options = Some b ->
        body_includeNonAssigned body = Some b)
  /\ body_selectedAgents body
     = body_selectedAgents
         (buildLeadsRequestBody user filters searchText pagination no_options).
Proof.
  unfold buildLeadsRequestBody.
  destruct (match filter_selectedAgents filters with
            | Some ((_ :: _) as selected) => _
            | _ => _
            end) as [selectedAgents requestOptions].
  cbn [body_viewAllLeads body_includeNonAssigned body_selectedAgents].
  repeat split; intros b ->; reflexivity.
Qed.

(** X4. The search term of the request is the trimmed [searchText] argument;
    the [searchTerm] of the filters is not read: two filter sets that differ
    in it alone compose the same body. *)
Theorem X4_filters_search_term_is_ignored
    (user : User) (filters : FilterOptions) (searchText other : string)
    (pagination : PaginationParams) (options : LeadRequestOptions) :
  body_searchTerm (buildLeadsRequestBody user filters searchText pagination options)
  = String_trim searchText
  /\ buildLeadsRequestBody user (with_searchTerm other filters) searchText pagination
                           options
     = buildLeadsRequestBody user filters searchText pagination options.
Proof.
  split; [|reflexivity].
  unfold buildLeadsRequestBody.
  destruct (match filter_selectedAgents filters with
            | Some ((_ :: _) as selected) => _
            | _ => _
            end) as [selectedAgents requestOptions].
  reflexivity.
Qed.

(** X5. Defaults of the composed request. A missing list of statuses,
    sources or tags goes out empty and a present one verbatim; an empty
    [dateFor] becomes "LeadIntroduction"; missing [searchBoxFilters] become
    ["LeadInfo"], while a present list, even an empty one, is kept; [userid]
    is always the user's id, whatever the scope. *)
Theorem X5_composer_defaults
    (user : User) (filters : FilterOptions) (searchText : string)
    (pagination : PaginationParams) (options : LeadRequestOptions) :
  let body := buildLeadsRequestBody user filters searchText pagination options in
  body_userid body = user_id user
  /\ body_selectedStatuses body = default [] (filter_selectedStatuses filters)
  /\ body_selectedSources body = default [] (filter_selectedSources filters)
  /\ body_selectedTags body = default [] (filter_selectedTags filters)
  /\ (filter_dateFor filters = "" -> body_dateFor body = "LeadIntroduction")
  /\ (filter_dateFor filters <> "" -> body_dateFor body = filter_dateFor filters)
  /\ (filter_searchBoxFilters filters = None -> body_searchBoxFilters body = ["LeadInfo"])
  /\ (forall l, filter_searchBoxFilters filters = Some l -> body_searchBoxFilters body = l).
Proof.
  unfold buildLeadsRequestBody.
  destruct (match filter_selectedAgents filters with
            | Some ((_ :: _) as selected) => _
            | _ => _
            end) as [selectedAgents requestOptions].
  cbn [body_userid body_selectedStatuses body_selectedSources body_selectedTags
       body_dateFor body_searchBoxFilters].
  repeat (split; [reflexivity|]).
  split; [now intros ->|]. split; [|split].
  - intros H. apply String.eqb_neq in H. unfold nonempty. now rewrite H.
  - now intros ->.
  - now intros l ->.
Qed.

End ComposerFields.

Section LeadsFetch.
Context `{RT : Runtime}.

Lemma fetchLeads_valid_session (w : World) (user : User) filters searchText pagination
    options (t : string) :
  nonempty (user_id user) = true ->
  fst (validateAuthToken w) = Ok true ->
  stored_token w = Some t ->
  fetchLeads (Some user) filters searchText pagination options w
  = let req := leads_request t user filters searchText pagination options in
    let out := server (requests w) req in
    (match settled out with
     | Throw msg => Throw msg
     | Ok r =>
         if ok r then
           match resp_json r with
           | None => Throw "SyntaxError: JSON Parse error"
           | Some body =>
               let! rows := get body "data" in
               let! total := get body "totalLeads" in
               Ok {| data := elements_of rows; totalLeads := js_or total (JNum 0) |}
           end
         else Throw ("Failed to fetch leads: " +:+ Number_toString (status r))
     end, set_net w (elapsed_ms out) req).
Proof.
  intros Hid Hv Ht. unfold fetchLeads. rewrite Hid. cbn [negb]. unfold bind.
  destruct (validateAuthToken_true w Hv) as [Hw _].
  destruct (validateAuthToken w) as [r w1]. cbn in Hv, Hw. subst r w1. cbn [negb].
  rewrite createAuthHeaders_cases, Ht. cbv zeta. unfold js_fetch, leads_request.
  destruct (settled (server (requests w) _)) as [r|]; [|reflexivity].
  destruct (ok r); cbn [negb]; [|reflexivity].
  unfold response_json, liftR, ret, throw.
  destruct (resp_json r) as [body|]; [|reflexivity].
  destruct (get body "data") as [rows|]; [|reflexivity].
  destruct (get body "totalLeads") as [total|]; [|reflexivity].
  cbn. destruct rows; reflexivity.
Qed.

(** X6. [fetchLeads] tests the user before anything else. Without a user,
    or with a user without an id, it raises "User not available" and
    nothing happens: no toast, no request, and a stored token, even an
    expired one, stays in the store. With a user and an invalid session it
    raises "Authentication failed" and sends nothing. *)
Theorem X6_leads_fetch_fails_before_the_network
    (w : World) (user : option User) filters searchText pagination options :
  ((user = None \/ exists u, user = Some u /\ user_id u = "") ->
     fetchLeads user filters searchText pagination options w
     = (Throw "User not available", w))
  /\ (forall u, user = Some u -> user_id u <> "" -> session_valid w = false ->
        fst (fetchLeads user filters searchText pagination options w)
        = Throw "Authentication failed"
        /\ requests (snd (fetchLeads user filters searchText pagination options w))
           = requests w).
Proof.
  split.
  - intros [-> | (u & -> & Hid)]; [reflexivity|].
    unfold fetchLeads, nonempty. now rewrite Hid.
  - intros u -> Hid Hs. apply session_invalid in Hs.
    pose proof (validateAuthToken_requests w) as Hr.
    unfold fetchLeads, nonempty. apply String.eqb_neq in Hid. rewrite Hid.
    cbn [negb]. unfold bind.
    destruct (validateAuthToken w) as [r w1]. cbn in Hs, Hr. subst r. cbn. auto.
Qed.

(** X7. With a user and a valid session [fetchLeads] sends exactly one
    request: a POST to [/api/Lead/get] under the base URL, with the
    authentication headers of the stored token and the composed body. It
    propagates a transport failure, raises "Failed to fetch leads: " followed
    by the status on an answer that is not 2xx, and raises when the body of a
    2xx answer is not JSON or is [null]. *)
Theorem X7_leads_fetch_sends_one_composed_request
    (w : World) (user : User) filters searchText pagination options (t : string) :
  user_id user <> "" ->
  session_valid w = true ->
  stored_token w = Some t ->
  let req := leads_request t user filters searchText pagination options in
  let out := server (requests w) req in
  let run := fetchLeads (Some user) filters searchText pagination options w in
  requests (snd run) = (requests w ++ [req])%list
  /\ secureStore (snd run) = secureStore w
  /\ toasts (snd run) = toasts w
  /\ (forall msg, settled out = Throw msg -> fst run = Throw msg)
  /\ (forall r, settled out = Ok r -> ok r = false ->
        fst run = Throw ("Failed to fetch leads: " +:+ Number_toString (status r)))
  /\ (forall r, settled out = Ok r -> ok r = true ->
        resp_json r = None \/ resp_json r = Some JNull ->
        exists msg, fst run = Throw msg).
Proof.
  intros Hid Hs Ht. apply String.eqb_neq in Hid.
  assert (Hv : fst (validateAuthToken w) = Ok true).
  { unfold session_valid in Hs.
    destruct (fst (validateAuthToken w)) as [[|]|]; try discriminate. reflexivity. }
  cbv zeta. rewrite (fetchLeads_valid_session w user _ _ _ _ t); unfold nonempty;
    [|now rewrite Hid|exact Hv|exact Ht].
  cbv zeta. cbn [fst snd].
  repeat (split; [reflexivity|]).
  split; [now intros msg ->|]. split.
  - intros r -> Hok. now rewrite Hok.
  - intros r -> Hok [Hj|Hj]; rewrite Hok, Hj; cbn; eauto.
Qed.

End LeadsFetch.

Section OptionRows.
Context `{RT : Runtime}.

Lemma mapi_from_nullish {A} (f : JsVal -> nat -> Result A) (rows : list JsVal) :
  (forall row j, nullish row = true -> exists msg, f row j = Throw msg) ->
  Exists (fun row => nullish row = true) rows ->
  forall i, exists msg, mapi_from i f rows = Throw msg.
Proof.
  intros Hf He. induction He as [row rest Hrow | row rest He IH]; intros i; cbn.
  - destruct (Hf row i Hrow) as [msg ->]. cbn. eauto.
  - destruct (f row i); cbn; [|eauto].
    destruct (IH (S i)) as [msg ->]. cbn. eauto.
Qed.

Lemma answered_best_effort {A} (dflt : A) url query (k : JsVal -> Result A)
    (w : World) (body : JsVal) :
  answered (best_effort dflt url query k) w body ->
  fst (best_effort dflt url query k w)
  = match k body with Ok a => Ok a | Throw _ => Ok dflt end.
Proof.
  intros (req & out & r & [Hreq ->] & Hs & Hok & Hj).
  rewrite best_effort_cases in *.
  destruct (stored_token w) as [t|].
  - cbn in Hreq. apply app_inj_tail in Hreq as [_ <-].
    cbn. cbn in Hs. now rewrite Hs, Hok, Hj.
  - cbn in Hreq. now apply not_issued in Hreq.
Qed.

Lemma rows_mapped {A} (f : JsVal -> nat -> Result A) (g : JsVal -> A)
    (rows : list JsVal) :
  (forall row j, nullish row = false -> f row j = Ok (g row)) ->
  Forall (fun row => nullish row = false) rows ->
  forall i, mapi_from i f rows = Ok (map g rows).
Proof.
  intros Hf Hall. induction Hall as [|row rest Hrow Hall IH]; intros i; [reflexivity|].
  cbn. rewrite (Hf row i Hrow). cbn. now rewrite IH.
Qed.

Lemma fetchStatusOptions_best_effort :
  fetchStatusOptions
  = best_effort [] (BASE_URL +:+ "/api/Status/get") []
      (fun body =>
         let! rows := get body "data" in
         js_map rows (fun status _ =>
           let! v := get status "_id" in
           let! l := get status "Status" in
           let! c := get status "color" in
           Ok {| value := v; label := l; color := Some c |})).
Proof. reflexivity. Qed.

Lemma fetchSourceOptions_best_effort :
  fetchSourceOptions
  = best_effort [] (BASE_URL +:+ "/api/Source/get") []
      (fun body =>
         let! rows := get body "data" in
         js_map rows (fun source _ =>
           let! v := get source "_id" in
           let! l := get source "Source" in
           Ok {| value := v; label := l; color := None |})).
Proof. reflexivity. Qed.

(** X8. The status and source fetchers map the rows of a 2xx answer in
    order: a status option takes its value from [_id], its label from
    [Status] and its colour from [color]; a source option takes [_id] and
    [Source] and has no colour. The result is all or nothing: one [null] row,
    or a [data] that is not an array, empties the whole list. *)
Theorem X8_option_rows_map_in_order_or_not_at_all (w : World) (body : JsVal) :
  (answered fetchStatusOptions w body ->
     (forall rows, field body "data" = JArr rows ->
        (Forall (fun row => nullish row = false) rows ->
           fst (fetchStatusOptions w) = Ok (map status_option rows))
        /\ (Exists (fun row => nullish row = true) rows ->
              fst (fetchStatusOptions w) = Ok []))
     /\ (isArray (field body "data") = false -> fst (fetchStatusOptions w) = Ok []))
  /\ (answered fetchSourceOptions w body ->
        (forall rows, field body "data" = JArr rows ->
           (Forall (fun row => nullish row = false) rows ->
              fst (fetchSourceOptions w) = Ok (map source_option rows))
           /\ (Exists (fun row => nullish row = true) rows ->
                 fst (fetchSourceOptions w) = Ok []))
        /\ (isArray (field body "data") = false -> fst (fetchSourceOptions w) = Ok [])).
Proof.
  split; intros Ha.
  - rewrite fetchStatusOptions_best_effort in *.
    rewrite (answered_best_effort _ _ _ _ w body Ha).
    split.
    + intros rows Hd. unfold field in Hd.
      destruct (get body "data") as [v|]; [subst v|discriminate].
      cbn [bindR js_map]. unfold mapi. split.
      * intros Hall.
        rewrite (rows_mapped _ status_option); [reflexivity| |exact Hall].
        intros row j Hn. unfold status_option.
        rewrite !(get_not_nullish row _ Hn). reflexivity.
      * intros Hex.
        destruct (mapi_from_nullish
                    (fun status (_ : nat) =>
                       let! v := get status "_id" in
                       let! l := get status "Status" in
                       let! c := get status "color" in
                       Ok {| value := v; label := l; color := Some c |})
                    rows) with (i := 0%nat) as [msg ->]; [|exact Hex|reflexivity].
        intros row j Hn. destruct row; try discriminate; cbn; eauto.
    + unfold field. destruct (get body "data") as [v|]; [|reflexivity].
      destruct v; try discriminate; reflexivity.
  - rewrite fetchSourceOptions_best_effort in *.
    rewrite (answered_best_effort _ _ _ _ w body Ha).
    split.
    + intros rows Hd. unfold field in Hd.
      destruct (get body "data") as [v|]; [subst v|discriminate].
      cbn [bindR js_map]. unfold mapi. split.
      * intros Hall.
        rewrite (rows_mapped _ source_option); [reflexivity| |exact Hall].
        intros row j Hn. unfold source_option.
        rewrite !(get_not_nullish row _ Hn). reflexivity.
      * intros Hex.
        destruct (mapi_from_nullish
                    (fun source (_ : nat) =>
                       let! v := get source "_id" in
                       let! l := get source "Source" in
                       Ok {| value := v; label := l; color := None |})
                    rows) with (i := 0%nat) as [msg ->]; [|exact Hex|reflexivity].
        intros row j Hn. destruct row; try discriminate; cbn; eauto.
    + unfold field. destruct (get body "data") as [v|]; [|reflexivity].
      destruct v; try discriminate; reflexivity.
Qed.

End OptionRows.

Section TagsAndAgents.
Context `{RT : Runtime}.

(** X9. With a token stored, [fetchTagOptions] sends exactly one GET to
    [/api/tags/get] under the base URL. Its query carries [page] and [limit]
    as the program prints them, which is their decimal numerals below
    [2^53], and [search] only when the search term is not empty. *)
Theorem X9_tag_query_omits_an_empty_search
    (w : World) (t : string) (pg lim : Z) (searchTerm : string) :
  is_double pg = true -> is_double lim = true ->
  stored_token w = Some t ->
  exists req,
    requests (snd (fetchTagOptions pg lim searchTerm w)) = (requests w ++ [req])%list
    /\ req_method req = "GET"
    /\ req_url req = BASE_URL +:+ "/api/tags/get"
    /\ req_headers req = auth_headers t
    /\ assoc_string "page" (req_query req) = Some (Number_toString pg)
    /\ assoc_string "limit" (req_query req) = Some (Number_toString lim)
    /\ (Z.abs pg < 2 ^ 53 -> assoc_string "page" (req_query req) = Some (decimal pg))
    /\ (Z.abs lim < 2 ^ 53 -> assoc_string "limit" (req_query req) = Some (decimal lim))
    /\ (searchTerm = "" -> map fst (req_query req) = ["page"; "limit"])
    /\ (searchTerm <> "" ->
          req_query req = [ ("page", Number_toString pg); ("limit", Number_toString lim);
                            ("search", searchTerm) ]).
Proof.
  intros _ _ Ht. eexists. split.
  - apply (best_effort_sends (A := TagsResponse) _ _ _ _ w t Ht).
  - cbn. do 5 (split; [reflexivity|]).
    split; [intros H; now rewrite Number_toString_exact|].
    split; [intros H; now rewrite Number_toString_exact|].
    split.
    + now intros ->.
    + intros H. apply String.eqb_neq in H. unfold nonempty. now rewrite H.
Qed.

Lemma fetchAgents_answered (w : World) (user : User) (body : JsVal) :
  nonempty (user_id user) = true ->
  answered (fetchAgents (Some user)) w body ->
  fst (fetchAgents (Some user) w)
  = match agentsOfBody user body with Ok a => Ok a | Throw _ => Ok [] end.
Proof.
  intros Hid (req & out & r & [Hreq Hout] & Hs & Hok & Hj).
  rewrite (fetchAgents_best_effort user w Hid) in *.
  apply answered_best_effort. exists req, out, r. repeat split; assumption.
Qed.

(** X10. [fetchAgents] on a 2xx answer whose rows transform into [tree]:
    a privileged user (capability view_all or view_non_assigned, or role
    superAdmin) gets the "non-assigned" node first and the tree after it;
    any other user gets the tree as it is. Without a user, or with a user
    without an id, the result is empty and nothing is read or sent. *)
Theorem X10_non_assigned_node_for_privileged_users
    (w : World) (user : User) (body : JsVal) (tree : list JsVal) :
  (user_id user <> "" ->
   answered (fetchAgents (Some user)) w body ->
   transformAgentsDataToTreeSelect (field body "data") = Ok (JArr tree) ->
   nullish body = false ->
     (privileged user -> fst (fetchAgents (Some user) w) = Ok (nonAssignedNode :: tree))
     /\ (~ privileged user -> fst (fetchAgents (Some user) w) = Ok tree))
  /\ (user_id user = "" -> fetchAgents (Some user) w = (Ok [], w))
  /\ fetchAgents None w = (Ok [], w).
Proof.
  split; [|split].
  - intros Hid Ha Htree Hn. apply String.eqb_neq in Hid.
    rewrite (fetchAgents_answered w user body); [|unfold nonempty; now rewrite Hid|exact Ha].
    unfold agentsOfBody. rewrite (get_not_nullish body _ Hn). cbn [bindR].
    rewrite Htree. cbn [bindR elements_of].
    pose proof (privileged_test user) as Hp. unfold privileged in *.
    rewrite !orb_true_iff in Hp.
    destruct (lead_includes user "view_all" || lead_includes user "view_non_assigned"
              || String.eqb (user_role user) "superAdmin") eqn:E.
    + split; [reflexivity|]. intros Hnp. exfalso. apply Hnp.
      rewrite !orb_true_iff in E. tauto.
    + split; [|reflexivity]. intros Hpriv. exfalso.
      apply Hp in Hpriv. rewrite !orb_false_iff in E.
      destruct E as [[E1 E2] E3]. rewrite E1, E2, E3 in Hpriv.
      destruct Hpriv as [[H|H]|H]; discriminate.
  - intros Hid. unfold fetchAgents, nonempty. now rewrite Hid.
  - reflexivity.
Qed.

(** X11. [transformAgentsDataToTreeSelect] on any value: what is not an
    array ([null], [undefined], an object, a string, a number) gives the
    empty list; an array gives, when no exception is raised, an array of as
    many nodes; a [null] or [undefined] row raises. *)
Theorem X11_transform_on_any_value (data : JsVal) :
  (isArray data = false -> transformAgentsDataToTreeSelect data = Ok (JArr []))
  /\ (forall rows result,
        data = JArr rows -> transformAgentsDataToTreeSelect data = Ok result ->
        exists nodes, result = JArr nodes /\ length nodes = length rows)
  /\ (forall rows,
        data = JArr rows -> Exists (fun row => nullish row = true) rows ->
        exists msg, transformAgentsDataToTreeSelect data = Throw msg).
Proof.
  unfold transformAgentsDataToTreeSelect.
  remember (depth data) as n eqn:En. clear En.
  cbn [transformAgentsDataToTreeSelect_at].
  split; [|split].
  - intros H. rewrite H. cbn [negb]. now rewrite orb_true_r.
  - intros rows result -> E. cbn [truthy isArray negb orb js_map] in E.
    unfold mapi in E.
    destruct (mapi_from 0 _ rows) as [nodes|] eqn:Em; [|discriminate].
    injection E as <-. exists nodes. split; [reflexivity|].
    now apply mapi_from_length in Em.
  - intros rows -> Hex. cbn [truthy isArray negb orb js_map]. unfold mapi.
    match goal with
    | |- context [mapi_from 0 ?f rows] =>
        destruct (mapi_from_nullish f rows) with (i := 0%nat) as [msg ->];
        [|exact Hex|cbn; eauto]
    end.
    intros row j Hn. destruct row; try discriminate; cbn; eauto.
Qed.

End TagsAndAgents.

Section Campaigns.
Context `{RT : Runtime}.

Lemma fetchCampaignLeads_cases (campaignFilters : CampaignFilters) (w : World) :
  fetchCampaignLeads campaignFilters w
  = if nonempty (campaignName campaignFilters) then
      match stored_token w with
      | None => (Throw "No authentication token available", w)
      | Some t =>
          let req := campaign_leads_request t campaignFilters in
          let out := server (requests w) req in
          (match settled out with
           | Throw msg => Throw msg
           | Ok r =>
               if ok r then
                 match resp_json r with
                 | None => Throw "SyntaxError: JSON Parse error"
                 | Some body =>
                     let! message := get body "message" in
                     let! rows := get body "data" in
                     let! total := get body "totalLeads" in
                     Ok {| cl_message := message;
                           cl_data := elements_of rows;
                           cl_totalLeads := js_or total (JNum 0) |}
                 end
               else Throw ("Failed to fetch campaign leads: HTTP "
                           +:+ Number_toString (status r) +:+ " - " +:+ resp_text r)
           end, set_net w (elapsed_ms out) req)
      end
    else (Throw "Campaign name is required", w).
Proof.
  unfold fetchCampaignLeads, auth_createAuthHeaders.
  destruct (nonempty (campaignName campaignFilters)); [|reflexivity].
  cbn [negb]. unfold bind. rewrite createAuthHeaders_cases.
  destruct (stored_token w) as [t|]; [|reflexivity].
  cbv zeta. unfold js_fetch, campaign_leads_request.
  destruct (settled (server (requests w) _)) as [r|]; [|reflexivity].
  destruct (ok r); cbn [negb]; [|reflexivity].
  unfold response_json, liftR, ret, throw.
  destruct (resp_json r) as [body|]; [|reflexivity].
  destruct (get body "message") as [message|]; [|reflexivity].
  destruct (get body "data") as [rows|]; [|reflexivity].
  destruct (get body "totalLeads") as [total|]; [|reflexivity].
  cbn. destruct rows; reflexivity.
Qed.

(** X12. [fetchCampaignLeads] requires a campaign name: with an empty name
    it raises "Campaign name is required" and nothing happens. With a name
    and a stored token it sends exactly one POST to [/api/Lead/campaign]
    whose body carries the name, the page and the limit; a missing page, and
    the page 0, become 1, a missing limit, and the limit 0, become 50, and
    every other value goes out as given. *)
Theorem X12_campaign_leads_request_and_defaults
    (campaignFilters : CampaignFilters) (w : World) :
  (campaignName campaignFilters = "" ->
     fetchCampaignLeads campaignFilters w = (Throw "Campaign name is required", w))
  /\ (forall t,
        campaignName campaignFilters <> "" -> stored_token w = Some t ->
        exists pg lim,
          requests (snd (fetchCampaignLeads campaignFilters w))
          = (requests w
             ++ [ {| req_method := "POST";
                     req_url := BASE_URL +:+ "/api/Lead/campaign";
                     req_query := [];
                     req_headers := auth_headers t;
                     req_body := CampaignBody (campaignName campaignFilters) pg lim |} ])%list
          /\ (campaign_page campaignFilters = None \/ campaign_page campaignFilters = Some 0
              -> pg = 1)
          /\ (forall p, campaign_page campaignFilters = Some p -> p <> 0 -> pg = p)
          /\ (campaign_limit campaignFilters = None
              \/ campaign_limit campaignFilters = Some 0 -> lim = 50)
          /\ (forall l, campaign_limit campaignFilters = Some l -> l <> 0 -> lim = l)).
Proof.
  rewrite fetchCampaignLeads_cases. unfold nonempty. split.
  - now intros ->.
  - intros t Hn Ht. apply String.eqb_neq in Hn. rewrite Hn, Ht. cbn [negb].
    exists (num_or (campaign_page campaignFilters) 1),
           (num_or (campaign_limit campaignFilters) 50).
    split; [reflexivity|]. unfold num_or.
    split; [intros [->| ->]; reflexivity|].
    split; [intros p -> Hp; apply Z.eqb_neq in Hp; now rewrite Hp|].
    split; [intros [->| ->]; reflexivity|].
    intros l -> Hl. apply Z.eqb_neq in Hl. now rewrite Hl.
Qed.

(** X13. The outcomes of [fetchCampaignLeads] once its request is out. An
    answer that is not 2xx raises "Failed to fetch campaign leads: HTTP ",
    the status, " - " and the text of the answer, for 401 and 303 as for any
    other status. A 2xx answer with a JSON body other than [null] returns the
    body's [message], its [data] when that is an array and the empty list
    otherwise, and its [totalLeads] when that is truthy and 0 otherwise. *)
Theorem X13_campaign_leads_outcomes
    (campaignFilters : CampaignFilters) (w : World) (t : string) :
  campaignName campaignFilters <> "" ->
  stored_token w = Some t ->
  let out := server (requests w) (campaign_leads_request t campaignFilters) in
  let run := fetchCampaignLeads campaignFilters w in
  (forall r, settled out = Ok r -> ok r = false ->
     fst run = Throw ("Failed to fetch campaign leads: HTTP "
                      +:+ Number_toString (status r) +:+ " - " +:+ resp_text r))
  /\ (forall msg, settled out = Throw msg -> fst run = Throw msg)
  /\ (forall r body, settled out = Ok r -> ok r = true -> resp_json r = Some body ->
        nullish body = false ->
        fst run = Ok {| cl_message := field body "message";
                        cl_data := elements_of (field body "data");
                        cl_totalLeads := js_or (field body "totalLeads") (JNum 0) |}).
Proof.
  intros Hn Ht. apply String.eqb_neq in Hn. cbv zeta.
  rewrite fetchCampaignLeads_cases. unfold nonempty. rewrite Hn, Ht. cbn [negb fst].
  split; [|split].
  - intros r -> Hok. now rewrite Hok.
  - now intros msg ->.
  - intros r body -> Hok Hj Hnull. rewrite Hok, Hj.
    now rewrite !(get_not_nullish body _ Hnull).
Qed.

Lemma fetchCampaignsWithCounts_cases (pg lim : Z) (w : World) (t : string) :
  fst (validateAuthToken w) = Ok true ->
  stored_token w = Some t ->
  fetchCampaignsWithCounts pg lim w
  = let req := campaigns_request t pg lim in
    let out := server (requests w) req in
    if elapsed_ms out <=? 30000 then
      (match settled out with
       | Throw msg => Throw msg
       | Ok r =>
           if ok r then
             match resp_json r with
             | None => Throw "SyntaxError: JSON Parse error"
             | Some result =>
                 let! rows := get result "data" in
                 let! _ := sampleData rows in
                 let! pagination := get result "pagination" in
                 Ok {| cc_data := js_or rows (JArr []); cc_pagination := pagination |}
             end
           else Throw ("Failed to fetch campaigns: HTTP "
                       +:+ Number_toString (status r) +:+ " - " +:+ resp_text r)
       end, set_net w (elapsed_ms out) req)
    else (Throw "Request timeout after 30s", set_net w 30000 req).
Proof.
  intros Hv Ht. unfold fetchCampaignsWithCounts, auth_createAuthHeaders, auth_validateAuthToken, bind.
  destruct (validateAuthToken_true w Hv) as [Hw _].
  destruct (validateAuthToken w) as [b w1]. cbn in Hv, Hw. subst b w1.
  rewrite createAuthHeaders_cases, Ht. cbv zeta.
  unfold try_catch, bind, js_fetch_race, campaigns_request.
  destruct (elapsed_ms (server (requests w) _) <=? 30000); [|reflexivity].
  destruct (settled (server (requests w) _)) as [r|]; [|reflexivity].
  destruct (ok r); cbn [negb]; [|reflexivity].
  unfold response_json, liftR, ret, throw.
  destruct (resp_json r) as [result|]; [|reflexivity].
  destruct (get result "data") as [rows|]; [|reflexivity]. cbn [bindR].
  destruct (sampleData rows); [|reflexivity]. cbn [bindR].
  destruct (get result "pagination"); reflexivity.
Qed.

(** X14. [fetchCampaignsWithCounts] with a valid session sends one GET to
    [/api/campaigns/with-counts], sorted by lead count in descending order,
    with the page and the limit as the program prints them: their decimal
    numerals below [2^53]. It gives up after 30 seconds: when the answer
    takes more than 30000 ms it raises "Request timeout after 30s", with the
    request out all the same and the clock 30000 ms further. An answer that
    is there within 30000 ms is taken: a transport failure is raised again as
    it is, and an answer that is not 2xx raises with its status and text. *)
Theorem X14_campaign_list_times_out_after_30s (pg lim : Z) (w : World) (t : string) :
  is_double pg = true -> is_double lim = true ->
  session_valid w = true ->
  stored_token w = Some t ->
  let req := campaigns_request t pg lim in
  let out := server (requests w) req in
  let run := fetchCampaignsWithCounts pg lim w in
  requests (snd run) = (requests w ++ [req])%list
  /\ req_query req = [ ("page", Number_toString pg); ("limit", Number_toString lim);
                       ("sortBy", "leadCount"); ("sortOrder", "desc") ]
  /\ (Z.abs pg < 2 ^ 53 -> Z.abs lim < 2 ^ 53 ->
        req_query req = [ ("page", decimal pg); ("limit", decimal lim);
                          ("sortBy", "leadCount"); ("sortOrder", "desc") ])
  /\ (30000 < elapsed_ms out ->
        fst run = Throw "Request timeout after 30s"
        /\ now_ms (snd run) = now_ms w + 30000)
  /\ (elapsed_ms out <= 30000 ->
        now_ms (snd run) = now_ms w + elapsed_ms out
        /\ (forall msg, settled out = Throw msg -> fst run = Throw msg)
        /\ (forall r, settled out = Ok r -> ok r = false ->
              fst run = Throw ("Failed to fetch campaigns: HTTP "
                               +:+ Number_toString (status r) +:+ " - "
                               +:+ resp_text r))).
Proof.
  intros _ _ Hs Ht.
  assert (Hv : fst (validateAuthToken w) = Ok true).
  { unfold session_valid in Hs.
    destruct (fst (validateAuthToken w)) as [[|]|]; try discriminate. reflexivity. }
  cbv zeta. rewrite (fetchCampaignsWithCounts_cases pg lim w t Hv Ht). cbv zeta.
  set (req := campaigns_request t pg lim).
  assert (Hq : Z.abs pg < 2 ^ 53 -> Z.abs lim < 2 ^ 53 ->
               req_query req = [ ("page", decimal pg); ("limit", decimal lim);
                                 ("sortBy", "leadCount"); ("sortOrder", "desc") ]).
  { intros Hp Hl. subst req. unfold campaigns_request, GET. cbn [req_query].
    now rewrite !Number_toString_exact by assumption. }
  destruct (Z.leb_spec (elapsed_ms (server (requests w) req)) 30000) as [Hle|Hgt].
  - split; [reflexivity|]. split; [reflexivity|]. split; [exact Hq|]. split; [lia|].
    intros _. split; [reflexivity|]. cbn [fst]. split.
    + now intros msg ->.
    + intros r -> Hok. now rewrite Hok.
  - split; [reflexivity|]. split; [reflexivity|]. split; [exact Hq|]. split; [|lia].
    intros _. split; reflexivity.
Qed.

(** X15. When [fetchCampaignsWithCounts] returns, its [data] is a list: the
    [data] array of the response, or the empty list when the response has
    no [data] or a [null] one; its [pagination] is the response's, as it is.
    A [data] of any other kind makes the call raise. *)
Theorem X15_campaign_list_data_is_a_list
    (pg lim : Z) (w : World) (res : CampaignsWithCountsResponse) :
  fst (fetchCampaignsWithCounts pg lim w) = Ok res ->
  exists body rows,
    answered (fetchCampaignsWithCounts pg lim) w body
    /\ cc_data res = JArr rows
    /\ cc_pagination res = field body "pagination"
    /\ (field body "data" = JArr rows
        \/ (rows = [] /\ nullish (field body "data") = true)).
Proof.
  intros E.
  pose proof (validateAuthToken_true w) as Hvt.
  pose proof (validateAuthToken_false_no_token w) as Hvf.
  destruct (fst (validateAuthToken w)) as [[|]|] eqn:Hv.
  - destruct (Hvt eq_refl) as [_ [t Ht]].
    pose proof (fetchCampaignsWithCounts_cases pg lim w t Hv Ht) as Hc.
    cbv zeta in Hc.
    set (req := campaigns_request t pg lim) in *.
    destruct (elapsed_ms (server (requests w) req) <=? 30000);
      [|rewrite Hc in E; discriminate].
    assert (Hreq : requests (snd (fetchCampaignsWithCounts pg lim w))
                   = (requests w ++ [req])%list) by now rewrite Hc.
    rewrite Hc in E. clear Hc. cbn [fst] in E.
    destruct (settled (server (requests w) req)) as [r|] eqn:Hs; [|discriminate].
    destruct (ok r) eqn:Hok; [|discriminate].
    destruct (resp_json r) as [body|] eqn:Hj; [|discriminate].
    destruct (get body "data") as [rowsv|] eqn:Hd; [|discriminate]. cbn [bindR] in E.
    destruct (sampleData rowsv) eqn:Hsd; [|discriminate]. cbn [bindR] in E.
    destruct (get body "pagination") as [pagination|] eqn:Hp; [|discriminate].
    injection E as <-. cbn [cc_data cc_pagination].
    apply get_field in Hd, Hp. subst rowsv pagination.
    assert (Ha : answered (fetchCampaignsWithCounts pg lim) w body).
    { exists req, (server (requests w) req), r. repeat split; assumption. }
    destruct (field body "data") as [ | | | | |rows| ] eqn:Hf; try discriminate.
    + exists body, []. rewrite Hf. repeat (split; [assumption || reflexivity|]).
      right. split; reflexivity.
    + exists body, []. rewrite Hf. repeat (split; [assumption || reflexivity|]).
      right. split; reflexivity.
    + exists body, rows. rewrite Hf. repeat (split; [assumption || reflexivity|]).
      left. reflexivity.
  - exfalso. specialize (Hvf eq_refl).
    unfold fetchCampaignsWithCounts, auth_createAuthHeaders, auth_validateAuthToken, bind in E.
    destruct (validateAuthToken w) as [b w1]. cbn in Hv, Hvf. subst b.
    rewrite createAuthHeaders_cases, Hvf in E. discriminate.
  - exfalso. destruct (validateAuthToken_never_throws w) as [b Hb]. congruence.
Qed.

Lemma diagnoseStagingIssues_cases (w : World) :
  diagnoseStagingIssues w
  = let w1 := set_net w (elapsed_ms (server (requests w) healthcheck_request))
                      healthcheck_request in
    match stored_token w with
    | None => (Ok tt, w1)
    | Some t =>
        (Ok tt, set_net w1 (elapsed_ms (server (requests w1) (probe_request t)))
                        (probe_request t))
    end.
Proof.
  unfold diagnoseStagingIssues, auth_createAuthHeaders, bind, try_catch, SecureStore_getItemAsync, js_fetch,
    healthcheck_request, probe_request, stored_token, ret.
  cbv zeta.
  set (hc := GET (BASE_URL +:+ "/api/healthcheck") [] []).
  destruct (settled (server (requests w) hc)) as [r|];
    (destruct (present (secureStore w !! "userToken")) as [t|] eqn:Ht;
     [|reflexivity]);
    rewrite createAuthHeaders_cases; unfold stored_token; cbn [secureStore set_net];
    rewrite Ht;
    match goal with
    | |- context [settled ?o] => destruct (settled o); reflexivity
    end.
Qed.

(** X16. [diagnoseStagingIssues] never raises and leaves the store and the
    toasts as they are. It always sends the connectivity test first, a GET to
    [/api/healthcheck] without any header, and then, exactly when a token is
    stored, one authenticated GET with that token, whether the first request
    succeeded or not and whether the token is expired or not. *)
Theorem X16_diagnostic_requests (w : World) :
  fst (diagnoseStagingIssues w) = Ok tt
  /\ secureStore (snd (diagnoseStagingIssues w)) = secureStore w
  /\ toasts (snd (diagnoseStagingIssues w)) = toasts w
  /\ req_headers healthcheck_request = []
  /\ (stored_token w = None ->
        requests (snd (diagnoseStagingIssues w))
        = (requests w ++ [healthcheck_request])%list)
  /\ (forall t, stored_token w = Some t ->
        requests (snd (diagnoseStagingIssues w))
        = (requests w ++ [healthcheck_request; probe_request t])%list
        /\ assoc_string "Cookie" (req_headers (probe_request t))
           = Some ("token=" +:+ t)).
Proof.
  rewrite diagnoseStagingIssues_cases. cbv zeta.
  destruct (stored_token w) as [t|].
  - do 4 (split; [reflexivity|]). split; [discriminate|].
    intros t' E. injection E as <-. split; [|reflexivity].
    cbn. now rewrite <- app_assoc.
  - do 5 (split; [reflexivity|]). discriminate.
Qed.

End Campaigns.

(** ** Decimal numerals laid end to end *)

Section Numerals.

Local Open Scope N_scope.

Lemma string_of_uint_chars (d : Decimal.uint) :
  list_ascii_of_string (NilEmpty.string_of_uint d)
  = map digit_char (DecimalFacts.to_list d).
Proof. induction d; cbn; congruence. Qed.

Lemma Number_toString_numeral (n : N) :
  (Z.of_N n < 2 ^ 53)%Z ->
  list_ascii_of_string (Number_toString (Z.of_N n)) = map digit_char (numeral n).
Proof.
  intros Hn. rewrite Number_toString_exact by lia.
  unfold decimal, numeral. rewrite <- string_of_uint_chars.
  destruct n as [|p]; [reflexivity|]. cbn.
  unfold NilZero.string_of_uint.
  pose proof (DecimalPos.Unsigned.to_uint_nonnil p) as Hp.
  destruct (Pos.to_uint p); [contradiction|reflexivity..].
Qed.

Lemma digit_char_inj (a b : DecimalFacts.digits) : digit_char a = digit_char b -> a = b.
Proof. destruct a, b; cbn; intros E; try reflexivity; discriminate E. Qed.

Lemma map_digit_char_inj (l l' : list DecimalFacts.digits) :
  map digit_char l = map digit_char l' -> l = l'.
Proof.
  revert l'. induction l as [|a l IH]; intros [|b l'] E; try discriminate; [reflexivity|].
  cbn in E. injection E as Ea El. f_equal; [now apply digit_char_inj|now apply IH].
Qed.

Lemma digit_char_not_colon (l : list DecimalFacts.digits) :
  ~ In ":"%char (map digit_char l).
Proof.
  induction l as [|d l IH]; [intros []|].
  intros [E|H]; [destruct d; discriminate E|contradiction].
Qed.

Lemma list_ascii_of_string_app (s1 s2 : string) :
  list_ascii_of_string (s1 +:+ s2)
  = (list_ascii_of_string s1 ++ list_ascii_of_string s2)%list.
Proof.
  induction s1 as [|c s1 IH]; [reflexivity|].
  change (String c s1 +:+ s2) with (String c (s1 +:+ s2)).
  change (list_ascii_of_string (String c (s1 +:+ s2)))
    with (c :: list_ascii_of_string (s1 +:+ s2)).
  now rewrite IH.
Qed.

Lemma numeral_nonnil (n : N) : numeral n <> [].
Proof.
  unfold numeral. destruct n as [|p]; [discriminate|]. cbn.
  pose proof (DecimalPos.Unsigned.to_uint_nonnil p) as Hp.
  destruct (Pos.to_uint p); [contradiction|discriminate..].
Qed.

Lemma numeral_inj (m n : N) : numeral m = numeral n -> m = n.
Proof.
  intros E. apply DecimalFacts.to_list_inj in E.
  now apply DecimalN.Unsigned.to_uint_inj.
Qed.

Lemma numeral_value (n : N) : N.of_uint (DecimalFacts.of_list (numeral n)) = n.
Proof.
  unfold numeral. rewrite DecimalFacts.of_list_to_list.
  apply DecimalN.Unsigned.of_to.
Qed.

(** The value of two numerals laid end to end. *)
Lemma of_uint_app (d d' : Decimal.uint) :
  N.of_uint (Decimal.app d d')
  = N.of_uint d * 10 ^ DecimalPos.Unsigned.usize d' + N.of_uint d'.
Proof.
  unfold N.of_uint. rewrite !DecimalPos.Unsigned.of_uint_alt.
  assert (E : Decimal.rev (Decimal.app d d') = Decimal.revapp d' (Decimal.rev d)).
  { apply DecimalFacts.to_list_inj.
    rewrite DecimalFacts.rev_spec, DecimalFacts.app_spec, DecimalFacts.revapp_spec,
      DecimalFacts.rev_spec.
    rewrite rev_append_rev. apply rev_app_distr. }
  rewrite E, DecimalPos.Unsigned.of_lu_revapp. lia.
Qed.

Lemma of_list_app (l l' : list DecimalFacts.digits) :
  DecimalFacts.of_list (l ++ l')
  = Decimal.app (DecimalFacts.of_list l) (DecimalFacts.of_list l').
Proof.
  apply DecimalFacts.to_list_inj.
  now rewrite DecimalFacts.app_spec, !DecimalFacts.to_list_of_list.
Qed.

(** A numeral does not start with a zero that other digits follow. *)
Lemma numeral_head_not_zero (n : N) (l l' : list DecimalFacts.digits) :
  numeral n = (l ++ l')%list -> l <> [] -> l' <> [] ->
  N.of_uint (DecimalFacts.of_list l) <> 0.
Proof.
  intros E Hl Hl' Hz. unfold numeral in E.
  assert (Hn : Decimal.unorm (N.to_uint n) = N.to_uint n).
  { rewrite <- (DecimalN.Unsigned.of_to n) at 1.
    rewrite DecimalN.Unsigned.to_of.
    rewrite <- (DecimalN.Unsigned.of_to n) at 2.
    rewrite DecimalN.Unsigned.to_of. apply DecimalFacts.unorm_involutive. }
  assert (Hzero : Decimal.nzhead (DecimalFacts.of_list l) = Decimal.Nil).
  { apply DecimalFacts.unorm_0.
    apply (DecimalN.Unsigned.of_iff (DecimalFacts.of_list l) Decimal.zero).
    rewrite Hz. reflexivity. }
  destruct l as [|d l]; [contradiction|].
  destruct d; cbn in Hzero; try discriminate.
  (* the numeral starts with 0 and goes on *)
  apply (f_equal DecimalFacts.of_list) in E.
  rewrite DecimalFacts.of_list_to_list in E. cbn in E.
  rewrite E in Hn. rewrite DecimalFacts.unorm_D0 in Hn.
  pose proof (DecimalFacts.nb_digits_unorm (DecimalFacts.of_list (l ++ l'))) as Hlen.
  rewrite Hn in Hlen. cbn in Hlen.
  assert (Hne : DecimalFacts.of_list (l ++ l') <> Decimal.Nil).
  { intros Hnil. apply (f_equal DecimalFacts.to_list) in Hnil.
    rewrite DecimalFacts.to_list_of_list in Hnil. cbn in Hnil.
    apply app_eq_nil in Hnil as [_ Hnil]. contradiction. }
  specialize (Hlen Hne). lia.
Qed.

(** Two numerals laid end to end determine both numbers, when the first is a
    multiple of [L] and the second is below [L]. *)
Lemma numerals_split_one_way (L a a' i j : N) (l : list DecimalFacts.digits) :
  (L | a) -> (L | a') -> i < L ->
  numeral a' = (numeral a ++ l)%list ->
  numeral i = (l ++ numeral j)%list ->
  a = a' /\ i = j.
Proof.
  intros Ha Ha' Hi EA EI.
  destruct l as [|d l0] eqn:El.
  - rewrite app_nil_r in EA. cbn in EI.
    split; [symmetry|]; now apply numeral_inj.
  - exfalso. rewrite <- El in *. assert (Hl : l <> []) by (subst l; discriminate).
    clear El.
    pose proof (numeral_head_not_zero i l (numeral j) EI Hl (numeral_nonnil j)) as HX.
    set (X := N.of_uint (DecimalFacts.of_list l)) in *.
    (* the values *)
    assert (Va : a' = a * 10 ^ DecimalPos.Unsigned.usize (DecimalFacts.of_list l) + X).
    { apply (f_equal (fun k => N.of_uint (DecimalFacts.of_list k))) in EA.
      now rewrite numeral_value, of_list_app, of_uint_app, numeral_value in EA. }
    assert (Vi : i = X * 10 ^ DecimalPos.Unsigned.usize (DecimalFacts.of_list (numeral j))
                     + j).
    { apply (f_equal (fun k => N.of_uint (DecimalFacts.of_list k))) in EI.
      now rewrite numeral_value, of_list_app, of_uint_app, numeral_value in EI. }
    assert (HXi : X <= i).
    { assert (1 <= 10 ^ DecimalPos.Unsigned.usize (DecimalFacts.of_list (numeral j))).
      { pose proof (N.pow_nonzero 10
                      (DecimalPos.Unsigned.usize (DecimalFacts.of_list (numeral j)))).
        lia. }
      nia. }
    assert (HLX : (L | X)).
    { apply (N.divide_add_cancel_r L
               (a * 10 ^ DecimalPos.Unsigned.usize (DecimalFacts.of_list l)) X).
      - now apply N.divide_mul_l.
      - now rewrite <- Va. }
    apply N.divide_pos_le in HLX; lia.
Qed.

Lemma numerals_determine (L a a' i j : N) :
  (L | a) -> (L | a') -> i < L -> j < L ->
  (numeral a ++ numeral i = numeral a' ++ numeral j)%list ->
  a = a' /\ i = j.
Proof.
  intros Ha Ha' Hi Hj E.
  apply app_eq_app in E as [l [[EA EJ] | [EA EI]]].
  - destruct (numerals_split_one_way L a' a j i l Ha' Ha Hj EA EJ). auto.
  - exact (numerals_split_one_way L a a' i j l Ha Ha' Hi EA EI).
Qed.

(** A label, the separator and digits: the digits and the label can be read
    back. *)
Lemma separator_splits (p q d d' : list ascii) :
  ~ In ":"%char d -> ~ In ":"%char d' ->
  (p ++ ":" :: ":" :: d = q ++ ":" :: ":" :: d')%list%char ->
  p = q /\ d = d'.
Proof.
  assert (one_way : forall (p q d d' k : list ascii),
             ~ In ":"%char d' ->
             (p ++ [":"; ":"] = (q ++ [":"; ":"]) ++ k)%list%char ->
             d' = (k ++ d)%list -> p = q /\ d = d').
  { intros p0 q0 d0 d0' k Hd' Eu Ed.
    destruct k as [|x k0 _] using rev_ind.
    - rewrite app_nil_r in Eu. apply app_inv_tail in Eu. cbn in Ed. auto.
    - exfalso. rewrite !app_assoc in Eu.
      change (p0 ++ [":"; ":"])%list%char with (p0 ++ [":"] ++ [":"])%list%char in Eu.
      rewrite !app_assoc in Eu. apply app_inj_tail in Eu as [_ <-].
      apply Hd'. rewrite Ed. apply in_or_app. left. apply in_or_app. right. now left. }
  intros Hd Hd' E.
  change (p ++ ":" :: ":" :: d)%list%char with (p ++ [":"; ":"] ++ d)%list%char in E.
  change (q ++ ":" :: ":" :: d')%list%char with (q ++ [":"; ":"] ++ d')%list%char in E.
  rewrite !app_assoc in E.
  apply app_eq_app in E as [k [[Eu Ed] | [Eu Ed]]].
  - exact (one_way p q d d' k Hd' Eu Ed).
  - destruct (one_way q p d' d k Hd Eu Ed). auto.
Qed.

End Numerals.

Section TagValues.

Lemma tag_value_chars (prefix : string) (pg lim : Z) (i : nat) :
  1 <= pg -> pg * lim <= 2 ^ 53 -> Z.of_nat i < lim ->
  exists s,
    tag_value prefix pg lim i = JStr s
    /\ list_ascii_of_string s
       = (list_ascii_of_string prefix
          ++ ":" :: ":" :: map digit_char (numeral (Z.to_N ((pg - 1) * lim))
                                           ++ numeral (N.of_nat i)))%list%char.
Proof.
  intros Hpg Hsafe Hi.
  assert (Hlim : 1 <= lim) by lia.
  assert (Hp : pg <= 2 ^ 53) by nia.
  assert (Hoff : 0 <= (pg - 1) * lim < 2 ^ 53) by nia.
  unfold tag_value, js_sub, js_neg, js_add, js_mul.
  replace (pg + - (1)) with (pg - 1) by lia.
  rewrite (to_Num_exact (pg - 1)) by lia.
  rewrite (to_Num_exact ((pg - 1) * lim)) by lia.
  cbn [Num_toString].
  eexists. split; [reflexivity|].
  rewrite !list_ascii_of_string_app.
  rewrite <- (Z2N.id ((pg - 1) * lim)) at 1 by lia.
  rewrite <- nat_N_Z.
  rewrite !Number_toString_numeral, map_app by (rewrite ?Z2N.id, ?nat_N_Z; lia).
  reflexivity.
Qed.

(** X17. The values the tag fetch builds are pairwise different across the
    pages of one page size, as the comment in the source intends, as long as
    no page carries more rows than the page size and the offsets stay within
    the integers that the numbers of the program hold exactly (pages from 1,
    page times page size at most [2^53]): two rows with the same value are
    the same row of the same page (and their labels print alike). The offset
    and the index are laid end to end as two numerals, not added, and the
    pair can still be read back because the offset is a multiple of the page
    size and the index is below it. *)
Theorem X17_tag_values_differ_across_pages
    (pg pg' lim : Z) (body body' : JsVal) (res res' : TagsResponse)
    (i j : nat) (o o' : FilterOption) :
  1 <= pg -> 1 <= pg' ->
  pg * lim <= 2 ^ 53 -> pg' * lim <= 2 ^ 53 ->
  tagsOfBody pg lim body = Ok res ->
  tagsOfBody pg' lim body' = Ok res' ->
  Z.of_nat (length (options res)) <= lim ->
  Z.of_nat (length (options res')) <= lim ->
  options res !! i = Some o ->
  options res' !! j = Some o' ->
  value o = value o' ->
  pg = pg' /\ i = j.
Proof.
  intros Hpg Hpg' Hsafe Hsafe' E E' Hlen Hlen' Hi Hj Hv.
  pose proof (lookup_lt_Some _ _ _ Hi) as Hilt.
  pose proof (lookup_lt_Some _ _ _ Hj) as Hjlt.
  destruct (tagsOfBody_spec _ _ _ _ E) as (rows & _ & Hl & _ & _ & Hrows).
  destruct (tagsOfBody_spec _ _ _ _ E') as (rows' & _ & Hl' & _ & _ & Hrows').
  destruct (lookup_lt_is_Some_2 rows i) as [row Hrow]; [lia|].
  destruct (lookup_lt_is_Some_2 rows' j) as [row' Hrow']; [lia|].
  destruct (Hrows i row Hrow) as (lab & prefix & _ & _ & Ho).
  destruct (Hrows' j row' Hrow') as (lab' & prefix' & _ & _ & Ho').
  rewrite Hi in Ho. rewrite Hj in Ho'.
  injection Ho as ->. injection Ho' as ->. cbn [value] in Hv.
  assert (Hlim : 1 <= lim) by lia.
  assert (Hoff : 0 <= (pg - 1) * lim) by nia.
  assert (Hoff' : 0 <= (pg' - 1) * lim) by nia.
  destruct (tag_value_chars prefix pg lim i Hpg Hsafe ltac:(lia)) as (s & Es & Cs).
  destruct (tag_value_chars prefix' pg' lim j Hpg' Hsafe' ltac:(lia)) as (s' & Es' & Cs').
  rewrite Es, Es' in Hv. injection Hv as Hs. rewrite Hs in Cs. rewrite Cs in Cs'.
  apply separator_splits in Cs' as [_ Hd]; try apply digit_char_not_colon.
  apply map_digit_char_inj in Hd.
  assert (Hda : (Z.to_N lim | Z.to_N ((pg - 1) * lim))%N).
  { exists (Z.to_N (pg - 1)). apply Z2N.inj_mul; lia. }
  assert (Hda' : (Z.to_N lim | Z.to_N ((pg' - 1) * lim))%N).
  { exists (Z.to_N (pg' - 1)). apply Z2N.inj_mul; lia. }
  assert (Hbi : (N.of_nat i < Z.to_N lim)%N) by lia.
  assert (Hbj : (N.of_nat j < Z.to_N lim)%N) by lia.
  destruct (numerals_determine _ _ _ _ _ Hda Hda' Hbi Hbj Hd) as [Ha Hij].
  split; [|lia].
  apply Z2N.inj in Ha; [|lia..]. nia.
Qed.

(** The two bounds are needed: a page of more rows than the page size can
    repeat a value of a later page, and beyond [2^53] two pages can share one
    offset. *)
Remark tag_values_of_an_overlong_page :
  tag_value "A" 2 10 100 = tag_value "A" 102 10 0.
Proof. vm_compute. reflexivity. Qed.

Remark tag_values_beyond_double_precision :
  is_double 9007199254740990 = true
  /\ is_double 9007199254740991 = true
  /\ tag_value "A" 9007199254740990 3 0 = tag_value "A" 9007199254740991 3 0.
Proof. repeat split; vm_compute; reflexivity. Qed.

End TagValues.

(** ** The meeting form *)

Section StringMethods.

Lemma prefix_append (s t : string) : String.prefix s (s +:+ t) = true.
Proof.
  induction s as [|c s IH]; [now destruct t|].
  change (String c s +:+ t) with (String c (s +:+ t)).
  cbn [String.prefix]. destruct (ascii_dec c c) as [_|n]; [exact IH|contradiction].
Qed.

Lemma includes_from_append (search x y : string) :
  includes_from search (x +:+ search +:+ y) = true.
Proof.
  induction x as [|c x IH].
  - change ("" +:+ search +:+ y) with (search +:+ y).
    destruct (search +:+ y) eqn:E; cbn [includes_from]; rewrite <- E;
      now rewrite prefix_append.
  - change (String c x +:+ search +:+ y) with (String c (x +:+ search +:+ y)).
    cbn [includes_from]. rewrite IH. apply orb_true_r.
Qed.

Lemma skip_append (n : nat) (x y : string) :
  (n <= String.length x)%nat ->
  exists x', skip n (x +:+ y) = x' +:+ y.
Proof.
  revert x. induction n as [|n IH]; intros x Hn.
  - exists x. now destruct (x +:+ y).
  - destruct x as [|c x]; [cbn in Hn; lia|].
    change (String c x +:+ y) with (String c (x +:+ y)). cbn [skip].
    apply IH. cbn in Hn. lia.
Qed.

Lemma String_includes_append (x search y : string) (position : nat) :
  (position <= String.length x)%nat ->
  String_includes (x +:+ search +:+ y) search position = true.
Proof.
  intros Hn. unfold String_includes.
  destruct (skip_append position x (search +:+ y) Hn) as [x' ->].
  apply includes_from_append.
Qed.

(** The numerals of the numbers below 100, padded to two characters, by
    enumeration. *)
Lemma pad2_checked :
  forallb (fun n => String.eqb (pad2 (Z.of_nat n)) (two_digits (Z.of_nat n)))
          (seq 0 100) = true.
Proof. vm_compute. reflexivity. Qed.

Lemma pad2_two_digits (n : Z) : 0 <= n < 100 -> pad2 n = two_digits n.
Proof.
  intros Hn. pose proof pad2_checked as H.
  rewrite forallb_forall in H. specialize (H (Z.to_nat n)).
  rewrite Z2Nat.id in H by lia.
  apply String.eqb_eq, H, in_seq. lia.
Qed.

Lemma digit_inj (a b : Z) : 0 <= a < 10 -> 0 <= b < 10 -> digit a = digit b -> a = b.
Proof.
  unfold digit. intros Ha Hb E.
  apply (f_equal nat_of_ascii) in E.
  rewrite !nat_ascii_embedding in E by lia. lia.
Qed.

Lemma two_digits_inj (n m : Z) :
  0 <= n < 100 -> 0 <= m < 100 -> two_digits n = two_digits m -> n = m.
Proof.
  unfold two_digits. intros Hn Hm E. injection E as E1 E2.
  apply digit_inj in E1, E2.
  - rewrite (Z.div_mod n 10), (Z.div_mod m 10) by lia. lia.
  - apply Z.mod_pos_bound; lia.
  - apply Z.mod_pos_bound; lia.
  - split; [apply Z.div_pos; lia|apply Z.div_lt_upper_bound; lia].
  - split; [apply Z.div_pos; lia|apply Z.div_lt_upper_bound; lia].
Qed.

End StringMethods.

Section TimezoneOffset.
Import MeetingModal.

Lemma getTimezoneOffsetString_parts (tz : Z) :
  -6000 < tz < 6000 ->
  getTimezoneOffsetString tz
  = (if tz <=? 0 then "+" else "-")
    +:+ two_digits (Z.abs tz / 60) +:+ ":" +:+ two_digits (Z.abs tz mod 60).
Proof.
  intros Htz. unfold getTimezoneOffsetString.
  fold (pad2 (Z.abs (- tz) / 60)). fold (pad2 (Z.rem (Z.abs (- tz)) 60)).
  rewrite Z.abs_opp, Z.rem_mod_nonneg by lia.
  rewrite !pad2_two_digits.
  - destruct (Z.leb_spec 0 (- tz)), (Z.leb_spec tz 0); try lia; reflexivity.
  - pose proof (Z.mod_pos_bound (Z.abs tz) 60). lia.
  - split; [apply Z.div_pos; lia|apply Z.div_lt_upper_bound; lia].
Qed.

(** X18. Within a hundred hours either way, the offset string is a sign, the
    two digits of the hours, a colon and the two digits of the minutes, six
    characters in all; the sign is plus for a clock at or east of UTC (the
    offset the clock reports is then zero or negative) and minus west of it,
    so that UTC itself is written [+00:00]; and two offsets with the same
    string are the same offset. *)
Theorem X18_offset_string_determines_the_offset (tz tz' : Z) :
  -6000 < tz < 6000 -> -6000 < tz' < 6000 ->
  getTimezoneOffsetString tz
  = (if tz <=? 0 then "+" else "-")
    +:+ two_digits (Z.abs tz / 60) +:+ ":" +:+ two_digits (Z.abs tz mod 60)
  /\ String.length (getTimezoneOffsetString tz) = 6%nat
  /\ getTimezoneOffsetString 0 = "+00:00"
  /\ (getTimezoneOffsetString tz = getTimezoneOffsetString tz' -> tz = tz').
Proof.
  intros Htz Htz'.
  pose proof (getTimezoneOffsetString_parts tz Htz) as E.
  pose proof (getTimezoneOffsetString_parts tz' Htz') as E'.
  split; [exact E|]. split; [|split].
  - rewrite E. now destruct (tz <=? 0).
  - vm_compute. reflexivity.
  - intros Eq. rewrite E, E' in Eq.
    assert (Hh : 0 <= Z.abs tz / 60 < 100)
      by (split; [apply Z.div_pos; lia|apply Z.div_lt_upper_bound; lia]).
    assert (Hh' : 0 <= Z.abs tz' / 60 < 100)
      by (split; [apply Z.div_pos; lia|apply Z.div_lt_upper_bound; lia]).
    pose proof (Z.mod_pos_bound (Z.abs tz) 60 ltac:(lia)) as Hm.
    pose proof (Z.mod_pos_bound (Z.abs tz') 60 ltac:(lia)) as Hm'.
    assert (Hparts : (tz <=? 0) = (tz' <=? 0)
                     /\ two_digits (Z.abs tz / 60) = two_digits (Z.abs tz' / 60)
                     /\ two_digits (Z.abs tz mod 60) = two_digits (Z.abs tz' mod 60)).
    { unfold two_digits in *.
      destruct (tz <=? 0), (tz' <=? 0); cbn in Eq; try discriminate;
        injection Eq as -> -> -> ->; auto. }
    destruct Hparts as (Hs & Eh & Em).
    apply two_digits_inj in Eh; [|lia..].
    apply two_digits_inj in Em; [|lia..].
    assert (Habs : Z.abs tz = Z.abs tz').
    { rewrite (Z.div_mod (Z.abs tz) 60), (Z.div_mod (Z.abs tz') 60) by lia.
      now rewrite Eh, Em. }
    destruct (Z.leb_spec tz 0), (Z.leb_spec tz' 0); try discriminate; lia.
Qed.

End TimezoneOffset.

Section Submit.
Import MeetingModal.

Variable addMeeting : MeetingData -> Result JsVal.
Variable updateMeeting : JsVal -> MeetingData -> Result JsVal.
Variable getTimezoneOffset : Z.
Variable onSuccess : option (Result unit).
Variable onClose : Result unit.
Variable meetingToEdit : JsVal.

Local Notation "'submit'" :=
  (onSubmit addMeeting updateMeeting getTimezoneOffset onSuccess onClose
            meetingToEdit) (only parsing).

Lemma get_truthy (v : JsVal) (k : string) :
  truthy v = true -> get v k = Ok (optional_get v k).
Proof. destruct v; cbn; intros H; try reflexivity; discriminate H. Qed.

Lemma onSubmit_not_filled (meeting : MeetingData) :
  filled meeting = false ->
  submit meeting = ([Alert_alert "Error" "Please fill in all required fields."], Ok tt).
Proof.
  unfold filled, onSubmit. intros H.
  destruct (nonempty (Subject meeting)), (nonempty (Date meeting)),
    (nonempty (Priority meeting)), (nonempty (MeetingType meeting)),
    (nonempty (Status meeting)); try discriminate H; reflexivity.
Qed.

(** The events of a submission that passes the check of the form. *)
Lemma onSubmit_filled (meeting : MeetingData) :
  filled meeting = true ->
  let meetingData := meetingData_of getTimezoneOffset meeting in
  let id := optional_get meetingToEdit "_id" in
  let update := truthy meetingToEdit && truthy id in
  submit meeting
  = (setLoading true
     :: (if update then call_updateMeeting id meetingData
         else call_addMeeting meetingData)
     :: match (if update then updateMeeting id meetingData
               else addMeeting meetingData) with
        | Throw e => reported meetingToEdit e
        | Ok _ =>
            Toast_show (if truthy meetingToEdit then "Meeting updated successfully"
                        else "Meeting added successfully")
            :: match onSuccess with
               | Some (Throw e) => call_onSuccess :: reported meetingToEdit e
               | Some (Ok _) =>
                   call_onSuccess :: call_onClose
                   :: match onClose with
                      | Ok _ => []
                      | Throw e => reported meetingToEdit e
                      end
               | None =>
                   call_onClose
                   :: match onClose with
                      | Ok _ => []
                      | Throw e => reported meetingToEdit e
                      end
               end
        end ++ [setLoading false], Ok tt)%list.
Proof.
  intros H. cbn zeta. unfold onSubmit, meetingData_of, has_timezone, isEditMode.
  unfold filled in H.
  destruct (nonempty (Subject meeting)); [|discriminate H].
  destruct (nonempty (Date meeting)); [|discriminate H].
  destruct (nonempty (Priority meeting)); [|discriminate H].
  destruct (nonempty (MeetingType meeting)); [|discriminate H].
  destruct (nonempty (Status meeting)); [|discriminate H].
  cbn [negb orb].
  set (md := if negb (String_includes (Date meeting) "+" 0)
                && negb (String_includes (Date meeting) "-" 10)
             then _ else meeting).
  assert (Emd : md = if String_includes (Date meeting) "+" 0
                        || String_includes (Date meeting) "-" 10
                     then meeting
                     else with_Date (Date meeting
                                     +:+ getTimezoneOffsetString getTimezoneOffset)
                                    meeting).
  { subst md. now destruct (String_includes (Date meeting) "+" 0),
                (String_includes (Date meeting) "-" 10). }
  rewrite <- Emd. clear Emd. clearbody md.
  destruct (truthy meetingToEdit) eqn:Et.
  - rewrite (get_truthy _ _ Et).
    cbv beta iota delta [bind await emit ret try_catch_finally].
    destruct (truthy (optional_get meetingToEdit "_id")); cbn [andb].
    + unfold reported. rewrite Et.
      destruct (updateMeeting _ md); [|reflexivity].
      destruct onSuccess as [[[]|e]|]; destruct onClose as [[]|e']; reflexivity.
    + unfold reported. rewrite Et.
      destruct (addMeeting md); [|reflexivity].
      destruct onSuccess as [[[]|e]|]; destruct onClose as [[]|e']; reflexivity.
  - cbn [andb]. unfold reported. rewrite Et.
    cbv beta iota delta [bind await emit ret try_catch_finally].
    destruct (addMeeting md); [|reflexivity].
    destruct onSuccess as [[[]|e]|]; destruct onClose as [[]|e']; reflexivity.
Qed.

Lemma reported_events (e : string) (ev : Event) :
  In ev (reported meetingToEdit e) ->
  is_api_call ev = false /\ is_setLoading ev = false /\ ev <> call_onClose
  /\ forall m, ev <> Toast_show m.
Proof.
  unfold reported. intros [<-|[<-|[]]]; repeat split; discriminate.
Qed.

(** X19. Submitting the form never raises. With one of the five required
    fields empty it shows the alert and does nothing else: no API call, no
    change of the loading flag. With all five filled it sets the loading flag,
    makes exactly one API call, and clears the flag at the very end, whatever
    the API and the callbacks do. *)
Theorem X19_submit_checks_the_form_and_resets_loading (meeting : MeetingData) :
  snd (submit meeting) = Ok tt
  /\ (filled meeting = false ->
      fst (submit meeting)
      = [Alert_alert "Error" "Please fill in all required fields."])
  /\ (filled meeting = true ->
      exists call rest,
        fst (submit meeting)
        = (setLoading true :: call :: rest ++ [setLoading false])%list
        /\ is_api_call call = true
        /\ forallb (fun e => negb (is_api_call e) && negb (is_setLoading e)) rest
           = true).
Proof.
  destruct (filled meeting) eqn:Hf.
  - pose proof (onSubmit_filled meeting Hf) as E. cbn zeta in E.
    split; [now rewrite E|]. split; [discriminate|]. intros _.
    rewrite E. cbn [fst]. eexists _, _. split; [reflexivity|]. split.
    + now destruct (truthy meetingToEdit && _).
    + destruct (if truthy meetingToEdit && _ then updateMeeting _ _ else addMeeting _)
        as [v|e]; [|reflexivity].
      destruct onSuccess as [[[]|e]|]; destruct onClose as [[]|e']; reflexivity.
  - rewrite (onSubmit_not_filled meeting Hf). split; [reflexivity|].
    split; [reflexivity|discriminate].
Qed.

(** X20. With the form filled, whatever the API and the callbacks do, the
    handler makes one API call and no other: [updateMeeting], with the [_id]
    of the meeting to edit, when that meeting is there and its [_id] is
    truthy, and [addMeeting] in every other case. It shows one toast when the
    call succeeds and none when it fails, and the text of the toast is chosen
    by the meeting to edit alone: a meeting to edit without an [_id] is added
    as new and announced as updated. *)
Theorem X20_update_needs_an_id (meeting : MeetingData) :
  filled meeting = true ->
  let meetingData := meetingData_of getTimezoneOffset meeting in
  let id := optional_get meetingToEdit "_id" in
  let update := truthy meetingToEdit && truthy id in
  let outcome := if update then updateMeeting id meetingData
                 else addMeeting meetingData in
  let events := fst (submit meeting) in
  List.filter is_api_call events
  = [if update then call_updateMeeting id meetingData
     else call_addMeeting meetingData]
  /\ (is_ok outcome = true ->
      List.filter is_toast events
      = [Toast_show (if truthy meetingToEdit then "Meeting updated successfully"
                     else "Meeting added successfully")])
  /\ (is_ok outcome = false -> List.filter is_toast events = [])
  /\ (truthy meetingToEdit = true -> truthy id = false ->
      is_ok (addMeeting meetingData) = true ->
      List.filter is_api_call events = [call_addMeeting meetingData]
      /\ List.filter is_toast events = [Toast_show "Meeting updated successfully"]).
Proof.
  intros Hf. pose proof (onSubmit_filled meeting Hf) as E. cbn zeta in *.
  rewrite E. cbn [fst]. clear E.
  set (md := meetingData_of getTimezoneOffset meeting).
  set (id := optional_get meetingToEdit "_id").
  assert (Hcalls : forall e, List.filter is_api_call (reported meetingToEdit e) = []
                             /\ List.filter is_toast (reported meetingToEdit e) = [])
    by (intros e; split; reflexivity).
  assert (Hmain : forall (update : bool),
    let outcome := if update then updateMeeting id md else addMeeting md in
    let events :=
      (setLoading true
       :: (if update then call_updateMeeting id md else call_addMeeting md)
       :: match outcome with
          | Throw e => reported meetingToEdit e
          | Ok _ =>
              Toast_show (if truthy meetingToEdit then "Meeting updated successfully"
                          else "Meeting added successfully")
              :: match onSuccess with
                 | Some (Throw e) => call_onSuccess :: reported meetingToEdit e
                 | Some (Ok _) =>
                     call_onSuccess :: call_onClose
                     :: match onClose with
                        | Ok _ => []
                        | Throw e => reported meetingToEdit e
                        end
                 | None =>
                     call_onClose
                     :: match onClose with
                        | Ok _ => []
                        | Throw e => reported meetingToEdit e
                        end
                 end
          end ++ [setLoading false])%list in
    List.filter is_api_call events
    = [if update then call_updateMeeting id md else call_addMeeting md]
    /\ (is_ok outcome = true ->
        List.filter is_toast events
        = [Toast_show (if truthy meetingToEdit then "Meeting updated successfully"
                       else "Meeting added successfully")])
    /\ (is_ok outcome = false -> List.filter is_toast events = [])).
  { intros update. cbv zeta.
    destruct (if update then updateMeeting id md else addMeeting md) as [v|e];
      cbn [is_ok].
    - destruct onSuccess as [[[]|e]|]; destruct onClose as [[]|e'];
        (split; [now destruct update|]); (split; [now destruct update|discriminate]).
    - split; [now destruct update|]. split; [discriminate|]. now destruct update. }
  pose proof (Hmain (truthy meetingToEdit && truthy id)) as (H1 & H2 & H3).
  cbv zeta in H1, H2, H3.
  split; [exact H1|]. split; [exact H2|]. split; [exact H3|].
  intros He Hi Hok. rewrite He, Hi in *. cbn [andb] in *.
  split; [exact H1|exact (H2 Hok)].
Qed.

(** X21. With the form filled: when the API call fails, the handler logs the
    error, shows it in an alert (the message, or the stock text when the
    message is empty) and does nothing else, so the form stays open. The form
    is closed exactly when the call succeeded and the success callback, if
    there is one, returned; a success callback that raises leaves the user
    with the success toast, an error alert and the form still open. *)
Theorem X21_form_closes_only_after_success (meeting : MeetingData) :
  filled meeting = true ->
  let meetingData := meetingData_of getTimezoneOffset meeting in
  let id := optional_get meetingToEdit "_id" in
  let update := truthy meetingToEdit && truthy id in
  let call := if update then call_updateMeeting id meetingData
              else call_addMeeting meetingData in
  let outcome := if update then updateMeeting id meetingData
                 else addMeeting meetingData in
  (forall e, outcome = Throw e ->
     fst (submit meeting)
     = (setLoading true :: call :: reported meetingToEdit e
        ++ [setLoading false])%list)
  /\ (In call_onClose (fst (submit meeting))
      <-> is_ok outcome = true /\ forall e, onSuccess <> Some (Throw e))
  /\ (forall e, is_ok outcome = true -> onSuccess = Some (Throw e) ->
      exists toast,
        fst (submit meeting)
        = (setLoading true :: call :: Toast_show toast :: call_onSuccess
           :: reported meetingToEdit e ++ [setLoading false])%list).
Proof.
  intros Hf. pose proof (onSubmit_filled meeting Hf) as E. cbn zeta in *.
  rewrite E. cbn [fst]. clear E.
  set (update := truthy meetingToEdit && _).
  set (call := if update then call_updateMeeting _ _ else _).
  set (outcome := if update then updateMeeting _ _ else _).
  assert (Hcall : call <> call_onClose) by (subst call; destruct update; discriminate).
  assert (Hrep : forall e, ~ In call_onClose (reported meetingToEdit e)).
  { intros e Hin. now destruct (reported_events e _ Hin) as (_ & _ & Hne & _). }
  clearbody call outcome. split; [|split].
  - now intros e ->.
  - assert (Hno : forall e, ~ In call_onClose
                              (setLoading true :: call :: reported meetingToEdit e
                               ++ [setLoading false])%list).
    { intros e [H|[H|H]]; [discriminate H|now apply Hcall|].
      apply in_app_or in H as [H|[H|[]]]; [now apply Hrep in H|discriminate H]. }
    destruct outcome as [v|e]; cbn [is_ok].
    + destruct onSuccess as [[[]|e]|]; cbn [app].
      * split; [intros _; split; [reflexivity|discriminate]|]. intros _.
        do 4 right. now left.
      * split.
        -- intros H. exfalso.
           destruct H as [H|[H|[H|[H|H]]]]; try discriminate H; [now apply Hcall|].
           apply (Hno e). now do 2 right.
        -- intros [_ H]. now specialize (H e).
      * split; [intros _; split; [reflexivity|discriminate]|]. intros _.
        do 3 right. now left.
    + split; [|intros [H _]; discriminate H].
      intros H. now apply Hno in H.
  - intros e Hok ->. destruct outcome; [|discriminate Hok]. eexists. reflexivity.
Qed.

Lemma nonempty_append (a b : string) : nonempty a = true -> nonempty (a +:+ b) = true.
Proof. now destruct a. Qed.

Lemma getTimezoneOffsetString_sign (tz : Z) :
  exists rest,
    getTimezoneOffsetString tz = (if 0 <=? - tz then "+" else "-") +:+ rest.
Proof. eexists. reflexivity. Qed.

Lemma meetingData_of_timezone (meeting : MeetingData) :
  (10 <= String.length (Date meeting))%nat \/ getTimezoneOffset <= 0 ->
  has_timezone (Date (meetingData_of getTimezoneOffset meeting)) = true.
Proof.
  intros Hc. unfold meetingData_of.
  destruct (has_timezone (Date meeting)) eqn:Ht; [exact Ht|].
  cbn [Date with_Date]. unfold has_timezone.
  destruct (getTimezoneOffsetString_sign getTimezoneOffset) as [rest ->].
  destruct (Z.leb_spec 0 (- getTimezoneOffset)) as [Hle|Hlt].
  - rewrite (String_includes_append (Date meeting) "+" rest 0) by lia. reflexivity.
  - destruct Hc as [Hlen|Hle]; [|lia].
    rewrite (String_includes_append (Date meeting) "-" rest 10) by exact Hlen.
    apply orb_true_r.
Qed.

Lemma meetingData_of_filled (meeting : MeetingData) :
  filled meeting = true -> filled (meetingData_of getTimezoneOffset meeting) = true.
Proof.
  unfold meetingData_of. destruct (has_timezone (Date meeting)); [easy|].
  unfold filled. cbn. intros H.
  destruct (nonempty (Subject meeting)); [|discriminate H].
  destruct (nonempty (Date meeting)) eqn:Hd; [|discriminate H].
  now rewrite (nonempty_append _ _ Hd).
Qed.

Lemma sent_of_submit (meeting : MeetingData) :
  filled meeting = true ->
  sent (fst (submit meeting)) = Some (meetingData_of getTimezoneOffset meeting).
Proof.
  intros Hf. pose proof (onSubmit_filled meeting Hf) as E. cbn zeta in E.
  rewrite E. cbn [fst sent]. now destruct (truthy meetingToEdit && _).
Qed.

(** X22. With the form filled and a date of at least ten characters (or a
    clock at or east of UTC), the date handed to the API carries a time zone
    by the form's own test, and handing that data in again sends it unchanged:
    the offset is appended at most once. A date that already carries a time
    zone is sent as it is; any other is followed by the clock's offset. *)
Theorem X22_offset_is_appended_once (meeting : MeetingData) :
  filled meeting = true ->
  (10 <= String.length (Date meeting))%nat \/ getTimezoneOffset <= 0 ->
  exists meetingData,
    sent (fst (submit meeting)) = Some meetingData
    /\ has_timezone (Date meetingData) = true
    /\ sent (fst (submit meetingData)) = Some meetingData
    /\ (has_timezone (Date meeting) = true -> meetingData = meeting)
    /\ (has_timezone (Date meeting) = false ->
        Date meetingData
        = Date meeting +:+ getTimezoneOffsetString getTimezoneOffset).
Proof.
  intros Hf Hc. exists (meetingData_of getTimezoneOffset meeting).
  pose proof (meetingData_of_timezone meeting Hc) as Ht.
  split; [now apply sent_of_submit|]. split; [exact Ht|]. split.
  - rewrite sent_of_submit by now apply meetingData_of_filled.
    unfold meetingData_of at 1. now rewrite Ht.
  - unfold meetingData_of. split; now intros ->.
Qed.

End Submit.

Section FormHelpers.
Import MeetingModal.

(** X23. The developer search never raises: it sets its loading flag first
    and clears it last whatever the search does, and sets the list of
    developers exactly once in between, to the results of the search or, when
    the search fails, to the empty list. *)
Theorem X23_developer_search_settles
    (searchDevelopers : string -> Result JsVal) (query : string) :
  let run := handleDeveloperSearch searchDevelopers query in
  snd run = Ok tt
  /\ (exists middle,
        fst run = (setDeveloperSearchLoading true :: call_searchDevelopers query
                   :: middle ++ [setDeveloperSearchLoading false])%list
        /\ forallb (fun e => negb (is_api_call e)) middle = true)
  /\ developers_set (fst run)
     = [match searchDevelopers query with
        | Ok results => results
        | Throw _ => JArr []
        end].
Proof.
  unfold handleDeveloperSearch.
  cbv beta iota zeta delta [bind await emit ret try_catch_finally].
  destruct (searchDevelopers query) as [results|e]; cbn [fst snd app].
  - split; [reflexivity|]. split; [|reflexivity].
    exists [setDevelopers results]. split; reflexivity.
  - split; [reflexivity|]. split; [|reflexivity].
    exists [console_error "Error searching developers:" e; setDevelopers (JArr [])].
    split; reflexivity.
Qed.

Lemma find_id (assigneeOptions : list User) (id : string) :
  match find (fun user => String.eqb (_id user) id) assigneeOptions with
  | Some u => _id u = id /\ In u assigneeOptions
              /\ existsb (String.eqb id) (map _id assigneeOptions) = true
  | None => existsb (String.eqb id) (map _id assigneeOptions) = false
  end.
Proof.
  induction assigneeOptions as [|u rest IH]; [reflexivity|].
  cbn [find map existsb]. rewrite (String.eqb_sym id (_id u)).
  destruct (String.eqb (_id u) id) eqn:E.
  - apply String.eqb_eq in E. split; [exact E|]. split; [now left|reflexivity].
  - cbn [orb]. destruct (find _ rest) as [u'|].
    + destruct IH as (H1 & H2 & H3). split; [exact H1|]. split; [now right|exact H3].
    + exact IH.
Qed.

(** X24. The selected users follow the ids in order: their ids are the given
    ids without those that no option carries (an id given twice is kept
    twice), each of them is an option of the form, and for an id that several
    options carry it is the first of them, the one [getSelectedUser] gives. *)
Theorem X24_selected_users_follow_the_ids
    (assigneeOptions : list User) (userIds : list string) :
  map _id (getSelectedUsers assigneeOptions userIds)
  = List.filter (fun id => existsb (String.eqb id) (map _id assigneeOptions)) userIds
  /\ (forall u, In u (getSelectedUsers assigneeOptions userIds) ->
        In u assigneeOptions /\ In (_id u) userIds
        /\ getSelectedUser assigneeOptions (_id u) = Some u).
Proof.
  unfold getSelectedUsers, getSelectedUser, filter_Boolean.
  induction userIds as [|uid rest [IH1 IH2]]; [split; [reflexivity|intros u []]|].
  cbn [map omap list_omap List.filter].
  pose proof (find_id assigneeOptions uid) as Hf.
  destruct (find (fun user => String.eqb (_id user) uid) assigneeOptions) as [u|] eqn:E.
  - destruct Hf as (Hid & Hin & Hex). rewrite Hex. cbn [id map].
    split.
    + rewrite Hid. f_equal. exact IH1.
    + intros u' [<-|Hu'].
      * split; [exact Hin|]. split; [left; now symmetry|]. now rewrite Hid.
      * destruct (IH2 u' Hu') as (H1 & H2 & H3).
        split; [exact H1|]. split; [now right|exact H3].
  - rewrite Hf. cbn [id]. split; [exact IH1|].
    intros u' Hu'. destruct (IH2 u' Hu') as (H1 & H2 & H3).
    split; [exact H1|]. split; [now right|exact H3].
Qed.

End FormHelpers.

(** ** The meetings tab *)

Section Tab.
Import MeetingsTab.

Variable getLeadMeetings : string -> Result JsVal.
Variable formatTimestamp : JsVal -> Result JsVal.
Variable lead : Lead.

Local Notation "'fetch'" := (fetchMeetings getLeadMeetings lead) (only parsing).

(** X25. Once the meetings have been fetched, from any state: the tab is no
    longer loading or refreshing; the error is null or a non-empty text. A
    successful call clears the error, shows no toast and stores the data, or
    the empty list when the data is falsy, so that the stored value is never
    null. A failed call keeps the meetings that were there, stores the
    message (the stock text when it is empty) and shows one toast that quotes
    the message as it is. *)
Theorem X25_fetch_meetings_outcomes (st : State) :
  loading (fetch st) = false
  /\ refreshing (fetch st) = false
  /\ (forall e, error (fetch st) = Some e -> nonempty e = true)
  /\ (forall data, getLeadMeetings (_id lead) = Ok data ->
        error (fetch st) = None
        /\ toasts (fetch st) = toasts st
        /\ meetings (fetch st) = (if truthy data then data else JArr [])
        /\ truthy (meetings (fetch st)) = true)
  /\ (forall msg, getLeadMeetings (_id lead) = Throw msg ->
        meetings (fetch st) = meetings st
        /\ error (fetch st)
           = Some (if nonempty msg then msg else "Failed to fetch meetings")
        /\ toasts (fetch st)
           = (toasts st ++ ["Error fetching meetings: " +:+ msg])%list).
Proof.
  unfold fetchMeetings.
  destruct (getLeadMeetings (_id lead)) as [data|msg]; cbn.
  - do 2 (split; [reflexivity|]). split; [discriminate|]. split; [|discriminate].
    intros ? [= <-]. do 2 (split; [reflexivity|]). unfold js_or.
    split; [reflexivity|]. now destruct (truthy data) eqn:E.
  - do 2 (split; [reflexivity|]). split.
    + intros e [= <-]. now destruct (nonempty msg) eqn:E.
    + split; [discriminate|]. intros ? [= <-]. repeat split.
Qed.

Lemma fetchMeetings_loading (st : State) : loading (fetch st) = false.
Proof. reflexivity. Qed.

Lemma mapi_from_raises {A B} (f : A -> nat -> Result B) (l : list A) (x : A) :
  In x l -> (forall i, exists msg, f x i = Throw msg) ->
  forall i, exists msg, mapi_from i f l = Throw msg.
Proof.
  intros Hin Hx. induction l as [|a l IH]; [destruct Hin|]. intros i.
  cbn [mapi_from]. destruct Hin as [->|Hin].
  - destruct (Hx i) as [msg ->]. cbn. eauto.
  - destruct (f a i); [|cbn; eauto]. cbn [bindR].
    destruct (IH Hin (S i)) as [msg ->]. cbn. eauto.
Qed.

Lemma card_unreadable (row : JsVal) (i : nat) :
  unreadable row = true -> exists msg, card formatTimestamp row i = Throw msg.
Proof.
  unfold unreadable, field, card. intros H.
  destruct row as [ | |b|n|s|l|fields]; cbn in H; try discriminate H;
    try (cbn; eauto; fail).
  cbn [get bindR].
  destruct (default JUndefined (assoc "Priority" fields)) as [ | |b|n|s|l|f] eqn:Ep;
    cbn; eauto.
  cbn in H.
  destruct (default JUndefined (assoc "Status" fields)) as [ | |b'|n'|s'|l'|f'];
    cbn; eauto. discriminate H.
Qed.

Lemma render_rows (rows : list JsVal) (r : bool) (e : option string) (t : list string) :
  (forall m, e = Some m -> nonempty m = true) ->
  render formatTimestamp
         {| meetings := JArr rows; loading := false; refreshing := r; error := e;
            toasts := t |}
  = match rows, e with
    | [], None => Ok (Scroll r e NoMeetings)
    | _, _ =>
        let! cards := mapi (card formatTimestamp) rows in
        Ok (Scroll r e (Meetings (JNum (Z.of_nat (length rows))) cards))
    end.
Proof.
  intros He. unfold render. cbn [loading meetings error refreshing js_length bindR js_map].
  destruct e as [m|].
  - rewrite (He m eq_refl). cbn [notNull negb]. rewrite andb_false_r.
    now destruct rows.
  - cbn [notNull negb]. rewrite andb_true_r. destruct rows as [|row rows]; [reflexivity|].
    cbn [length]. rewrite Nat2Z.inj_succ.
    destruct (Z.succ (Z.of_nat (length rows))) eqn:E; try reflexivity. lia.
Qed.


(** X27. Pulling to refresh and pressing Try Again leave the tab in the state
    that a plain fetch from the same state leaves it in: the flags and the
    error they set before the call are all written again once the call has
    settled. *)
Theorem X27_refresh_and_retry_end_as_a_fetch (st : State) :
  onRefresh getLeadMeetings lead st = fetch st
  /\ onPress_TryAgain getLeadMeetings lead st = fetch st.
Proof.
  unfold onRefresh, onPress_TryAgain, fetchMeetings.
  destruct (getLeadMeetings (_id lead)); split; reflexivity.
Qed.

End Tab.

Section Colours.
Import MeetingsTab.

Lemma lower_char_idempotent (c : ascii) : lower_char (lower_char c) = lower_char c.
Proof. destruct c as [[] [] [] [] [] [] [] []]; reflexivity. Qed.

Lemma toLowerCase_idempotent (s : string) :
  toLowerCase (toLowerCase s) = toLowerCase s.
Proof.
  induction s as [|c s IH]; [reflexivity|].
  cbn [toLowerCase]. now rewrite lower_char_idempotent, IH.
Qed.

(** X28. The colours of a priority and of a status do not depend on the case
    of the letters: a word and its lower case get the same classes. *)
Theorem X28_colours_ignore_letter_case (word : string) :
  getPriorityColor (toLowerCase word) = getPriorityColor word
  /\ getStatusColor (toLowerCase word) = getStatusColor word.
Proof.
  unfold getPriorityColor, getStatusColor. now rewrite toLowerCase_idempotent.
Qed.

(** X29. The values the meeting form offers, in the colours of the tab: of
    the four priorities, Urgent and no other gets the classes of an unknown
    priority; each of the three statuses of the form, which are spelled with
    the word Meeting in front, gets the classes of an unknown status. *)
Theorem X29_form_values_in_the_colours_of_the_tab :
  (forall o, In o MeetingModal.priorityOptions ->
     (getPriorityColor (fst o) = default_colour <-> fst o = "Urgent"))
  /\ (forall o, In o MeetingModal.meetingStatusOptions ->
        getStatusColor (fst o) = default_colour).
Proof.
  split.
  - intros o [<-|[<-|[<-|[<-|[]]]]]; cbn; split; intros H;
      first [reflexivity | discriminate H].
  - intros o [<-|[<-|[<-|[]]]]; reflexivity.
Qed.

End Colours.

(** ** The further statements on sample inputs *)

Module MoreWitnesses.
Import SampleRuntime Examples MoreExamples.

Lemma X1_witness_headers_of_a_token :
  stored_token logged_in = Some valid_token
  /\ exists headers,
       fst (@createAuthHeaders tags_runtime logged_in) = Ok headers
       /\ assoc_string "Cookie" headers = Some ("token=" +:+ valid_token).
Proof.
  assert (Ht : stored_token logged_in = Some valid_token) by reflexivity.
  split; [exact Ht|].
  destruct (@X1_auth_headers_need_only_a_token tags_runtime logged_in) as (_ & _ & H).
  destruct (H valid_token Ht) as (headers & H1 & _ & H3 & _).
  exists headers. split; [exact H1 | exact H3].
Defined.

Lemma X2_witness_start_date_only :
  filter_dateRange (filters_from 0) = Some (Some 0, None)
  /\ body_date (@buildLeadsRequestBody tags_runtime agent (filters_from 0) "" first_page
                  no_options)
     = ["1970-01-01T00:00:00.000Z"].
Proof.
  assert (Hd : filter_dateRange (filters_from 0) = Some (Some 0, None)) by reflexivity.
  split; [exact Hd|].
  destruct (@X2_date_lists_the_non_null_ends tags_runtime agent (filters_from 0) ""
              first_page no_options) as (_ & _ & H & _).
  rewrite (H 0 Hd). vm_compute. reflexivity.
Defined.

Lemma X3_witness_admin_switches_off_view_all :
  viewAllLeads own_leads_only = Some false
  /\ body_viewAllLeads (@buildLeadsRequestBody tags_runtime admin (filters_with None) ""
                          first_page own_leads_only)
     = Some false.
Proof.
  assert (Hv : viewAllLeads own_leads_only = Some false) by reflexivity.
  split; [exact Hv|].
  destruct (@X3_extra_options_override_the_scope tags_runtime admin (filters_with None)
              "" first_page own_leads_only) as (H & _).
  exact (H false Hv).
Defined.

Lemma X5_witness_defaults_of_empty_filters :
  filter_dateFor (filters_with None) = ""
  /\ filter_searchBoxFilters (filters_with None) = None
  /\ (let body := @buildLeadsRequestBody tags_runtime agent (filters_with None) ""
                    first_page no_options in
      body_dateFor body = "LeadIntroduction"
      /\ body_searchBoxFilters body = ["LeadInfo"]).
Proof.
  assert (Hd : filter_dateFor (filters_with None) = "") by reflexivity.
  assert (Hs : filter_searchBoxFilters (filters_with None) = None) by reflexivity.
  split; [exact Hd|]. split; [exact Hs|].
  destruct (@X5_composer_defaults tags_runtime agent (filters_with None) "" first_page
              no_options) as (_ & _ & _ & _ & H5 & _ & H7 & _).
  split; [exact (H5 Hd) | exact (H7 Hs)].
Defined.

Lemma X6_witness_user_without_id :
  user_id nobody = ""
  /\ @fetchLeads tags_runtime (Some nobody) (filters_with None) "" first_page no_options
       logged_in
     = (Throw "User not available", logged_in).
Proof.
  assert (Hu : user_id nobody = "") by reflexivity.
  split; [exact Hu|].
  destruct (@X6_leads_fetch_fails_before_the_network tags_runtime logged_in
              (Some nobody) (filters_with None) "" first_page no_options) as (H & _).
  apply H. right. exists nobody. split; [reflexivity | exact Hu].
Defined.

Lemma X7_witness_one_leads_request :
  user_id agent <> ""
  /\ @session_valid leads_runtime logged_in = true
  /\ stored_token logged_in = Some valid_token
  /\ requests (snd (@fetchLeads leads_runtime (Some agent) (filters_with None) ""
                      first_page no_options logged_in))
     = [@leads_request leads_runtime valid_token agent (filters_with None) "" first_page
          no_options].
Proof.
  assert (Hu : user_id agent <> "") by discriminate.
  assert (Hs : @session_valid leads_runtime logged_in = true) by (vm_compute; reflexivity).
  assert (Ht : stored_token logged_in = Some valid_token) by reflexivity.
  split; [exact Hu|]. split; [exact Hs|]. split; [exact Ht|].
  destruct (@X7_leads_fetch_sends_one_composed_request leads_runtime logged_in agent
              (filters_with None) "" first_page no_options valid_token Hu Hs Ht)
    as (H & _).
  exact H.
Defined.

Lemma statuses_answered :
  @answered statuses_runtime _ (@fetchStatusOptions statuses_runtime) logged_in
    statuses_body.
Proof.
  eexists _, _, _.
  split; [split; [vm_compute; reflexivity | reflexivity]|].
  split; [vm_compute; reflexivity|]. split; reflexivity.
Defined.

Lemma X8_witness_one_status_row :
  @answered statuses_runtime _ (@fetchStatusOptions statuses_runtime) logged_in
    statuses_body
  /\ field statuses_body "data" = JArr [status_row]
  /\ Forall (fun row => nullish row = false) [status_row]
  /\ fst (@fetchStatusOptions statuses_runtime logged_in)
     = Ok [ {| value := JStr "s1"; label := JStr "New";
               color := Some (JStr "#00ff00") |} ].
Proof.
  assert (Hd : field statuses_body "data" = JArr [status_row]) by reflexivity.
  assert (Hr : Forall (fun row => nullish row = false) [status_row]).
  { constructor; [reflexivity | constructor]. }
  split; [exact statuses_answered|]. split; [exact Hd|]. split; [exact Hr|].
  destruct (@X8_option_rows_map_in_order_or_not_at_all statuses_runtime logged_in
              statuses_body) as (H & _).
  destruct (H statuses_answered) as (Hrows & _).
  destruct (Hrows [status_row] Hd) as (Hok & _).
  exact (Hok Hr).
Defined.

Lemma X9_witness_no_search_parameter :
  is_double 1 = true
  /\ is_double 2 = true
  /\ stored_token logged_in = Some valid_token
  /\ exists req,
       requests (snd (@fetchTagOptions tags_runtime 1 2 "" logged_in)) = [req]
       /\ assoc_string "page" (req_query req) = Some "1"
       /\ map fst (req_query req) = ["page"; "limit"].
Proof.
  assert (Hp : is_double 1 = true) by reflexivity.
  assert (Hl : is_double 2 = true) by reflexivity.
  assert (Ht : stored_token logged_in = Some valid_token) by reflexivity.
  split; [exact Hp|]. split; [exact Hl|]. split; [exact Ht|].
  destruct (@X9_tag_query_omits_an_empty_search tags_runtime logged_in valid_token 1 2 ""
              Hp Hl Ht) as (req & H1 & _ & _ & _ & _ & _ & H7 & _ & H9 & _).
  assert (Hs : Z.abs 1 < 2 ^ 53) by (vm_compute; reflexivity).
  exists req. split; [exact H1|]. split; [exact (H7 Hs) | exact (H9 eq_refl)].
Defined.

Lemma staff_answered :
  @answered staff_runtime _ (@fetchAgents staff_runtime (Some manager)) logged_in
    staff_body.
Proof.
  eexists _, _, _.
  split; [split; [vm_compute; reflexivity | reflexivity]|].
  split; [vm_compute; reflexivity|]. split; reflexivity.
Defined.

Lemma X10_witness_manager_gets_the_extra_node :
  user_id manager <> ""
  /\ @answered staff_runtime _ (@fetchAgents staff_runtime (Some manager)) logged_in
       staff_body
  /\ transformAgentsDataToTreeSelect (field staff_body "data") = Ok (JArr staff_tree)
  /\ nullish staff_body = false
  /\ privileged manager
  /\ fst (@fetchAgents staff_runtime (Some manager) logged_in)
     = Ok (nonAssignedNode :: staff_tree).
Proof.
  assert (Hu : user_id manager <> "") by discriminate.
  assert (Ht : transformAgentsDataToTreeSelect (field staff_body "data")
               = Ok (JArr staff_tree)) by (vm_compute; reflexivity).
  assert (Hn : nullish staff_body = false) by reflexivity.
  assert (Hp : privileged manager).
  { right. left. exists {| lead := Some ["view_all"] |}, ["view_all"].
    split; [reflexivity|]. split; [reflexivity|]. now left. }
  split; [exact Hu|]. split; [exact staff_answered|]. split; [exact Ht|].
  split; [exact Hn|]. split; [exact Hp|].
  destruct (@X10_non_assigned_node_for_privileged_users staff_runtime logged_in manager
              staff_body staff_tree) as (H & _).
  destruct (H Hu staff_answered Ht Hn) as (Hpriv & _).
  exact (Hpriv Hp).
Defined.

Lemma X11_witness_null_data :
  isArray JNull = false
  /\ transformAgentsDataToTreeSelect JNull = Ok (JArr []).
Proof.
  assert (Ha : isArray JNull = false) by reflexivity.
  split; [exact Ha|].
  destruct (X11_transform_on_any_value JNull) as (H & _).
  exact (H Ha).
Defined.

Lemma X12_witness_first_page_of_fifty :
  campaignName some_campaign <> ""
  /\ stored_token logged_in = Some valid_token
  /\ campaign_page some_campaign = None
  /\ campaign_limit some_campaign = None
  /\ requests (snd (@fetchCampaignLeads campaigns_runtime some_campaign logged_in))
     = [ {| req_method := "POST";
            req_url := "https://crm.example/api/Lead/campaign";
            req_query := [];
            req_headers := @auth_headers campaigns_runtime valid_token;
            req_body := CampaignBody "spring" 1 50 |} ].
Proof.
  assert (Hc : campaignName some_campaign <> "") by discriminate.
  assert (Ht : stored_token logged_in = Some valid_token) by reflexivity.
  split; [exact Hc|]. split; [exact Ht|]. split; [reflexivity|]. split; [reflexivity|].
  destruct (@X12_campaign_leads_request_and_defaults campaigns_runtime some_campaign
              logged_in) as (_ & H).
  destruct (H valid_token Hc Ht) as (pg & lim & Hr & Hp & _ & Hl & _).
  rewrite Hr, (Hp (or_introl eq_refl)), (Hl (or_introl eq_refl)). reflexivity.
Defined.

Lemma X13_witness_server_error :
  campaignName some_campaign <> ""
  /\ stored_token logged_in = Some valid_token
  /\ fst (@fetchCampaignLeads (runtime broken) some_campaign logged_in)
     = Throw "Failed to fetch campaign leads: HTTP 500 - Internal Server Error".
Proof.
  assert (Hc : campaignName some_campaign <> "") by discriminate.
  assert (Ht : stored_token logged_in = Some valid_token) by reflexivity.
  split; [exact Hc|]. split; [exact Ht|].
  destruct (@X13_campaign_leads_outcomes (runtime broken) some_campaign logged_in
              valid_token Hc Ht) as (H & _).
  exact (H _ eq_refl eq_refl).
Defined.

Lemma X14_witness_slow_server :
  is_double 1 = true
  /\ is_double 10 = true
  /\ @session_valid (runtime slow) logged_in = true
  /\ stored_token logged_in = Some valid_token
  /\ fst (@fetchCampaignsWithCounts (runtime slow) 1 10 logged_in)
     = Throw "Request timeout after 30s"
  /\ now_ms (snd (@fetchCampaignsWithCounts (runtime slow) 1 10 logged_in)) = 31000.
Proof.
  assert (Hs : @session_valid (runtime slow) logged_in = true) by (vm_compute; reflexivity).
  assert (Ht : stored_token logged_in = Some valid_token) by reflexivity.
  assert (Hp : is_double 1 = true) by reflexivity.
  assert (Hl : is_double 10 = true) by reflexivity.
  split; [exact Hp|]. split; [exact Hl|]. split; [exact Hs|]. split; [exact Ht|].
  destruct (@X14_campaign_list_times_out_after_30s (runtime slow) 1 10 logged_in
              valid_token Hp Hl Hs Ht) as (_ & _ & _ & H & _).
  assert (Hslow : 30000 < 45000) by lia.
  exact (H Hslow).
Defined.

Lemma X15_witness_campaign_list :
  fst (@fetchCampaignsWithCounts campaigns_runtime 1 10 logged_in) = Ok campaigns_result
  /\ exists rows, cc_data campaigns_result = JArr rows.
Proof.
  assert (Hr : fst (@fetchCampaignsWithCounts campaigns_runtime 1 10 logged_in)
               = Ok campaigns_result) by (vm_compute; reflexivity).
  split; [exact Hr|].
  destruct (@X15_campaign_list_data_is_a_list campaigns_runtime 1 10 logged_in
              campaigns_result Hr) as (body & rows & _ & Hd & _).
  exists rows. exact Hd.
Defined.

Lemma X16_witness_diagnostic_without_token :
  stored_token (world_without_token 0) = None
  /\ requests (snd (@diagnoseStagingIssues tags_runtime (world_without_token 0)))
     = [@healthcheck_request tags_runtime].
Proof.
  assert (Ht : stored_token (world_without_token 0) = None) by reflexivity.
  split; [exact Ht|].
  destruct (@X16_diagnostic_requests tags_runtime (world_without_token 0))
    as (_ & _ & _ & _ & H & _).
  exact (H Ht).
Defined.

Lemma X17_witness_same_value_same_row :
  1 <= 1
  /\ 1 * 2 <= 2 ^ 53
  /\ tagsOfBody 1 2 page1_body = Ok page1_result
  /\ Z.of_nat (length (options page1_result)) <= 2
  /\ options page1_result !! 0%nat = Some option_A
  /\ (1 = 1 /\ 0%nat = 0%nat).
Proof.
  assert (Hp : 1 <= 1) by lia.
  assert (Hb : tagsOfBody 1 2 page1_body = Ok page1_result)
    by (vm_compute; reflexivity).
  assert (Hl : Z.of_nat (length (options page1_result)) <= 2) by (cbn; lia).
  assert (Ho : options page1_result !! 0%nat = Some option_A) by reflexivity.
  assert (Hd : 1 * 2 <= 2 ^ 53) by (vm_compute; discriminate).
  split; [exact Hp|]. split; [exact Hd|]. split; [exact Hb|]. split; [exact Hl|].
  split; [exact Ho|].
  exact (X17_tag_values_differ_across_pages 1 1 2 page1_body page1_body
           page1_result page1_result 0 0 option_A option_A Hp Hp Hd Hd Hb Hb Hl Hl Ho Ho
           eq_refl).
Defined.

Lemma X18_witness_india :
  -6000 < -330 < 6000
  /\ MeetingModal.getTimezoneOffsetString (-330) = "+05:30"
  /\ String.length (MeetingModal.getTimezoneOffsetString (-330)) = 6%nat.
Proof.
  assert (Hb : -6000 < -330 < 6000) by lia.
  split; [exact Hb|].
  destruct (X18_offset_string_determines_the_offset (-330) (-330) Hb Hb) as (H & Hl & _).
  split; [rewrite H; reflexivity | exact Hl].
Defined.

Lemma X19_witness_empty_form :
  filled (MeetingModal.newMeeting "l1") = false
  /\ fst (MeetingModal.onSubmit accepting accepting_update 300 None (Ok tt) JNull
            (MeetingModal.newMeeting "l1"))
     = [MeetingModal.Alert_alert "Error" "Please fill in all required fields."].
Proof.
  assert (Hf : filled (MeetingModal.newMeeting "l1") = false) by reflexivity.
  split; [exact Hf|].
  destruct (X19_submit_checks_the_form_and_resets_loading accepting accepting_update 300
              None (Ok tt) JNull (MeetingModal.newMeeting "l1")) as (_ & H & _).
  exact (H Hf).
Defined.

Lemma X20_witness_edit_without_id :
  filled review = true
  /\ truthy without_id = true
  /\ truthy (optional_get without_id "_id") = false
  /\ accepting (meetingData_of 300 review) = Ok (JObj [("success", JBool true)])
  /\ (let events := fst (MeetingModal.onSubmit accepting accepting_update 300 None (Ok tt)
                             without_id review) in
      List.filter is_api_call events
      = [MeetingModal.call_addMeeting (meetingData_of 300 review)]
      /\ List.filter is_toast events
         = [MeetingModal.Toast_show "Meeting updated successfully"]).
Proof.
  assert (Hf : filled review = true) by reflexivity.
  assert (He : truthy without_id = true) by reflexivity.
  assert (Hi : truthy (optional_get without_id "_id") = false) by reflexivity.
  assert (Ha : accepting (meetingData_of 300 review)
               = Ok (JObj [("success", JBool true)])) by reflexivity.
  split; [exact Hf|]. split; [exact He|]. split; [exact Hi|]. split; [exact Ha|].
  destruct (X20_update_needs_an_id accepting accepting_update 300 None (Ok tt)
              without_id review Hf) as (_ & _ & _ & H).
  apply (H He Hi). rewrite Ha. reflexivity.
Defined.

Lemma X21_witness_update_fails_without_message :
  filled review = true
  /\ failing_update (JStr "m1") (meetingData_of 300 review) = Throw ""
  /\ fst (MeetingModal.onSubmit accepting failing_update 300 None (Ok tt) with_id review)
     = [MeetingModal.setLoading true;
        MeetingModal.call_updateMeeting (JStr "m1") review_sent;
        MeetingModal.console_error "Error updating meeting:" "";
        MeetingModal.Alert_alert "Error" "Failed to update meeting";
        MeetingModal.setLoading false].
Proof.
  assert (Hf : filled review = true) by reflexivity.
  assert (Hu : failing_update (JStr "m1") (meetingData_of 300 review) = Throw "")
    by reflexivity.
  split; [exact Hf|]. split; [exact Hu|].
  destruct (X21_form_closes_only_after_success accepting failing_update 300 None (Ok tt)
              with_id review Hf) as (H & _).
  exact (H "" Hu).
Defined.

Lemma X22_witness_local_date_west_of_utc :
  filled review = true
  /\ (10 <= String.length (MeetingModal.Date review))%nat
  /\ exists meetingData,
       sent (fst (MeetingModal.onSubmit accepting accepting_update 300 None (Ok tt) JNull
                    review)) = Some meetingData
       /\ has_timezone (MeetingModal.Date meetingData) = true
       /\ MeetingModal.Date meetingData = "2024-05-06T10:30:00-05:00".
Proof.
  assert (Hf : filled review = true) by reflexivity.
  assert (Hl : (10 <= String.length (MeetingModal.Date review))%nat) by (cbn; lia).
  split; [exact Hf|]. split; [exact Hl|].
  destruct (X22_offset_is_appended_once accepting accepting_update 300 None (Ok tt) JNull
              review Hf (or_introl Hl)) as (md & H1 & H2 & _ & _ & H5).
  exists md. split; [exact H1|]. split; [exact H2|].
  rewrite (H5 eq_refl). reflexivity.
Defined.

Lemma X24_witness_unknown_id_dropped :
  In bo (MeetingModal.getSelectedUsers [ann; bo] ["u2"; "zz"; "u1"])
  /\ map MeetingModal._id (MeetingModal.getSelectedUsers [ann; bo] ["u2"; "zz"; "u1"])
     = ["u2"; "u1"]
  /\ MeetingModal.getSelectedUser [ann; bo] "u2" = Some bo.
Proof.
  assert (Hin : In bo (MeetingModal.getSelectedUsers [ann; bo] ["u2"; "zz"; "u1"]))
    by (left; reflexivity).
  split; [exact Hin|].
  destruct (X24_selected_users_follow_the_ids [ann; bo] ["u2"; "zz"; "u1"]) as (H1 & H2).
  split; [rewrite H1; reflexivity|].
  exact (proj2 (proj2 (H2 bo Hin))).
Defined.

Lemma X25_witness_failed_fetch :
  meetings_down (MeetingsTab._id some_lead) = Throw ""
  /\ (let st := MeetingsTab.fetchMeetings meetings_down some_lead
                  MeetingsTab.initialState in
      MeetingsTab.meetings st = JArr []
      /\ MeetingsTab.error st = Some "Failed to fetch meetings"
      /\ MeetingsTab.toasts st = ["Error fetching meetings: "]).
Proof.
  assert (Hd : meetings_down (MeetingsTab._id some_lead) = Throw "") by reflexivity.
  split; [exact Hd|].
  destruct (X25_fetch_meetings_outcomes meetings_down some_lead MeetingsTab.initialState)
    as (_ & _ & _ & _ & H).
  exact (H "" Hd).
Defined.


Lemma X29_witness_urgent :
  In ("Urgent", "Urgent") MeetingModal.priorityOptions
  /\ MeetingsTab.getPriorityColor "Urgent" = default_colour.
Proof.
  assert (Hin : In ("Urgent", "Urgent") MeetingModal.priorityOptions)
    by (do 3 right; left; reflexivity).
  split; [exact Hin|].
  destruct X29_form_values_in_the_colours_of_the_tab as (H & _).
  exact (proj2 (H ("Urgent", "Urgent") Hin) eq_refl).
Defined.

End MoreWitnesses.
